(** * MIE memory graph engine: tool handlers and reader queries

    A shallow embedding of the store / bulk-store tool handlers
    (package [tools]) and of the reader's search, list and traversal
    queries (package [memory]), with the properties the specification
    states about them; then of the query tool, the reader's lookups,
    invalidation chain, exports and statistics, and the client's usage
    counters, with further properties read off the code.

    Conventions.
    - Go's [any] values that reach the handlers are decoded JSON; they are
      the constructors of [any] below.  A finite [float64] is modelled by
      the rational it denotes (comparisons with the constants 0 and 1 are
      then exact); NaN and the infinities cannot be produced by the JSON
      decoder and are outside the model.
    - Go's [int] is 64 bits wide; arithmetic on it is written with
      [wrap_int].
    - A Go [error] is its message.
    - [map[string]T] is [gmap string T]; slices are lists. *)

From Stdlib Require Import ZArith QArith String Ascii List Lia DecimalString
  DecimalPos.
From stdpp Require Import gmap strings list fin_maps sorting.

#[local] Set Warnings "-register-all".
#[local] Open Scope Z_scope.
#[local] Open Scope string_scope.
#[local] Open Scope list_scope.

(** ** Values and basic helpers *)

Inductive any : Type :=
| ANil
| AStr (s : string)
| AF64 (q : Q)
| AInt (z : Z)
| AI64 (z : Z)
| ABool (b : bool)
| AArr (l : list any)
| AObj (m : gmap string any).

(** [(T, error)] results. *)
Inductive result (A : Type) : Type :=
| Ok (a : A)
| Err (e : string).
Arguments Ok {A} a.
Arguments Err {A} e.

Definition nl : string := String (ascii_of_nat 10) EmptyString.

Definition min_int : Z := - 2 ^ 63.
Definition max_int : Z := 2 ^ 63 - 1.

(** Two's-complement wrap-around of a 64-bit [int]. *)
Definition wrap_int (z : Z) : Z := (z + 2 ^ 63) mod 2 ^ 64 - 2 ^ 63.

(** [%d] of an [int]. *)
Definition fmt_d (z : Z) : string := NilZero.string_of_int (Z.to_int z).

(** [int(f)] for a finite [float64]: truncation toward zero.  (Go leaves
    the result unspecified when the truncated value does not fit an
    [int]; the handlers only compare it against slice bounds.) *)
Definition f64_to_int (q : Q) : Z := Z.quot (Qnum q) (Zpos (Qden q)).

(** Indexing a [map[string]bool]: a missing key reads as [false]. *)
Definition map_bool (m : gmap string bool) (k : string) : bool :=
  default false (m !! k).

(** [strings.Join]. *)
Fixpoint strings_Join (parts : list string) (sep : string) : string :=
  match parts with
  | [] => ""
  | [p] => p
  | p :: rest => p +:+ sep +:+ strings_Join rest sep
  end.

(** ** A state monad for code that calls the storage client *)

Definition M (S A : Type) : Type := S -> A * S.

Definition ret {S A} (a : A) : M S A := fun s => (a, s).

Definition bind {S A B} (m : M S A) (k : A -> M S B) : M S B :=
  fun s => let (a, s') := m s in k a s'.

Notation "'let*' p ':=' c 'in' k" :=
  (bind c (fun p => k))
  (at level 10, p pattern, c at level 100, k at level 200).

(** ** Package tools: types (query.go) *)

Module Tools.

Record StoreFactRequest := {
  sfr_Content : string;
  sfr_Category : string;
  sfr_Confidence : Q;
  sfr_SourceAgent : string;
  sfr_SourceConversation : string }.

Record StoreDecisionRequest := {
  sdr_Title : string;
  sdr_Rationale : string;
  sdr_Alternatives : string;
  sdr_Context : string;
  sdr_SourceAgent : string;
  sdr_SourceConversation : string }.

Record StoreEntityRequest := {
  ser_Name : string;
  ser_Kind : string;
  ser_Description : string;
  ser_SourceAgent : string }.

Record StoreEventRequest := {
  sver_Title : string;
  sver_Description : string;
  sver_EventDate : string;
  sver_SourceAgent : string;
  sver_SourceConversation : string }.

Record StoreTopicRequest := {
  str_Name : string;
  str_Description : string }.

Record Fact := {
  f_ID : string;
  f_Content : string;
  f_Category : string;
  f_Confidence : Q;
  f_SourceAgent : string;
  f_SourceConversation : string;
  f_Valid : bool;
  f_CreatedAt : Z;
  f_UpdatedAt : Z }.

Record Decision := {
  d_ID : string;
  d_Title : string;
  d_Rationale : string;
  d_Alternatives : string;
  d_Context : string;
  d_SourceAgent : string;
  d_SourceConversation : string;
  d_Status : string;
  d_CreatedAt : Z;
  d_UpdatedAt : Z }.

Record Entity := {
  e_ID : string;
  e_Name : string;
  e_Kind : string;
  e_Description : string;
  e_SourceAgent : string;
  e_CreatedAt : Z;
  e_UpdatedAt : Z }.

Record Event := {
  ev_ID : string;
  ev_Title : string;
  ev_Description : string;
  ev_EventDate : string;
  ev_SourceAgent : string;
  ev_SourceConversation : string;
  ev_CreatedAt : Z;
  ev_UpdatedAt : Z }.

Record Topic := {
  t_ID : string;
  t_Name : string;
  t_Description : string;
  t_CreatedAt : Z;
  t_UpdatedAt : Z }.

(** [SearchResult.Metadata] holds a pointer to one of the node structs. *)
Inductive Node :=
| NFact (f : Fact)
| NDecision (d : Decision)
| NEntity (e : Entity)
| NEvent (e : Event)
| NTopic (t : Topic).

Record SearchResult := {
  sr_NodeType : string;
  sr_ID : string;
  sr_Content : string;
  sr_Detail : string;
  sr_Distance : Q;
  sr_Metadata : option Node }.

Record ListOptions := {
  lo_NodeType : string;
  lo_Category : string;
  lo_Kind : string;
  lo_Status : string;
  lo_TopicName : string;
  lo_ValidOnly : bool;
  lo_Limit : Z;
  lo_Offset : Z;
  lo_SortBy : string;
  lo_SortOrder : string }.

(** The write side of the [Querier] interface, and the usage counter.
    Every method runs against the client's state [S]; an [error] return
    is [Some msg]. *)
Record Querier (S : Type) := {
  StoreFact : StoreFactRequest -> M S (result Fact);
  StoreDecision : StoreDecisionRequest -> M S (result Decision);
  StoreEntity : StoreEntityRequest -> M S (result Entity);
  StoreEvent : StoreEventRequest -> M S (result Event);
  StoreTopic : StoreTopicRequest -> M S (result Topic);
  InvalidateFact : string -> string -> string -> M S (option string);
  AddRelationship : string -> gmap string string -> M S (option string);
  IncrementCounter : string -> M S (option string) }.
Arguments StoreFact {S} _ _.
Arguments StoreDecision {S} _ _.
Arguments StoreEntity {S} _ _.
Arguments StoreEvent {S} _ _.
Arguments StoreTopic {S} _ _.
Arguments InvalidateFact {S} _ _ _ _.
Arguments AddRelationship {S} _ _ _.
Arguments IncrementCounter {S} _ _.

(** Modelled from the spec: the [ToolResult] constructors [NewResult] and
    [NewError] are declared outside the listed sources; a tool-level
    failure is a result carrying [isError = true] and the message. *)
Record ToolResult := { Text : string; IsError : bool }.

Definition NewResult (text : string) : ToolResult :=
  {| Text := text; IsError := false |}.

Definition NewError (text : string) : ToolResult :=
  {| Text := text; IsError := true |}.

(** *** A client that records its calls

    The Go tests observe the handlers through a mock that appends each
    call to a slice.  [recording c] does the same on top of any client
    [c]: it behaves as [c] and appends the call to a log. *)

Inductive Call :=
| CStoreFact (req : StoreFactRequest)
| CStoreDecision (req : StoreDecisionRequest)
| CStoreEntity (req : StoreEntityRequest)
| CStoreEvent (req : StoreEventRequest)
| CStoreTopic (req : StoreTopicRequest)
| CInvalidateFact (oldFactID newFactID reason : string)
| CAddRelationship (edgeType : string) (fields : gmap string string)
| CIncrementCounter (key : string).

Definition logged {S A} (call : Call) (m : M S A) : M (S * list Call) A :=
  fun '(s, log) => let (a, s') := m s in (a, (s', log ++ [call])).

Definition recording {S} (c : Querier S) : Querier (S * list Call) := {|
  StoreFact req := logged (CStoreFact req) (StoreFact c req);
  StoreDecision req := logged (CStoreDecision req) (StoreDecision c req);
  StoreEntity req := logged (CStoreEntity req) (StoreEntity c req);
  StoreEvent req := logged (CStoreEvent req) (StoreEvent c req);
  StoreTopic req := logged (CStoreTopic req) (StoreTopic c req);
  InvalidateFact o n r :=
    logged (CInvalidateFact o n r) (InvalidateFact c o n r);
  AddRelationship e f :=
    logged (CAddRelationship e f) (AddRelationship c e f);
  IncrementCounter k := logged (CIncrementCounter k) (IncrementCounter c k) |}.

Definition is_store_call (c : Call) : bool :=
  match c with
  | CStoreFact _ | CStoreDecision _ | CStoreEntity _
  | CStoreEvent _ | CStoreTopic _ => true
  | _ => false
  end.

(** ** store.go *)

Definition validFactCategories : gmap string bool :=
  list_to_map [("personal", true); ("professional", true);
               ("preference", true); ("technical", true);
               ("relationship", true); ("general", true)].

Definition validEntityKinds : gmap string bool :=
  list_to_map [("person", true); ("company", true); ("project", true);
               ("product", true); ("technology", true); ("place", true);
               ("other", true)].

Definition validEdgeTypes : gmap string bool :=
  list_to_map [("fact_entity", true); ("fact_topic", true);
               ("decision_topic", true); ("decision_entity", true);
               ("event_decision", true); ("entity_topic", true)].

Section Handlers.

(** Helpers of the package that are declared outside the listed sources,
    and the [fmt] verbs whose rendering is not needed: the handlers are
    verified for every choice of them.
    - [GetStringArg args key def], [GetFloat64Arg args key def]: the
      argument readers;
    - [Truncate s n]: the display truncation;
    - [ToLower]: [strings.ToLower];
    - [fmt_q], [fmt_f1]: the verbs [%q] and [%.1f]. *)
Variable GetStringArg : gmap string any -> string -> string -> string.
Variable GetFloat64Arg : gmap string any -> string -> Q -> Q.
Variable Truncate : string -> Z -> string.
Variable ToLower : string -> string.
Variable fmt_q : string -> string.
Variable fmt_f1 : Q -> string.

Context {S : Type}.

Definition storeFact (client : Querier S) (args : gmap string any)
    (sourceAgent sourceConversation : string) : M S (result Fact) :=
  let content := GetStringArg args "content" "" in
  if String.eqb content "" then
    ret (Err "content is required for fact type")
  else
    let category := GetStringArg args "category" "general" in
    let category :=
      if negb (map_bool validFactCategories category) then "general"
      else category in
    let confidence := GetFloat64Arg args "confidence" 0.8%Q in
    let confidence :=
      if Qle_bool confidence 0 || negb (Qle_bool confidence 1)
      then 0.8%Q else confidence in
    StoreFact client
      {| sfr_Content := content;
         sfr_Category := category;
         sfr_Confidence := confidence;
         sfr_SourceAgent := sourceAgent;
         sfr_SourceConversation := sourceConversation |}.

Definition storeDecision (client : Querier S) (args : gmap string any)
    (sourceAgent sourceConversation : string) : M S (result Decision) :=
  let title := GetStringArg args "title" "" in
  if String.eqb title "" then
    ret (Err "title is required for decision type")
  else
    let rationale := GetStringArg args "rationale" "" in
    if String.eqb rationale "" then
      ret (Err "rationale is required for decision type")
    else
      StoreDecision client
        {| sdr_Title := title;
           sdr_Rationale := rationale;
           sdr_Alternatives := GetStringArg args "alternatives" "[]";
           sdr_Context := GetStringArg args "context" "";
           sdr_SourceAgent := sourceAgent;
           sdr_SourceConversation := sourceConversation |}.

Definition storeEntity (client : Querier S) (args : gmap string any)
    (sourceAgent : string) : M S (result Entity) :=
  let name := GetStringArg args "name" "" in
  if String.eqb name "" then
    ret (Err "name is required for entity type")
  else
    let kind := GetStringArg args "kind" "" in
    if String.eqb kind "" then
      ret (Err "kind is required for entity type")
    else if negb (map_bool validEntityKinds kind) then
      ret (Err ("invalid entity kind " +:+ fmt_q kind +:+
                ". Must be one of: person, company, project, product, technology, place, other"))
    else
      StoreEntity client
        {| ser_Name := name;
           ser_Kind := kind;
           ser_Description := GetStringArg args "description" "";
           ser_SourceAgent := sourceAgent |}.

Definition storeEvent (client : Querier S) (args : gmap string any)
    (sourceAgent sourceConversation : string) : M S (result Event) :=
  let title := GetStringArg args "title" "" in
  if String.eqb title "" then
    ret (Err "title is required for event type")
  else
    let eventDate := GetStringArg args "event_date" "" in
    if String.eqb eventDate "" then
      ret (Err "event_date is required for event type")
    else
      StoreEvent client
        {| sver_Title := title;
           sver_Description := GetStringArg args "description" "";
           sver_EventDate := eventDate;
           sver_SourceAgent := sourceAgent;
           sver_SourceConversation := sourceConversation |}.

Definition storeTopic (client : Querier S) (args : gmap string any)
    : M S (result Topic) :=
  let name := GetStringArg args "name" "" in
  if String.eqb name "" then
    ret (Err "name is required for topic type")
  else
    StoreTopic client
      {| str_Name := ToLower name;
         str_Description := GetStringArg args "description" "" |}.

(** [storeNode] returns [(nodeID, summary, err)]. *)
Definition storeNode (client : Querier S) (args : gmap string any)
    (nodeType : string) : M S (string * string * option string) :=
  let sourceAgent := GetStringArg args "source_agent" "unknown" in
  let sourceConversation := GetStringArg args "source_conversation" "" in
  if String.eqb nodeType "fact" then
    let* r := storeFact client args sourceAgent sourceConversation in
    match r with
    | Err e => ret ("", "", Some e)
    | Ok f =>
        ret (f_ID f,
             "Content: " +:+ fmt_q (Truncate (f_Content f) 100) +:+ nl +:+
             "Category: " +:+ f_Category f +:+
             " | Confidence: " +:+ fmt_f1 (f_Confidence f) +:+
             " | Source: " +:+ f_SourceAgent f,
             None)
    end
  else if String.eqb nodeType "decision" then
    let* r := storeDecision client args sourceAgent sourceConversation in
    match r with
    | Err e => ret ("", "", Some e)
    | Ok d =>
        ret (d_ID d,
             "Title: " +:+ fmt_q (Truncate (d_Title d) 100) +:+ nl +:+
             "Rationale: " +:+ Truncate (d_Rationale d) 100 +:+ nl +:+
             "Status: " +:+ d_Status d +:+
             " | Source: " +:+ d_SourceAgent d,
             None)
    end
  else if String.eqb nodeType "entity" then
    let* r := storeEntity client args sourceAgent in
    match r with
    | Err e => ret ("", "", Some e)
    | Ok e =>
        let summary :=
          "Name: " +:+ fmt_q (e_Name e) +:+ nl +:+
          "Kind: " +:+ e_Kind e +:+ " | Source: " +:+ e_SourceAgent e in
        let summary :=
          if negb (String.eqb (e_Description e) "") then
            summary +:+ nl +:+ "Description: " +:+
            Truncate (e_Description e) 100
          else summary in
        ret (e_ID e, summary, None)
    end
  else if String.eqb nodeType "event" then
    let* r := storeEvent client args sourceAgent sourceConversation in
    match r with
    | Err e => ret ("", "", Some e)
    | Ok e =>
        ret (ev_ID e,
             "Title: " +:+ fmt_q (Truncate (ev_Title e) 100) +:+ nl +:+
             "Date: " +:+ ev_EventDate e +:+
             " | Source: " +:+ ev_SourceAgent e,
             None)
    end
  else if String.eqb nodeType "topic" then
    let* r := storeTopic client args in
    match r with
    | Err e => ret ("", "", Some e)
    | Ok t =>
        let summary := "Name: " +:+ fmt_q (t_Name t) in
        let summary :=
          if negb (String.eqb (t_Description t) "") then
            summary +:+ nl +:+ "Description: " +:+
            Truncate (t_Description t) 100
          else summary in
        ret (t_ID t, summary, None)
    end
  else
    ret ("", "", None).

(** [handleInvalidation] returns [(toolErr, invalidationMsg)]. *)
Definition handleInvalidation (client : Querier S) (args : gmap string any)
    (nodeID : string) : M S (option ToolResult * string) :=
  let invalidates := GetStringArg args "invalidates" "" in
  if String.eqb invalidates "" then
    ret (None, "")
  else if negb (String.prefix "fact:" invalidates) then
    ret (Some (NewError ("invalidates must reference a fact ID (got " +:+
                         fmt_q invalidates +:+ ")")), "")
  else
    let reason := "Replaced by " +:+ nodeID in
    let* err := InvalidateFact client invalidates nodeID reason in
    match err with
    | Some e =>
        ret (Some (NewError ("Failed to invalidate fact " +:+ invalidates +:+
                             ": " +:+ e)), "")
    | None =>
        ret (None, nl +:+ "Invalidated: [" +:+ invalidates +:+ "]" +:+ nl +:+
                   "Reason: " +:+ reason)
    end.

Definition buildEdgeFields (edgeType sourceNodeID targetID : string)
    (relMap : gmap string any) : gmap string string :=
  let fields : gmap string string := ∅ in
  if String.eqb edgeType "fact_entity" then
    <["entity_id" := targetID]> (<["fact_id" := sourceNodeID]> fields)
  else if String.eqb edgeType "fact_topic" then
    <["topic_id" := targetID]> (<["fact_id" := sourceNodeID]> fields)
  else if String.eqb edgeType "decision_topic" then
    <["topic_id" := targetID]> (<["decision_id" := sourceNodeID]> fields)
  else if String.eqb edgeType "decision_entity" then
    let fields :=
      <["entity_id" := targetID]> (<["decision_id" := sourceNodeID]> fields) in
    let role := GetStringArg relMap "role" "" in
    if negb (String.eqb role "") then <["role" := role]> fields else fields
  else if String.eqb edgeType "event_decision" then
    <["decision_id" := targetID]> (<["event_id" := sourceNodeID]> fields)
  else if String.eqb edgeType "entity_topic" then
    <["topic_id" := targetID]> (<["entity_id" := sourceNodeID]> fields)
  else fields.

(** The loop body of [storeRelationships]: one element of the slice,
    appending to the string builder [sb]. *)
Definition storeRelationship (client : Querier S) (sourceNodeID : string)
    (rel : any) (sb : string) : M S string :=
  match rel with
  | AObj relMap =>
      let edgeType := GetStringArg relMap "edge" "" in
      let targetID := GetStringArg relMap "target_id" "" in
      if String.eqb edgeType "" || String.eqb targetID "" then ret sb
      else if negb (map_bool validEdgeTypes edgeType) then
        ret (sb +:+ "- Skipped invalid edge type: " +:+ edgeType +:+ nl)
      else
        let fields := buildEdgeFields edgeType sourceNodeID targetID relMap in
        let tableName := "mie_" +:+ edgeType in
        let* err := AddRelationship client tableName fields in
        match err with
        | Some e =>
            ret (sb +:+ "- Failed " +:+ edgeType +:+ " -> [" +:+ targetID +:+
                 "]: " +:+ e +:+ nl)
        | None =>
            ret (sb +:+ "- " +:+ edgeType +:+ " -> [" +:+ targetID +:+ "]" +:+
                 nl)
        end
  | _ => ret sb
  end.

Fixpoint storeRelationships_loop (client : Querier S) (sourceNodeID : string)
    (relSlice : list any) (sb : string) : M S string :=
  match relSlice with
  | [] => ret sb
  | rel :: rest =>
      let* sb' := storeRelationship client sourceNodeID rel sb in
      storeRelationships_loop client sourceNodeID rest sb'
  end.

Definition storeRelationships (client : Querier S) (sourceNodeID : string)
    (rels : any) : M S string :=
  match rels with
  | AArr relSlice => storeRelationships_loop client sourceNodeID relSlice ""
  | _ => ret ""
  end.

Definition Store (client : Querier S) (args : gmap string any)
    : M S ToolResult :=
  let nodeType := GetStringArg args "type" "" in
  if String.eqb nodeType "" then
    ret (NewError "Missing required parameter: type")
  else
    let* (nodeID, summary, err) := storeNode client args nodeType in
    match err with
    | Some e =>
        ret (NewError ("Failed to store " +:+ nodeType +:+ ": " +:+ e))
    | None =>
        if String.eqb nodeID "" then
          ret (NewError ("Invalid type " +:+ fmt_q nodeType +:+
                 ". Must be one of: fact, decision, entity, event, topic"))
        else
          let* (toolErr, invalidationMsg) :=
            handleInvalidation client args nodeID in
          match toolErr with
          | Some te => ret te
          | None =>
              let* relMsg :=
                match args !! "relationships" with
                | Some ANil | None => ret ""
                | Some rels => storeRelationships client nodeID rels
                end in
              let* _ := IncrementCounter client "total_stores" in
              let output :=
                "Stored " +:+ nodeType +:+ " [" +:+ nodeID +:+ "]" +:+ nl +:+
                summary in
              let output :=
                if negb (String.eqb relMsg "") then
                  output +:+ nl +:+ nl +:+ "Relationships created:" +:+ nl +:+
                  relMsg
                else output in
              let output :=
                if negb (String.eqb invalidationMsg "") then
                  output +:+ nl +:+ invalidationMsg
                else output in
              ret (NewResult output)
          end
    end.

(** ** The bulk-store handler *)

Definition maxBulkItems : Z := 50.

Record bulkItem := {
  nodeID : string;
  nodeType : string;
  summary : string }.

Definition bulkItem_zero : bulkItem :=
  {| nodeID := ""; nodeType := ""; summary := "" |}.

(** [toInt] of the handler package: a JSON number to [int]. *)
Definition toInt (v : any) : Z :=
  match v with
  | AF64 val => f64_to_int val
  | AInt val => val
  | AI64 val => val
  | _ => -1
  end.

(** The loop body of [resolveBatchRefs]: what one element of the slice
    appends to [resolved]. *)
Definition resolveBatchRef (stored : list bulkItem) (rel : any) : list any :=
  match rel with
  | AObj relMap =>
      match relMap !! "target_ref" with
      | Some refIdx =>
          let idx := toInt refIdx in
          if (idx <? 0)%Z || (Z.of_nat (length stored) <=? idx)%Z then []
          else
            match stored !! Z.to_nat idx with
            | Some item =>
                if String.eqb (nodeID item) "" then []
                else
                  [AObj (<["role" := default ANil (relMap !! "role")]>
                         (<["target_id" := AStr (nodeID item)]>
                          (<["edge" := default ANil (relMap !! "edge")]> ∅)))]
            | None => []
            end
      | None => [rel]
      end
  | _ => []
  end.

Definition resolveBatchRefs (rels : any) (stored : list bulkItem) : list any :=
  match rels with
  | AArr relSlice => concat (map (resolveBatchRef stored) relSlice)
  | _ => []
  end.

(** Phase 1 carries [stored], [errors] and [typeCounts]. *)
Record phase1_acc := {
  p1_stored : list bulkItem;
  p1_errors : list string;
  p1_typeCounts : gmap string Z }.

(** [stored := make([]bulkItem, n)], no error, empty counts. *)
Definition phase1_init (n : nat) : phase1_acc :=
  {| p1_stored := replicate n bulkItem_zero;
     p1_errors := [];
     p1_typeCounts := ∅ |}.

(** One iteration of the phase 1 loop, for item [raw] at index [i]. *)
Definition phase1_step (client : Querier S) (i : nat) (raw : any)
    (acc : phase1_acc) : M S phase1_acc :=
  let add_error e :=
    {| p1_stored := p1_stored acc;
       p1_errors := p1_errors acc ++ [e];
       p1_typeCounts := p1_typeCounts acc |} in
  let idx := fmt_d (Z.of_nat i) in
  match raw with
  | AObj itemArgs =>
      let nodeType := GetStringArg itemArgs "type" "" in
      if String.eqb nodeType "" then
        ret (add_error ("item[" +:+ idx +:+
                        "]: missing required parameter: type"))
      else
        let* (nodeID, summary, err) := storeNode client itemArgs nodeType in
        match err with
        | Some e =>
            ret (add_error ("item[" +:+ idx +:+ "] (" +:+ nodeType +:+ "): "
                            +:+ e))
        | None =>
            if String.eqb nodeID "" then
              ret (add_error ("item[" +:+ idx +:+ "]: invalid type " +:+
                              fmt_q nodeType))
            else
              ret {| p1_stored :=
                       <[i := {| nodeID := nodeID; nodeType := nodeType;
                                 summary := summary |}]> (p1_stored acc);
                     p1_errors := p1_errors acc;
                     p1_typeCounts :=
                       <[nodeType :=
                           wrap_int
                             (default 0 (p1_typeCounts acc !! nodeType) + 1)]>
                       (p1_typeCounts acc) |}
        end
  | _ => ret (add_error ("item[" +:+ idx +:+ "]: not a valid object"))
  end.

Fixpoint phase1_loop (client : Querier S) (i : nat) (items : list any)
    (acc : phase1_acc) : M S phase1_acc :=
  match items with
  | [] => ret acc
  | raw :: rest =>
      let* acc' := phase1_step client i raw acc in
      phase1_loop client (Datatypes.S i) rest acc'
  end.

(** What phase 1 records for item [raw] when it is reached in client
    state [s]: the [bulkItem] written to its slot when the item is stored
    successfully (an object with a type, stored without error under a
    non-empty identifier), and nothing when the item fails. *)
Definition item_stored (client : Querier S) (raw : any) (s : S)
    : option bulkItem :=
  match raw with
  | AObj itemArgs =>
      let nodeType := GetStringArg itemArgs "type" "" in
      if String.eqb nodeType "" then None
      else
        match storeNode client itemArgs nodeType s with
        | ((nodeID, summary, None), _) =>
            if String.eqb nodeID "" then None
            else Some {| nodeID := nodeID; nodeType := nodeType;
                         summary := summary |}
        | _ => None
        end
  | _ => None
  end.

(** The client state in which phase 1 reaches item [j]. *)
Definition state_before (client : Querier S) (itemSlice : list any) (j : nat)
    (s : S) : S :=
  (phase1_loop client 0 (take j itemSlice)
     (phase1_init (length itemSlice)) s).2.

(** Phase 2 carries [errors] and [relMessages]. *)
Definition phase2_step (client : Querier S) (itemSlice : list any)
    (stored : list bulkItem) (i : nat) (item : bulkItem)
    (acc : list string * list string) : M S (list string * list string) :=
  let (errors, relMessages) := acc in
  if String.eqb (nodeID item) "" then ret acc
  else
    let itemArgs : gmap string any :=
      match itemSlice !! i with
      | Some (AObj m) => m
      | _ => ∅
      end in
    let idx := fmt_d (Z.of_nat i) in
    let* (toolErr, invalidationMsg) :=
      handleInvalidation client itemArgs (nodeID item) in
    let (errors, relMessages) :=
      match toolErr with
      | Some te =>
          (errors ++ ["item[" +:+ idx +:+ "] invalidation: " +:+ Text te],
           relMessages)
      | None =>
          if negb (String.eqb invalidationMsg "") then
            (errors, relMessages ++ ["item[" +:+ idx +:+ "]" +:+ invalidationMsg])
          else (errors, relMessages)
      end in
    match itemArgs !! "relationships" with
    | Some ANil | None => ret (errors, relMessages)
    | Some rels =>
        let resolved := resolveBatchRefs rels stored in
        let* msg := storeRelationships client (nodeID item) (AArr resolved) in
        if negb (String.eqb msg "") then
          ret (errors,
               relMessages ++ ["item[" +:+ idx +:+ "]:" +:+ nl +:+ msg])
        else ret (errors, relMessages)
    end.

Fixpoint phase2_loop (client : Querier S) (itemSlice : list any)
    (stored : list bulkItem) (i : nat) (todo : list bulkItem)
    (acc : list string * list string) : M S (list string * list string) :=
  match todo with
  | [] => ret acc
  | item :: rest =>
      let* acc' := phase2_step client itemSlice stored i item acc in
      phase2_loop client itemSlice stored (Datatypes.S i) rest acc'
  end.

(** [for range totalStored { client.IncrementCounter(...) }]. *)
Fixpoint incrementCounters (client : Querier S) (n : nat) : M S unit :=
  match n with
  | O => ret tt
  | Datatypes.S n' =>
      let* _ := IncrementCounter client "total_stores" in
      incrementCounters client n'
  end.

(** Phase 3: the text of the result. *)
Definition summary_parts (typeCounts : gmap string Z) : list string :=
  concat (map (fun nt =>
                 let c := default 0 (typeCounts !! nt) in
                 if (0 <? c)%Z then [fmt_d c +:+ " " +:+ nt +:+ "s"] else [])
              ["fact"; "decision"; "entity"; "event"; "topic"]).

Definition totalStored_of (typeCounts : gmap string Z) : Z :=
  map_fold (fun _ c total => wrap_int (total + c)) 0 typeCounts.

Fixpoint ids_text (i : nat) (stored : list bulkItem) : string :=
  match stored with
  | [] => ""
  | item :: rest =>
      (if negb (String.eqb (nodeID item) "") then
         "  [" +:+ fmt_d (Z.of_nat i) +:+ "] " +:+ nodeType item +:+ " [" +:+
         nodeID item +:+ "]" +:+ nl
       else "") +:+ ids_text (Datatypes.S i) rest
  end.

Definition bulk_output (stored : list bulkItem) (errors relMessages : list string)
    (typeCounts : gmap string Z) : string :=
  "Stored " +:+ fmt_d (totalStored_of typeCounts) +:+ " items: " +:+
  strings_Join (summary_parts typeCounts) ", " +:+ nl +:+
  nl +:+ "IDs:" +:+ nl +:+ ids_text 0 stored +:+
  (if (0 <? Z.of_nat (length relMessages))%Z then
     nl +:+ "Relationships:" +:+ nl +:+ String.concat "" relMessages
   else "") +:+
  (if (0 <? Z.of_nat (length errors))%Z then
     nl +:+ "Errors (" +:+ fmt_d (Z.of_nat (length errors)) +:+ "):" +:+ nl +:+
     String.concat "" (map (fun e => "  - " +:+ e +:+ nl) errors)
   else "").

Definition BulkStore (client : Querier S) (args : gmap string any)
    : M S ToolResult :=
  match args !! "items" with
  | None | Some ANil => ret (NewError "Missing required parameter: items")
  | Some (AArr itemSlice) =>
      if (Z.of_nat (length itemSlice) =? 0)%Z then
        ret (NewError "items must be a non-empty array")
      else if (maxBulkItems <? Z.of_nat (length itemSlice))%Z then
        ret (NewError ("Too many items: " +:+
                       fmt_d (Z.of_nat (length itemSlice)) +:+
                       " (max " +:+ fmt_d maxBulkItems +:+ ")"))
      else
        let* p1 :=
          phase1_loop client 0 itemSlice
            (phase1_init (length itemSlice)) in
        let stored := p1_stored p1 in
        let typeCounts := p1_typeCounts p1 in
        let* (errors, relMessages) :=
          phase2_loop client itemSlice stored 0 stored (p1_errors p1, []) in
        let* _ :=
          incrementCounters client (Z.to_nat (totalStored_of typeCounts)) in
        ret (NewResult (bulk_output stored errors relMessages typeCounts))
  | Some _ => ret (NewError "items must be a non-empty array")
  end.

End Handlers.

End Tools.

(** ** Package memory: the reader *)

#[global] Instance Qle_dec (x y : Q) : Decision (Qle x y).
Proof. unfold Qle. apply _. Defined.

Module Memory.
Import Tools.

(** Modelled from the spec: the stored relations, whose schema is declared
    outside the listed sources.  Each node relation is keyed by the node
    identifier (identifiers are unique within a variant) and carries the
    variant's fields; [mie_fact_entity] is a relation on a fact identifier
    and an entity identifier. *)
Record FactRow := {
  fr_content : string;
  fr_category : string;
  fr_confidence : Q;
  fr_source_agent : string;
  fr_source_conversation : string;
  fr_valid : bool;
  fr_created_at : Z;
  fr_updated_at : Z }.

Record DecisionRow := {
  dr_title : string;
  dr_rationale : string;
  dr_status : string }.

Record EntityRow := {
  er_name : string;
  er_kind : string;
  er_description : string;
  er_source_agent : string;
  er_created_at : Z;
  er_updated_at : Z }.

Record EventRow := {
  vr_title : string;
  vr_description : string;
  vr_event_date : string }.

Record TopicRow := {
  tr_name : string;
  tr_description : string }.

Record Database := {
  mie_fact : gmap string FactRow;
  mie_decision : gmap string DecisionRow;
  mie_entity : gmap string EntityRow;
  mie_event : gmap string EventRow;
  mie_topic : gmap string TopicRow;
  mie_fact_entity : gset (string * string) }.

(** The result of [backend.Query]. *)
Record QueryResult := {
  Headers : list string;
  Rows : list (list any) }.

(** A number column as the backend returns it. *)
Definition ANum (z : Z) : any := AF64 (inject_Z z).

(** [str_includes(s, sub)] of the query language. *)
Definition str_includes (s sub : string) : bool :=
  match String.index 0 sub s with
  | Some _ => true
  | None => false
  end.

(** [row[i]]; the rows built below always have the columns that are read
    without a length check. *)
Definition row_at (row : list any) (i : nat) : any := default ANil (row !! i).

(** *** Relational reading of the query scripts

    The reader sends query scripts to the storage backend.  Their
    evaluation is written here as the comprehension each script denotes
    over the stored relations.  A string literal ['%s'] filled with
    [escapeDatalog(x)] denotes [x]. *)

Definition dist_le (a b : Q * list any) : Prop := Qle a.1 b.1.

#[global] Instance dist_le_dec (a b : Q * list any) : base.Decision (dist_le a b).
Proof. unfold dist_le. apply _. Defined.

(** [~index { id | query: q, k, ef, bind_distance: distance },
     *rel { id, cols... }, keep]: the index hits joined with the node
    relation. *)
Definition hnsw_join {Row} (rel : gmap string Row) (keep : Row -> bool)
    (cols : string -> Row -> list any) (hits : list (string * Q))
    : list (Q * list any) :=
  omap (fun '(id, distance) =>
          match rel !! id with
          | Some r =>
              if keep r then Some (distance, cols id r ++ [AF64 distance])
              else None
          | None => None
          end) hits.

(** [:order distance :limit n].  The order among rows at equal distance
    is the backend's; no property below depends on it. *)
Definition order_limit (limit : Z) (rows : list (Q * list any))
    : list (list any) :=
  take (Z.to_nat limit) (map snd (merge_sort dist_le rows)).

(** [*rel { id, cols... }, keep :limit n]. *)
Definition scan_limit {Row} (rel : gmap string Row) (keep : Row -> bool)
    (cols : string -> Row -> list any) (limit : Z) : list (list any) :=
  take (Z.to_nat limit)
    (omap (fun '(id, r) => if keep r then Some (cols id r) else None)
          (map_to_list rel)).

Definition fact_search_cols (id : string) (r : FactRow) : list any :=
  [AStr id; AStr (fr_content r); AStr (fr_category r); AF64 (fr_confidence r)].

Definition decision_search_cols (id : string) (r : DecisionRow) : list any :=
  [AStr id; AStr (dr_title r); AStr (dr_rationale r); AStr (dr_status r)].

Definition entity_search_cols (id : string) (r : EntityRow) : list any :=
  [AStr id; AStr (er_name r); AStr (er_kind r); AStr (er_description r)].

Definition event_search_cols (id : string) (r : EventRow) : list any :=
  [AStr id; AStr (vr_title r); AStr (vr_description r); AStr (vr_event_date r)].

Definition topic_search_cols (id : string) (r : TopicRow) : list any :=
  [AStr id; AStr (tr_name r); AStr (tr_description r)].

Definition fact_node_cols (id : string) (r : FactRow) : list any :=
  [AStr id; AStr (fr_content r); AStr (fr_category r); AF64 (fr_confidence r);
   AStr (fr_source_agent r); AStr (fr_source_conversation r);
   ABool (fr_valid r); ANum (fr_created_at r); ANum (fr_updated_at r)].

Definition entity_node_cols (id : string) (r : EntityRow) : list any :=
  [AStr id; AStr (er_name r); AStr (er_kind r); AStr (er_description r);
   AStr (er_source_agent r); ANum (er_created_at r); ANum (er_updated_at r)].

(** The node structs of a stored fact and of a stored entity. *)
Definition fact_of (id : string) (r : FactRow) : Fact :=
  {| f_ID := id; f_Content := fr_content r; f_Category := fr_category r;
     f_Confidence := fr_confidence r; f_SourceAgent := fr_source_agent r;
     f_SourceConversation := fr_source_conversation r;
     f_Valid := fr_valid r; f_CreatedAt := fr_created_at r;
     f_UpdatedAt := fr_updated_at r |}.

Definition entity_of (id : string) (r : EntityRow) : Entity :=
  {| e_ID := id; e_Name := er_name r; e_Kind := er_kind r;
     e_Description := er_description r; e_SourceAgent := er_source_agent r;
     e_CreatedAt := er_created_at r; e_UpdatedAt := er_updated_at r |}.

(** The vector index of an embedded variant, as the scripts name it. *)
Definition embedding_index (nt : string) : string :=
  "mie_" +:+ nt +:+ "_embedding:" +:+ nt +:+ "_embedding_idx".

Definition embedded_variants : list string :=
  ["fact"; "decision"; "entity"; "event"].

Section Reader.

(** What the reader is built on:
    - [Vec], [embedder]: the embedding generator ([None] when embeddings
      are disabled) with its [GenerateQuery];
    - [hnsw index q k ef]: the hits [(id, distance)] of the vector index,
      or [None] when the backend rejects the query (for instance when the
      index does not exist);
    - [exact_fails nt]: whether the backend fails the substring query of
      variant [nt];
    - [backend_err m]: the error of the backend on the query of reader
      method [m], if it fails;
    - [backend_Query]: the backend on a script given as text;
    - [fmt_v]: the verb [%v];
    - [nodeTypeToTable], [escapeDatalog], [strings_TrimSpace]: helpers
      declared outside the listed sources, and [strings.TrimSpace]. *)
Variable Vec : Type.
Variable embedder : option (string -> result Vec).
Variable hnsw : string -> Vec -> Z -> Z -> option (list (string * Q)).
Variable exact_fails : string -> bool.
Variable backend_err : string -> option string.
Variable backend_Query : string -> result QueryResult.
Variable fmt_v : any -> string.
Variable nodeTypeToTable : string -> string.
Variable escapeDatalog : string -> string.
Variable strings_TrimSpace : string -> string.
Variable db : Database.

Definition toString (v : any) : string :=
  match v with
  | ANil => ""
  | AStr s => s
  | _ => fmt_v v
  end.

Definition toInt64 (v : any) : Z :=
  match v with
  | AF64 n => f64_to_int n
  | AI64 n => n
  | AInt n => n
  | _ => 0
  end.

Definition toFloat64 (v : any) : Q :=
  match v with
  | AF64 n => n
  | AInt n => inject_Z n
  | AI64 n => inject_Z n
  | _ => 0%Q
  end.

Definition toBool (v : any) : bool :=
  match v with
  | ABool b => b
  | _ => false
  end.

Definition row_distance (row : list any) : Q :=
  if (4 <? Z.of_nat (length row))%Z then toFloat64 (row_at row 4) else 0%Q.

Definition parseSearchResult (nodeType : string) (row : list any)
    : SearchResult :=
  let id := toString (row_at row 0) in
  let content := toString (row_at row 1) in
  if String.eqb nodeType "fact" then
    {| sr_NodeType := nodeType; sr_ID := id; sr_Content := content;
       sr_Detail := toString (row_at row 2);
       sr_Distance := row_distance row;
       sr_Metadata := Some (NFact
         {| f_ID := id; f_Content := content;
            f_Category := toString (row_at row 2);
            f_Confidence := 0%Q; f_SourceAgent := "";
            f_SourceConversation := ""; f_Valid := false;
            f_CreatedAt := 0; f_UpdatedAt := 0 |}) |}
  else if String.eqb nodeType "decision" then
    {| sr_NodeType := nodeType; sr_ID := id; sr_Content := content;
       sr_Detail := toString (row_at row 2);
       sr_Distance := row_distance row;
       sr_Metadata := Some (NDecision
         {| d_ID := id; d_Title := content; d_Rationale := "";
            d_Alternatives := ""; d_Context := ""; d_SourceAgent := "";
            d_SourceConversation := ""; d_Status := "";
            d_CreatedAt := 0; d_UpdatedAt := 0 |}) |}
  else if String.eqb nodeType "entity" then
    {| sr_NodeType := nodeType; sr_ID := id; sr_Content := content;
       sr_Detail := toString (row_at row 3);
       sr_Distance := row_distance row;
       sr_Metadata := Some (NEntity
         {| e_ID := id; e_Name := content; e_Kind := toString (row_at row 2);
            e_Description := ""; e_SourceAgent := "";
            e_CreatedAt := 0; e_UpdatedAt := 0 |}) |}
  else if String.eqb nodeType "event" then
    {| sr_NodeType := nodeType; sr_ID := id; sr_Content := content;
       sr_Detail := toString (row_at row 2);
       sr_Distance := row_distance row;
       sr_Metadata := Some (NEvent
         {| ev_ID := id; ev_Title := content; ev_Description := "";
            ev_EventDate := ""; ev_SourceAgent := "";
            ev_SourceConversation := "";
            ev_CreatedAt := 0; ev_UpdatedAt := 0 |}) |}
  else if String.eqb nodeType "topic" then
    {| sr_NodeType := nodeType; sr_ID := id; sr_Content := content;
       sr_Detail :=
         if (2 <? Z.of_nat (length row))%Z then toString (row_at row 2)
         else "";
       sr_Distance := 0%Q;
       sr_Metadata := Some (NTopic
         {| t_ID := id; t_Name := content; t_Description := "";
            t_CreatedAt := 0; t_UpdatedAt := 0 |}) |}
  else
    {| sr_NodeType := nodeType; sr_ID := ""; sr_Content := "";
       sr_Detail := ""; sr_Distance := 0%Q; sr_Metadata := None |}.

Definition parseNode (nodeType : string) (row : list any) : option Node :=
  if String.eqb nodeType "fact" then
    if (Z.of_nat (length row) <? 9)%Z then None
    else Some (NFact
      {| f_ID := toString (row_at row 0);
         f_Content := toString (row_at row 1);
         f_Category := toString (row_at row 2);
         f_Confidence := toFloat64 (row_at row 3);
         f_SourceAgent := toString (row_at row 4);
         f_SourceConversation := toString (row_at row 5);
         f_Valid := toBool (row_at row 6);
         f_CreatedAt := toInt64 (row_at row 7);
         f_UpdatedAt := toInt64 (row_at row 8) |})
  else if String.eqb nodeType "decision" then
    if (Z.of_nat (length row) <? 10)%Z then None
    else Some (NDecision
      {| d_ID := toString (row_at row 0);
         d_Title := toString (row_at row 1);
         d_Rationale := toString (row_at row 2);
         d_Alternatives := toString (row_at row 3);
         d_Context := toString (row_at row 4);
         d_SourceAgent := toString (row_at row 5);
         d_SourceConversation := toString (row_at row 6);
         d_Status := toString (row_at row 7);
         d_CreatedAt := toInt64 (row_at row 8);
         d_UpdatedAt := toInt64 (row_at row 9) |})
  else if String.eqb nodeType "entity" then
    if (Z.of_nat (length row) <? 7)%Z then None
    else Some (NEntity
      {| e_ID := toString (row_at row 0);
         e_Name := toString (row_at row 1);
         e_Kind := toString (row_at row 2);
         e_Description := toString (row_at row 3);
         e_SourceAgent := toString (row_at row 4);
         e_CreatedAt := toInt64 (row_at row 5);
         e_UpdatedAt := toInt64 (row_at row 6) |})
  else if String.eqb nodeType "event" then
    if (Z.of_nat (length row) <? 8)%Z then None
    else Some (NEvent
      {| ev_ID := toString (row_at row 0);
         ev_Title := toString (row_at row 1);
         ev_Description := toString (row_at row 2);
         ev_EventDate := toString (row_at row 3);
         ev_SourceAgent := toString (row_at row 4);
         ev_SourceConversation := toString (row_at row 5);
         ev_CreatedAt := toInt64 (row_at row 6);
         ev_UpdatedAt := toInt64 (row_at row 7) |})
  else if String.eqb nodeType "topic" then
    if (Z.of_nat (length row) <? 5)%Z then None
    else Some (NTopic
      {| t_ID := toString (row_at row 0);
         t_Name := toString (row_at row 1);
         t_Description := toString (row_at row 2);
         t_CreatedAt := toInt64 (row_at row 3);
         t_UpdatedAt := toInt64 (row_at row 4) |})
  else None.

(** *** SemanticSearch *)

(** The script of one variant, evaluated: the index is queried with
    [k = limit*5] and [ef = 200], the hits are joined with the node
    relation (for facts, [valid = true]), ordered by distance and cut at
    [limit].  [None] when the variant is not one of the four embedded
    ones or when the backend returns an error: the loop continues with
    the next variant in both cases. *)
Definition semantic_rows (nt : string) (queryEmb : Vec) (limit : Z)
    : option (list (list any)) :=
  let k := wrap_int (limit * 5) in
  if String.eqb nt "fact" then
    hits ← hnsw "mie_fact_embedding:fact_embedding_idx" queryEmb k 200;
    Some (order_limit limit
            (hnsw_join (mie_fact db) fr_valid fact_search_cols hits))
  else if String.eqb nt "decision" then
    hits ← hnsw "mie_decision_embedding:decision_embedding_idx" queryEmb k 200;
    Some (order_limit limit
            (hnsw_join (mie_decision db) (fun _ => true)
                       decision_search_cols hits))
  else if String.eqb nt "entity" then
    hits ← hnsw "mie_entity_embedding:entity_embedding_idx" queryEmb k 200;
    Some (order_limit limit
            (hnsw_join (mie_entity db) (fun _ => true)
                       entity_search_cols hits))
  else if String.eqb nt "event" then
    hits ← hnsw "mie_event_embedding:event_embedding_idx" queryEmb k 200;
    Some (order_limit limit
            (hnsw_join (mie_event db) (fun _ => true)
                       event_search_cols hits))
  else None.

(** Whether the join of a variant's script keeps index hit [id]: the
    node exists in the variant's relation (and, for a fact, is valid). *)
Definition node_joinable (nt id : string) : bool :=
  if String.eqb nt "fact" then
    match mie_fact db !! id with Some r => fr_valid r | None => false end
  else if String.eqb nt "decision" then
    match mie_decision db !! id with Some _ => true | None => false end
  else if String.eqb nt "entity" then
    match mie_entity db !! id with Some _ => true | None => false end
  else if String.eqb nt "event" then
    match mie_event db !! id with Some _ => true | None => false end
  else false.

(** The [for _, nt := range nodeTypes] loop: the parsed rows of every
    variant, in order. *)
Definition semantic_collect (nodeTypes : list string) (queryEmb : Vec)
    (limit : Z) : list SearchResult :=
  concat (map (fun nt =>
                 match semantic_rows nt queryEmb limit with
                 | Some rows => map (parseSearchResult nt) rows
                 | None => []
                 end) nodeTypes).

Definition result_le (a b : SearchResult) : Prop :=
  Qle (sr_Distance a) (sr_Distance b).

#[global] Instance result_le_dec (a b : SearchResult)
  : base.Decision (result_le a b).
Proof. unfold result_le. apply _. Defined.

(** [sort.Slice(results, func(i, j) { return results[i].Distance <
    results[j].Distance })].  [sort.Slice] is not stable; no property
    below depends on the order among results at equal distance. *)
Definition sort_by_distance (results : list SearchResult)
    : list SearchResult :=
  merge_sort result_le results.

Definition default_node_types (nodeTypes dflt : list string) : list string :=
  if (Z.of_nat (length nodeTypes) =? 0)%Z then dflt else nodeTypes.

Definition SemanticSearch (query : string) (nodeTypes : list string)
    (limit : Z) : result (list SearchResult) :=
  match embedder with
  | None => Err "semantic search requires embeddings to be enabled"
  | Some GenerateQuery =>
      let limit := if (limit <=? 0)%Z then 10 else limit in
      match GenerateQuery query with
      | Err e => Err ("generate query embedding: " +:+ e)
      | Ok queryEmb =>
          let nodeTypes :=
            default_node_types nodeTypes
              ["fact"; "decision"; "entity"; "event"] in
          let results := semantic_collect nodeTypes queryEmb limit in
          let results := sort_by_distance results in
          let results :=
            if (limit <? Z.of_nat (length results))%Z
            then take (Z.to_nat limit) results else results in
          Ok results
      end
  end.

(** *** ExactSearch *)

Definition exact_rows (nt : string) (query : string) (limit : Z)
    : option (list (list any)) :=
  if exact_fails nt then None
  else if String.eqb nt "fact" then
    Some (scan_limit (mie_fact db)
            (fun r => fr_valid r && str_includes (fr_content r) query)
            fact_search_cols limit)
  else if String.eqb nt "decision" then
    Some (scan_limit (mie_decision db)
            (fun r => str_includes (dr_title r) query
                      || str_includes (dr_rationale r) query)
            decision_search_cols limit)
  else if String.eqb nt "entity" then
    Some (scan_limit (mie_entity db)
            (fun r => str_includes (er_name r) query
                      || str_includes (er_description r) query)
            entity_search_cols limit)
  else if String.eqb nt "event" then
    Some (scan_limit (mie_event db)
            (fun r => str_includes (vr_title r) query
                      || str_includes (vr_description r) query)
            event_search_cols limit)
  else if String.eqb nt "topic" then
    Some (scan_limit (mie_topic db)
            (fun r => str_includes (tr_name r) query
                      || str_includes (tr_description r) query)
            topic_search_cols limit)
  else None.

Definition exact_collect (nodeTypes : list string) (query : string)
    (limit : Z) : list SearchResult :=
  concat (map (fun nt =>
                 match exact_rows nt query limit with
                 | Some rows => map (parseSearchResult nt) rows
                 | None => []
                 end) nodeTypes).

Definition ExactSearch (query : string) (nodeTypes : list string)
    (limit : Z) : result (list SearchResult) :=
  let limit := if (limit <=? 0)%Z then 10 else limit in
  let nodeTypes :=
    default_node_types nodeTypes
      ["fact"; "decision"; "entity"; "event"; "topic"] in
  let results := exact_collect nodeTypes query limit in
  let results :=
    if (limit <? Z.of_nat (length results))%Z
    then take (Z.to_nat limit) results else results in
  Ok results.

(** *** Traversals through [mie_fact_entity] *)

(** [*mie_fact_entity { fact_id, entity_id }, fact_id = '%s',
     *mie_entity { id: entity_id, ... }, id = entity_id]. *)
Definition related_entities_rows (factID : string) : list (list any) :=
  omap (fun '(fact_id, entity_id) =>
          if String.eqb fact_id factID then
            match mie_entity db !! entity_id with
            | Some r => Some (entity_node_cols entity_id r)
            | None => None
            end
          else None)
       (elements (mie_fact_entity db)).

Definition GetRelatedEntities (factID : string) : result (list Entity) :=
  match backend_err "GetRelatedEntities" with
  | Some e => Err ("get related entities: " +:+ e)
  | None =>
      Ok (omap (fun row =>
                  match parseNode "entity" row with
                  | Some (NEntity ent) => Some ent
                  | _ => None
                  end)
               (related_entities_rows factID))
  end.

(** [*mie_fact_entity { fact_id, entity_id }, entity_id = '%s',
     *mie_fact { id: fact_id, ... }, id = fact_id]. *)
Definition facts_about_entity_rows (entityID : string) : list (list any) :=
  omap (fun '(fact_id, entity_id) =>
          if String.eqb entity_id entityID then
            match mie_fact db !! fact_id with
            | Some r => Some (fact_node_cols fact_id r)
            | None => None
            end
          else None)
       (elements (mie_fact_entity db)).

Definition GetFactsAboutEntity (entityID : string) : result (list Fact) :=
  match backend_err "GetFactsAboutEntity" with
  | Some e => Err ("get facts about entity: " +:+ e)
  | None =>
      Ok (omap (fun row =>
                  match parseNode "fact" row with
                  | Some (NFact fact) => Some fact
                  | _ => None
                  end)
               (facts_about_entity_rows entityID))
  end.

Definition GetRelatedFacts (entityID : string) : result (list Fact) :=
  GetFactsAboutEntity entityID.

(** *** ListNodes *)

Definition buildListConditions (opts : ListOptions) : list string :=
  if String.eqb (lo_NodeType opts) "fact" then
    (if negb (String.eqb (lo_Category opts) "") then
       ["category = '" +:+ escapeDatalog (lo_Category opts) +:+ "'"]
     else []) ++
    (if lo_ValidOnly opts then ["valid = true"] else [])
  else if String.eqb (lo_NodeType opts) "decision" then
    if negb (String.eqb (lo_Status opts) "") then
      ["status = '" +:+ escapeDatalog (lo_Status opts) +:+ "'"]
    else []
  else if String.eqb (lo_NodeType opts) "entity" then
    if negb (String.eqb (lo_Kind opts) "") then
      ["kind = '" +:+ escapeDatalog (lo_Kind opts) +:+ "'"]
    else []
  else [].

Definition columnsForNodeType (nodeType : string) : string :=
  if String.eqb nodeType "fact" then
    "id, content, category, confidence, source_agent, source_conversation, valid, created_at, updated_at"
  else if String.eqb nodeType "decision" then
    "id, title, rationale, alternatives, context, source_agent, source_conversation, status, created_at, updated_at"
  else if String.eqb nodeType "entity" then
    "id, name, kind, description, source_agent, created_at, updated_at"
  else if String.eqb nodeType "event" then
    "id, title, description, event_date, source_agent, source_conversation, created_at, updated_at"
  else if String.eqb nodeType "topic" then
    "id, name, description, created_at, updated_at"
  else "id".

Definition list_condStr (conditions : list string) : string :=
  if (0 <? Z.of_nat (length conditions))%Z
  then ", " +:+ strings_Join conditions ", " else "".

(** The limit, the order column and the [:order] argument that
    [ListNodes] puts in its script. *)
Definition list_limit (opts : ListOptions) : Z :=
  if (lo_Limit opts <=? 0)%Z then 20 else lo_Limit opts.

Definition list_sortBy (opts : ListOptions) : string :=
  if String.eqb (lo_SortBy opts) "" then "created_at" else lo_SortBy opts.

Definition list_sortOrder (opts : ListOptions) : string :=
  if negb (String.eqb (lo_SortOrder opts) "asc")
  then "-" +:+ list_sortBy opts else list_sortBy opts.

(** The script [ListNodes] sends, for a known table. *)
Definition list_script (opts : ListOptions) (table : string) : string :=
  let columns := columnsForNodeType (lo_NodeType opts) in
  "?[" +:+ columns +:+ "] := *" +:+ table +:+ " { " +:+ columns +:+ " }" +:+
  list_condStr (buildListConditions opts) +:+
  " :order " +:+ list_sortOrder opts +:+
  " :limit " +:+ fmt_d (list_limit opts) +:+
  " :offset " +:+ fmt_d (lo_Offset opts).

Definition countNodes (table : string) (conditions : list string)
    (condStr : string) : result Z :=
  let countCols :=
    "id" :: concat (map (fun cond =>
                           match String.index 0 " = " cond with
                           | Some (Datatypes.S eqIdx) =>
                               [strings_TrimSpace
                                  (String.substring 0 (Datatypes.S eqIdx) cond)]
                           | _ => []
                           end) conditions) in
  let countScript :=
    "?[count(id)] := *" +:+ table +:+ " { " +:+
    strings_Join countCols ", " +:+ " }" +:+ condStr in
  match backend_Query countScript with
  | Err e => Err ("count nodes: " +:+ e)
  | Ok countResult =>
      match Rows countResult with
      | row :: _ =>
          match row_at row 0 with
          | AF64 v => Ok (f64_to_int v)
          | AInt v => Ok v
          | _ => Ok 0
          end
      | [] => Ok 0
      end
  end.

Definition ListNodes (opts : ListOptions) : result (list Node * Z) :=
  let table := nodeTypeToTable (lo_NodeType opts) in
  if String.eqb table "" then
    Err ("unknown node type: " +:+ lo_NodeType opts)
  else
    let conditions := buildListConditions opts in
    match backend_Query (list_script opts table) with
    | Err e => Err ("list nodes: " +:+ e)
    | Ok qr =>
        match countNodes table conditions (list_condStr conditions) with
        | Err e => Err e
        | Ok totalCount =>
            Ok (omap (parseNode (lo_NodeType opts)) (Rows qr), totalCount)
        end
    end.

End Reader.

End Memory.

(** ** Test fixtures

    The Go tests run the handlers on literal argument maps against
    [MockQuerier].  The same inputs are used here to instantiate the
    theorems. *)

Module Fixtures.
Import Tools.

(** Argument readers for the test inputs: the value under [key] when it
    has the requested type, the default otherwise. *)
Definition test_GetStringArg (args : gmap string any) (key def : string)
    : string :=
  match args !! key with
  | Some (AStr s) => s
  | _ => def
  end.

Definition test_GetFloat64Arg (args : gmap string any) (key : string) (def : Q)
    : Q :=
  match args !! key with
  | Some (AF64 q) => q
  | Some (AInt z) => inject_Z z
  | Some (AI64 z) => inject_Z z
  | _ => def
  end.

Definition test_Truncate (s : string) (n : Z) : string :=
  String.substring 0 (Z.to_nat n) s.

Definition test_ToLower (s : string) : string := s.

Definition test_fmt_q (s : string) : string :=
  String (ascii_of_nat 34) s +:+ String (ascii_of_nat 34) "".

Definition test_fmt_f1 (q : Q) : string := fmt_d (f64_to_int q).

(** [MockQuerier] with no function field set. *)
Definition MockQuerier : Querier unit := {|
  StoreFact req := ret (Ok
    {| f_ID := "fact:mock0001"; f_Content := sfr_Content req;
       f_Category := sfr_Category req; f_Confidence := sfr_Confidence req;
       f_SourceAgent := sfr_SourceAgent req; f_SourceConversation := "";
       f_Valid := true; f_CreatedAt := 1000; f_UpdatedAt := 1000 |});
  StoreDecision req := ret (Ok
    {| d_ID := "dec:mock0001"; d_Title := sdr_Title req;
       d_Rationale := sdr_Rationale req; d_Alternatives := "";
       d_Context := ""; d_SourceAgent := sdr_SourceAgent req;
       d_SourceConversation := ""; d_Status := "active";
       d_CreatedAt := 1000; d_UpdatedAt := 1000 |});
  StoreEntity req := ret (Ok
    {| e_ID := "ent:mock0001"; e_Name := ser_Name req; e_Kind := ser_Kind req;
       e_Description := ser_Description req;
       e_SourceAgent := ser_SourceAgent req;
       e_CreatedAt := 1000; e_UpdatedAt := 1000 |});
  StoreEvent req := ret (Ok
    {| ev_ID := "evt:mock0001"; ev_Title := sver_Title req;
       ev_Description := ""; ev_EventDate := sver_EventDate req;
       ev_SourceAgent := sver_SourceAgent req; ev_SourceConversation := "";
       ev_CreatedAt := 1000; ev_UpdatedAt := 1000 |});
  StoreTopic req := ret (Ok
    {| t_ID := "top:mock0001"; t_Name := str_Name req;
       t_Description := str_Description req;
       t_CreatedAt := 1000; t_UpdatedAt := 1000 |});
  InvalidateFact _ _ _ := ret None;
  AddRelationship _ _ := ret None;
  IncrementCounter _ := ret None |}.

(** The mock of [TestStore_StorageError] and [TestBulkStore_PartialFailure]:
    [StoreFactFunc] fails. *)
Definition MockQuerier_StoreFactFails (msg : string) : Querier unit := {|
  StoreFact _ := ret (Err msg);
  StoreDecision := StoreDecision MockQuerier;
  StoreEntity := StoreEntity MockQuerier;
  StoreEvent := StoreEvent MockQuerier;
  StoreTopic := StoreTopic MockQuerier;
  InvalidateFact := InvalidateFact MockQuerier;
  AddRelationship := AddRelationship MockQuerier;
  IncrementCounter := IncrementCounter MockQuerier |}.

(** A mock whose [InvalidateFactFunc] fails. *)
Definition MockQuerier_InvalidateFails (msg : string) : Querier unit := {|
  StoreFact := StoreFact MockQuerier;
  StoreDecision := StoreDecision MockQuerier;
  StoreEntity := StoreEntity MockQuerier;
  StoreEvent := StoreEvent MockQuerier;
  StoreTopic := StoreTopic MockQuerier;
  InvalidateFact _ _ _ := ret (Some msg);
  AddRelationship := AddRelationship MockQuerier;
  IncrementCounter := IncrementCounter MockQuerier |}.

Definition run_Store {S} (c : Querier S) :=
  Store test_GetStringArg test_GetFloat64Arg test_Truncate test_ToLower
        test_fmt_q test_fmt_f1 c.

Definition run_BulkStore {S} (c : Querier S) :=
  BulkStore test_GetStringArg test_GetFloat64Arg test_Truncate test_ToLower
            test_fmt_q test_fmt_f1 c.

Definition obj (l : list (string * any)) : any := AObj (list_to_map l).

(** The batch of [TestBulkStore_CrossBatchReferences] (scenario S4). *)
Definition batch_S4 : gmap string any :=
  list_to_map
    [("items",
      AArr [obj [("type", AStr "entity"); ("name", AStr "Kraklabs");
                 ("kind", AStr "company")];
            obj [("type", AStr "fact");
                 ("content", AStr "User works at Kraklabs");
                 ("relationships",
                  AArr [obj [("edge", AStr "fact_entity");
                             ("target_ref", AF64 0)]])]])].

Definition items_S4 : list any :=
  match batch_S4 !! "items" with
  | Some (AArr l) => l
  | _ => []
  end.

(** The relationship of item 1 of [batch_S4]. *)
Definition rel_S4 : gmap string any :=
  list_to_map [("edge", AStr "fact_entity"); ("target_ref", AF64 0)].

(** The batch of [TestBulkStore_EmptyItems]. *)
Definition batch_empty : gmap string any := list_to_map [("items", AArr [])].

(** The request of [TestStore_EntityInvalidKind]. *)
Definition args_bad_kind : gmap string any :=
  list_to_map [("type", AStr "entity"); ("name", AStr "Test");
               ("kind", AStr "invalid_kind")].

(** A fact request with an unknown category and a confidence above 1. *)
Definition args_coerced : gmap string any :=
  list_to_map [("type", AStr "fact"); ("content", AStr "Some fact");
               ("category", AStr "bogus"); ("confidence", AF64 1.5)].

(** The request of [TestStore_WithInvalidation]. *)
Definition args_invalidates : gmap string any :=
  list_to_map [("type", AStr "fact"); ("content", AStr "User moved to NYC");
               ("category", AStr "personal");
               ("invalidates", AStr "fact:old123")].

(** The same request with an [invalidates] that is not a fact id. *)
Definition args_invalidates_entity : gmap string any :=
  list_to_map [("type", AStr "fact"); ("content", AStr "User moved to NYC");
               ("category", AStr "personal");
               ("invalidates", AStr "ent:old123")].

(** *** A small graph (scenario S3, with an entity) *)

Import Memory.

Definition fact_A : FactRow :=
  {| fr_content := "Water freezes at 10 degrees Celsius";
     fr_category := "general"; fr_confidence := 0.7;
     fr_source_agent := "unknown"; fr_source_conversation := "";
     fr_valid := false; fr_created_at := 1000; fr_updated_at := 1001 |}.

Definition fact_B : FactRow :=
  {| fr_content := "Water freezes at 0 degrees Celsius";
     fr_category := "general"; fr_confidence := 0.95;
     fr_source_agent := "unknown"; fr_source_conversation := "";
     fr_valid := true; fr_created_at := 1001; fr_updated_at := 1001 |}.

Definition entity_W : EntityRow :=
  {| er_name := "Water"; er_kind := "other"; er_description := "";
     er_source_agent := "unknown"; er_created_at := 999;
     er_updated_at := 999 |}.

Definition test_db : Database :=
  {| mie_fact := list_to_map [("fact:A", fact_A); ("fact:B", fact_B)];
     mie_decision := ∅;
     mie_entity := list_to_map [("ent:W", entity_W)];
     mie_event := ∅;
     mie_topic := ∅;
     mie_fact_entity := list_to_set [("fact:A", "ent:W"); ("fact:B", "ent:W")] |}.

(** The same graph with an edge from an identifier that names no fact. *)
Definition test_db_dangling : Database :=
  {| mie_fact := mie_fact test_db;
     mie_decision := ∅;
     mie_entity := mie_entity test_db;
     mie_event := ∅;
     mie_topic := ∅;
     mie_fact_entity := list_to_set [("fact:ghost", "ent:W")] |}.

(** A mock embedder and vector index: both facts and the entity are
    indexed; there is no decision or event index. *)
Definition test_embedder : option (string -> result unit) :=
  Some (fun _ => Ok tt).

Definition test_hnsw (index : string) (q : unit) (k ef : Z)
    : option (list (string * Q)) :=
  if String.eqb index "mie_fact_embedding:fact_embedding_idx" then
    Some (take (Z.to_nat k) [("fact:A", 0.1%Q); ("fact:B", 0.3%Q)])
  else if String.eqb index "mie_entity_embedding:entity_embedding_idx" then
    Some (take (Z.to_nat k) [("ent:W", 0.2%Q)])
  else None.

Definition test_fmt_v (v : any) : string := "".

Definition test_escapeDatalog (s : string) : string := s.

Definition test_nodeTypeToTable (nodeType : string) : string :=
  if String.eqb nodeType "fact" then "mie_fact"
  else if String.eqb nodeType "decision" then "mie_decision"
  else if String.eqb nodeType "entity" then "mie_entity"
  else if String.eqb nodeType "event" then "mie_event"
  else if String.eqb nodeType "topic" then "mie_topic"
  else "".

Definition test_backend_Query (script : string) : result QueryResult :=
  Ok {| Headers := []; Rows := [] |}.

Definition run_SemanticSearch :=
  SemanticSearch unit test_embedder test_hnsw test_fmt_v test_db.

Definition run_ExactSearch :=
  ExactSearch (fun _ => false) test_fmt_v test_db.

(** A list call with a sort field that is no column and a limit of 500. *)
Definition opts_bogus : Tools.ListOptions :=
  {| lo_NodeType := "fact"; lo_Category := ""; lo_Kind := "";
     lo_Status := ""; lo_TopicName := ""; lo_ValidOnly := false;
     lo_Limit := 500; lo_Offset := 0; lo_SortBy := "bogus";
     lo_SortOrder := "desc" |}.

(** A list call that leaves sort field and limit unspecified. *)
Definition opts_default : Tools.ListOptions :=
  {| lo_NodeType := "fact"; lo_Category := ""; lo_Kind := "";
     lo_Status := ""; lo_TopicName := ""; lo_ValidOnly := true;
     lo_Limit := 0; lo_Offset := 0; lo_SortBy := "";
     lo_SortOrder := "" |}.

(** The batch of [TestBulkStore_PartialFailure]. *)
Definition batch_partial : gmap string any :=
  list_to_map
    [("items",
      AArr [obj [("type", AStr "entity"); ("name", AStr "Go");
                 ("kind", AStr "technology")];
            obj [("type", AStr "fact"); ("content", AStr "will fail")];
            obj [("type", AStr "topic"); ("name", AStr "testing")]])].

(** The request of [TestStore_FactDefaultCategory]. *)
Definition args_default_fact : gmap string any :=
  list_to_map [("type", AStr "fact"); ("content", AStr "Some fact")].

End Fixtures.

(** ** The calls the store handlers make

    What a recording client is expected to log, as a function of the
    handler's input alone. *)

Module ToolsCalls.
Import Tools.

Definition edge_types : list string :=
  ["fact_entity"; "fact_topic"; "decision_topic"; "decision_entity";
   "event_decision"; "entity_topic"].

Definition node_types : list string :=
  ["fact"; "decision"; "entity"; "event"; "topic"].

Definition is_increment (c : Call) : bool :=
  match c with
  | CIncrementCounter _ => true
  | _ => false
  end.

Definition is_add_relationship (c : Call) : bool :=
  match c with
  | CAddRelationship _ _ => true
  | _ => false
  end.

(** The number of slots of [stored] that hold a stored item. *)
Definition count_stored (stored : list bulkItem) : nat :=
  length (filter (fun item => nodeID item <> "") stored).

(** A computation on a recording client that only appends calls to the
    log, each of them a store of a node. *)
Definition makes_store_calls {S A} (m : M (S * list Call) A) : Prop :=
  forall (s : S) (log : list Call),
    exists calls,
      (m (s, log)).2.2 = log ++ calls
      /\ Forall (fun call => is_store_call call = true) calls.

(** A computation on a recording client that only appends calls to the
    log, none of them an [IncrementCounter]. *)
Definition makes_no_increment {S A} (m : M (S * list Call) A) : Prop :=
  forall (s : S) (log : list Call),
    exists calls,
      (m (s, log)).2.2 = log ++ calls
      /\ Forall (fun call => is_increment call = false) calls.

Section Calls.

Variable GetStringArg : gmap string any -> string -> string -> string.

(** The call one element of a relationships slice gives rise to: none
    unless the element is an object with a non-empty edge and target and
    a known edge type. *)
Definition relationship_calls (sourceNodeID : string) (rel : any)
    : list Call :=
  match rel with
  | AObj relMap =>
      let edgeType := GetStringArg relMap "edge" "" in
      let targetID := GetStringArg relMap "target_id" "" in
      if String.eqb edgeType "" || String.eqb targetID "" then []
      else if map_bool validEdgeTypes edgeType then
        [CAddRelationship ("mie_" +:+ edgeType)
           (buildEdgeFields GetStringArg edgeType sourceNodeID targetID
              relMap)]
      else []
  | _ => []
  end.

(** An element of a relationships slice that is an object without a
    [target_ref]: one that names its target itself. *)
Definition has_no_ref (rel : any) : bool :=
  match rel with
  | AObj relMap =>
      match relMap !! "target_ref" with
      | Some _ => false
      | None => true
      end
  | _ => false
  end.

(** The call [handleInvalidation] gives rise to: none unless
    [invalidates] is a fact identifier. *)
Definition invalidation_calls (args : gmap string any) (nodeID : string)
    : list Call :=
  let invalidates := GetStringArg args "invalidates" "" in
  if String.eqb invalidates "" then []
  else if negb (String.prefix "fact:" invalidates) then []
  else [CInvalidateFact invalidates nodeID ("Replaced by " +:+ nodeID)].

(** [itemArgs, _ := itemSlice[i].(map[string]any)]. *)
Definition item_args (itemSlice : list any) (i : nat) : gmap string any :=
  match itemSlice !! i with
  | Some (AObj m) => m
  | _ => ∅
  end.

(** The relationship calls of one stored item of a batch: those of its
    relationships after reference resolution. *)
Definition item_relationship_calls (stored : list bulkItem)
    (itemArgs : gmap string any) (nodeID : string) : list Call :=
  match itemArgs !! "relationships" with
  | Some ANil | None => []
  | Some rels =>
      concat (map (relationship_calls nodeID) (resolveBatchRefs rels stored))
  end.

(** The calls of phase 2 of a bulk store over the items [todo], the
    first of which has index [i]: for each stored item, its
    invalidation and then its relationships. *)
Fixpoint phase2_calls (itemSlice : list any) (stored : list bulkItem)
    (i : nat) (todo : list bulkItem) : list Call :=
  match todo with
  | [] => []
  | item :: rest =>
      (if String.eqb (nodeID item) "" then []
       else
         invalidation_calls (item_args itemSlice i) (nodeID item)
         ++ item_relationship_calls stored (item_args itemSlice i)
              (nodeID item))
      ++ phase2_calls itemSlice stored (Datatypes.S i) rest
  end.

(** The required field of a variant that a request leaves empty, if
    any, in the order the handlers test them. *)
Definition missing_field (args : gmap string any) (nodeType : string)
    : option string :=
  let empty key := String.eqb (GetStringArg args key "") "" in
  if String.eqb nodeType "fact" then
    if empty "content" then Some "content" else None
  else if String.eqb nodeType "decision" then
    if empty "title" then Some "title"
    else if empty "rationale" then Some "rationale" else None
  else if String.eqb nodeType "entity" then
    if empty "name" then Some "name"
    else if empty "kind" then Some "kind" else None
  else if String.eqb nodeType "event" then
    if empty "title" then Some "title"
    else if empty "event_date" then Some "event_date" else None
  else if String.eqb nodeType "topic" then
    if empty "name" then Some "name" else None
  else None.

End Calls.

End ToolsCalls.

(** ** Views of the stored relations used to state the reader's properties *)

Module ReaderViews.
Import Tools Memory.

(** The text a search result displays for node [id] of variant [nt]
    when the variant's substring script selects it for [query]: the
    node is stored, its searched columns include [query] and, for a
    fact, it is valid. *)
Definition exact_match (db : Database) (query nt id : string)
    : option string :=
  if String.eqb nt "fact" then
    r ← mie_fact db !! id;
    if fr_valid r && str_includes (fr_content r) query
    then Some (fr_content r) else None
  else if String.eqb nt "decision" then
    r ← mie_decision db !! id;
    if str_includes (dr_title r) query || str_includes (dr_rationale r) query
    then Some (dr_title r) else None
  else if String.eqb nt "entity" then
    r ← mie_entity db !! id;
    if str_includes (er_name r) query || str_includes (er_description r) query
    then Some (er_name r) else None
  else if String.eqb nt "event" then
    r ← mie_event db !! id;
    if str_includes (vr_title r) query || str_includes (vr_description r) query
    then Some (vr_title r) else None
  else if String.eqb nt "topic" then
    r ← mie_topic db !! id;
    if str_includes (tr_name r) query || str_includes (tr_description r) query
    then Some (tr_name r) else None
  else None.

(** The effective limit of the two search operators. *)
Definition search_limit (limit : Z) : Z :=
  if (limit <=? 0)%Z then 10 else limit.

(** The options with the filters of other variants cleared: [category]
    and [valid_only] belong to facts, [status] to decisions, [kind] to
    entities. *)
Definition own_filters (opts : ListOptions) : ListOptions :=
  let nt := lo_NodeType opts in
  {| lo_NodeType := nt;
     lo_Category := if String.eqb nt "fact" then lo_Category opts else "";
     lo_Kind := if String.eqb nt "entity" then lo_Kind opts else "";
     lo_Status := if String.eqb nt "decision" then lo_Status opts else "";
     lo_TopicName := "";
     lo_ValidOnly := if String.eqb nt "fact" then lo_ValidOnly opts else false;
     lo_Limit := lo_Limit opts;
     lo_Offset := lo_Offset opts;
     lo_SortBy := lo_SortBy opts;
     lo_SortOrder := lo_SortOrder opts |}.

(** The page requested by the options. *)
Definition with_page (opts : ListOptions) (limit offset : Z)
    (sortBy sortOrder : string) : ListOptions :=
  {| lo_NodeType := lo_NodeType opts;
     lo_Category := lo_Category opts;
     lo_Kind := lo_Kind opts;
     lo_Status := lo_Status opts;
     lo_TopicName := lo_TopicName opts;
     lo_ValidOnly := lo_ValidOnly opts;
     lo_Limit := limit;
     lo_Offset := offset;
     lo_SortBy := sortBy;
     lo_SortOrder := sortOrder |}.

(** The variant a node struct belongs to. *)
Definition node_variant (n : Node) : string :=
  match n with
  | NFact _ => "fact"
  | NDecision _ => "decision"
  | NEntity _ => "entity"
  | NEvent _ => "event"
  | NTopic _ => "topic"
  end.

End ReaderViews.

(** ** Package memory: lookups, the invalidation chain and the exports *)

Module MemoryReader.
Import Tools Memory.

Record Invalidation := {
  inv_NewFactID : string;
  inv_OldFactID : string;
  inv_Reason : string;
  inv_OldContent : string;
  inv_NewContent : string }.

Section Lookup.

(** [GetNodeByID] and [getNodeByType] are kept on the text of their
    scripts: [backend_Query] is the backend, [fmt_q] the verb [%q], and
    [nodeTypeToTable], [escapeDatalog] are the helpers declared outside
    the listed sources. *)
Variable backend_Query : string -> result QueryResult.
Variable fmt_v : any -> string.
Variable fmt_q : string -> string.
Variable nodeTypeToTable : string -> string.
Variable escapeDatalog : string -> string.

(** The prefix switch at the head of [GetNodeByID]. *)
Definition id_node_type (nodeID : string) : string :=
  if (4 <=? Z.of_nat (String.length nodeID))%Z then
    if String.prefix "ent:" nodeID then "entity"
    else if String.prefix "evt:" nodeID then "event"
    else if String.prefix "dec:" nodeID then "decision"
    else if String.prefix "top:" nodeID then "topic"
    else if String.prefix "fact:" nodeID then "fact"
    else ""
  else "".

(** [getNodeByType] returns [(node, err)]; a nil node is [None]. *)
Definition getNodeByType (nodeID nodeType : string) : result (option Node) :=
  let table := nodeTypeToTable nodeType in
  if String.eqb table "" then Err ("unknown node type: " +:+ nodeType)
  else
    let columns :=
      if String.eqb nodeType "fact" then
        "id, content, category, confidence, source_agent, source_conversation, valid, created_at, updated_at"
      else if String.eqb nodeType "decision" then
        "id, title, rationale, alternatives, context, source_agent, source_conversation, status, created_at, updated_at"
      else if String.eqb nodeType "entity" then
        "id, name, kind, description, source_agent, created_at, updated_at"
      else if String.eqb nodeType "event" then
        "id, title, description, event_date, source_agent, source_conversation, created_at, updated_at"
      else if String.eqb nodeType "topic" then
        "id, name, description, created_at, updated_at"
      else "" in
    let script :=
      "?[" +:+ columns +:+ "] := *" +:+ table +:+ " { " +:+ columns +:+
      " }, id = '" +:+ escapeDatalog nodeID +:+ "'" in
    match backend_Query script with
    | Err e => Err e
    | Ok qr =>
        match Rows qr with
        | [] => Ok None
        | row :: _ => Ok (parseNode fmt_v nodeType row)
        end
    end.

(** The fallback loop of [GetNodeByID]: the first variant whose lookup
    returns a node without error. *)
Fixpoint first_found (nodeID : string) (types : list string) : option Node :=
  match types with
  | [] => None
  | nt :: rest =>
      match getNodeByType nodeID nt with
      | Ok (Some node) => Some node
      | _ => first_found nodeID rest
      end
  end.

Definition GetNodeByID (nodeID : string) : result Node :=
  let nodeType := id_node_type nodeID in
  if negb (String.eqb nodeType "") then
    match getNodeByType nodeID nodeType with
    | Err e => Err e
    | Ok None => Err ("node " +:+ fmt_q nodeID +:+ " not found")
    | Ok (Some node) => Ok node
    end
  else
    match first_found nodeID
            ["fact"; "decision"; "entity"; "event"; "topic"] with
    | Some node => Ok node
    | None => Err ("node " +:+ fmt_q nodeID +:+ " not found")
    end.

End Lookup.

Section Relational.

(** The scripts below are read as the comprehensions they denote, as in
    the searches above:
    - [backend_err m]: the error of the backend on the query of reader
      method [m], if it fails;
    - [mie_invalidates]: the relation
      [mie_invalidates { new_fact_id, old_fact_id, reason }]. *)
Variable fmt_v : any -> string.
Variable backend_err : string -> option string.
Variable db : Database.
Variable mie_invalidates : gset (string * string * string).

(** [*mie_fact { id, ... }, str_includes(content, '%s') :limit 1]. *)
Definition FindFactByContent (content : string) : result (option Fact) :=
  match backend_err "FindFactByContent" with
  | Some e => Err e
  | None =>
      match scan_limit (mie_fact db)
              (fun r => str_includes (fr_content r) content)
              fact_node_cols 1 with
      | [] => Ok None
      | row :: _ =>
          match parseNode fmt_v "fact" row with
          | Some (NFact fact) => Ok (Some fact)
          | _ => Ok None
          end
      end
  end.

(** The two rules of the chain script differ in one equation,
    [new_fact_id = '%s'] in the first and [old_fact_id = '%s'] in the
    second; a relation is a set, so their union holds the rows for
    which either equation is true.  Both rules join [mie_fact] twice,
    for the old and for the new content. *)
Definition invalidation_rows (factID : string) : list (list any) :=
  omap (fun '(new_fact_id, old_fact_id, reason) =>
          if String.eqb new_fact_id factID || String.eqb old_fact_id factID
          then
            old ← mie_fact db !! old_fact_id;
            new ← mie_fact db !! new_fact_id;
            Some [AStr new_fact_id; AStr old_fact_id; AStr reason;
                  AStr (fr_content old); AStr (fr_content new)]
          else None)
       (elements mie_invalidates).

Definition GetInvalidationChain (factID : string)
    : result (list Invalidation) :=
  match backend_err "GetInvalidationChain" with
  | Some e => Err ("get invalidation chain: " +:+ e)
  | None =>
      Ok (map (fun row =>
                 {| inv_NewFactID := toString fmt_v (row_at row 0);
                    inv_OldFactID := toString fmt_v (row_at row 1);
                    inv_Reason := toString fmt_v (row_at row 2);
                    inv_OldContent := toString fmt_v (row_at row 3);
                    inv_NewContent := toString fmt_v (row_at row 4) |})
              (invalidation_rows factID))
  end.

(** [?[id, ...] := *mie_fact { id, ... }]: every row of the relation. *)
Definition exportFacts : result (list Fact) :=
  match backend_err "exportFacts" with
  | Some e => Err e
  | None =>
      Ok (omap (fun row =>
                  match parseNode fmt_v "fact" row with
                  | Some (NFact f) => Some f
                  | _ => None
                  end)
               (map (fun '(id, r) => fact_node_cols id r)
                    (map_to_list (mie_fact db))))
  end.

Definition exportEntities : result (list Entity) :=
  match backend_err "exportEntities" with
  | Some e => Err e
  | None =>
      Ok (omap (fun row =>
                  match parseNode fmt_v "entity" row with
                  | Some (NEntity e) => Some e
                  | _ => None
                  end)
               (map (fun '(id, r) => entity_node_cols id r)
                    (map_to_list (mie_entity db))))
  end.

End Relational.

End MemoryReader.

(** ** Package memory: the usage counters of the client (client.go) *)

Module MemoryClient.
Import Tools Memory.

(** [strconv.Atoi]: an optional sign, then one or more decimal digits;
    anything else, and a value outside the range of [int], is an
    error. *)
Definition Atoi (s : string) : option Z :=
  let '(neg, digits) :=
    match s with
    | String c rest =>
        if Ascii.eqb c "-" then (true, rest)
        else if Ascii.eqb c "+" then (false, rest)
        else (false, s)
    | EmptyString => (false, s)
    end in
  match NilZero.uint_of_string digits with
  | None => None
  | Some u =>
      let v := if neg then - Z.of_uint u else Z.of_uint u in
      if (min_int <=? v)%Z && (v <=? max_int)%Z then Some v else None
  end.

(** The [switch key] that names the timestamp of a counter. *)
Definition tsKey_of (key : string) : string :=
  if String.eqb key "total_queries" then "last_query_at"
  else if String.eqb key "total_stores" then "last_store_at"
  else "".

Section Client.

(** [mie_meta { key => value }] is a map from keys to texts.  The three
    calls [IncrementCounter] makes to the backend can each fail:
    [read_err], [write_err] and [ts_err] are their errors, if any; a
    failed [:put] leaves the relation as it was.  [now] is
    [time.Now().Unix()]. *)
Variable fmt_v : any -> string.
Variable read_err write_err ts_err : option string.
Variable now : Z.

Definition IncrementCounter (key : string) (meta : gmap string string)
    : option string * gmap string string :=
  let current :=
    match read_err, meta !! key with
    | None, Some value =>
        match Atoi (toString fmt_v (AStr value)) with
        | Some v => v
        | None => 0
        end
    | _, _ => 0
    end in
  let next := fmt_d (wrap_int (current + 1)) in
  match write_err with
  | Some e => (Some ("increment counter " +:+ key +:+ ": " +:+ e), meta)
  | None =>
      let meta := <[key := next]> meta in
      let tsKey := tsKey_of key in
      if negb (String.eqb tsKey "") then
        match ts_err with
        | Some _ => (None, meta)
        | None => (None, <[tsKey := fmt_d now]> meta)
        end
      else (None, meta)
  end.

End Client.

End MemoryClient.

(** ** Package memory: the statistics of the graph *)

Module MemoryStats.
Import Tools Memory MemoryClient.

Record GraphStats := {
  TotalFacts : Z;
  ValidFacts : Z;
  InvalidatedFacts : Z;
  TotalDecisions : Z;
  ActiveDecisions : Z;
  TotalEntities : Z;
  TotalEvents : Z;
  TotalTopics : Z;
  TotalEdges : Z;
  TotalQueries : Z;
  TotalStores : Z;
  LastQueryAt : Z;
  LastStoreAt : Z;
  SchemaVersion : string;
  StorageEngine : string;
  StoragePath : string }.

(** [toInt] of the reader: [int(toInt64(v))]. *)
Definition toInt (v : any) : Z := toInt64 v.

(** [strconv.ParseInt(v, 10, 64)] accepts what [Atoi] accepts, an [int]
    being 64 bits wide. *)
Definition ParseInt64 (s : string) : option Z := Atoi s.

Definition edgeTables : list string :=
  ["mie_invalidates"; "mie_decision_topic"; "mie_decision_entity";
   "mie_event_decision"; "mie_fact_entity"; "mie_fact_topic";
   "mie_entity_topic"].

Section Stats.

(** - [backend_fails script]: whether the backend fails on the script;
    - [ValidEdgeTables]: the columns of each edge table, declared
      outside the listed sources (a missing table reads as nil);
    - [edge_rows et]: the number of rows of the edge relation [et];
    - [meta]: the relation [mie_meta { key => value }].
    The count scripts are read as the counts they denote. *)
Variable fmt_v : any -> string.
Variable backend_fails : string -> bool.
Variable ValidEdgeTables : string -> list string.
Variable edge_rows : string -> nat.
Variable db : Database.
Variable meta : gmap string string.

(** One entry of [queries]: the destination keeps its value when the
    query fails, and receives the count otherwise. *)
Definition count_into (script : string) (count : nat) (dest : Z) : Z :=
  if backend_fails script then dest
  else
    match [[ANum (Z.of_nat count)]] with
    | row :: _ => toInt (row_at row 0)
    | [] => dest
    end.

Definition count_rows {Row} (rel : gmap string Row) (keep : Row -> bool)
    : nat :=
  length (List.filter (fun '(_, r) => keep r) (map_to_list rel)).

(** The loop over [edgeTables]. *)
Definition total_edges : Z :=
  fold_left
    (fun totalEdges et =>
       let cols := ValidEdgeTables et in
       if (Z.of_nat (length cols) <? 2)%Z then totalEdges
       else
         let query :=
           "?[count(" +:+ default "" (cols !! 0%nat) +:+ ")] := *" +:+ et
           +:+ " { " +:+ strings_Join cols ", " +:+ " }" in
         if backend_fails query then totalEdges
         else
           match [[ANum (Z.of_nat (edge_rows et))]] with
           | row :: _ => wrap_int (totalEdges + toInt (row_at row 0))
           | [] => totalEdges
           end)
    edgeTables 0.

(** One entry of [metaKeys]: the value under the key, if the query
    succeeds and has a row. *)
Definition meta_value (key : string) : option string :=
  let q := "?[value] := *mie_meta { key, value }, key = '" +:+ key +:+ "'" in
  if backend_fails q then None
  else
    match meta !! key with
    | Some value => Some (toString fmt_v (AStr value))
    | None => None
    end.

(** [GetStats] always returns a nil error. *)
Definition GetStats : GraphStats :=
  {| TotalFacts :=
       count_into "?[count(id)] := *mie_fact { id }"
         (count_rows (mie_fact db) (fun _ => true)) 0;
     ValidFacts :=
       count_into "?[count(id)] := *mie_fact { id, valid }, valid = true"
         (count_rows (mie_fact db) fr_valid) 0;
     InvalidatedFacts :=
       count_into "?[count(id)] := *mie_fact { id, valid }, valid = false"
         (count_rows (mie_fact db) (fun r => negb (fr_valid r))) 0;
     TotalDecisions :=
       count_into "?[count(id)] := *mie_decision { id }"
         (count_rows (mie_decision db) (fun _ => true)) 0;
     ActiveDecisions :=
       count_into
         "?[count(id)] := *mie_decision { id, status }, status = 'active'"
         (count_rows (mie_decision db)
            (fun r => String.eqb (dr_status r) "active")) 0;
     TotalEntities :=
       count_into "?[count(id)] := *mie_entity { id }"
         (count_rows (mie_entity db) (fun _ => true)) 0;
     TotalEvents :=
       count_into "?[count(id)] := *mie_event { id }"
         (count_rows (mie_event db) (fun _ => true)) 0;
     TotalTopics :=
       count_into "?[count(id)] := *mie_topic { id }"
         (count_rows (mie_topic db) (fun _ => true)) 0;
     TotalEdges := total_edges;
     TotalQueries :=
       match meta_value "total_queries" with
       | Some v => default 0 (Atoi v)
       | None => 0
       end;
     TotalStores :=
       match meta_value "total_stores" with
       | Some v => default 0 (Atoi v)
       | None => 0
       end;
     LastQueryAt :=
       match meta_value "last_query_at" with
       | Some v => default 0 (ParseInt64 v)
       | None => 0
       end;
     LastStoreAt :=
       match meta_value "last_store_at" with
       | Some v => default 0 (ParseInt64 v)
       | None => 0
       end;
     SchemaVersion := default "" (meta_value "schema_version");
     StorageEngine := "";
     StoragePath := "" |}.

End Stats.

End MemoryStats.

(** ** Package tools: the query tool (query.go) *)

Module QueryTool.
Import Tools MemoryReader.

(** [EntityWithRole] embeds [Entity]. *)
Record EntityWithRole := {
  ewr_Entity : Entity;
  ewr_Role : string }.

(** The part of the [Querier] interface that the query tool calls. *)
Record Querier (S : Type) := {
  EmbeddingsEnabled : M S bool;
  SemanticSearch :
    string -> list string -> Z -> M S (result (list SearchResult));
  ExactSearch :
    string -> list string -> Z -> M S (result (list SearchResult));
  GetRelatedEntities : string -> M S (result (list Entity));
  GetFactsAboutEntity : string -> M S (result (list Fact));
  GetDecisionEntities : string -> M S (result (list EntityWithRole));
  GetInvalidationChain : string -> M S (result (list Invalidation));
  GetEntityDecisions : string -> M S (result (list Decision));
  IncrementCounter : string -> M S (option string) }.
Arguments EmbeddingsEnabled {S} _ _.
Arguments SemanticSearch {S} _ _ _ _ _.
Arguments ExactSearch {S} _ _ _ _ _.
Arguments GetRelatedEntities {S} _ _ _.
Arguments GetFactsAboutEntity {S} _ _ _.
Arguments GetDecisionEntities {S} _ _ _.
Arguments GetInvalidationChain {S} _ _ _.
Arguments GetEntityDecisions {S} _ _ _.
Arguments IncrementCounter {S} _ _ _.

(** A client that records its calls, as the mock of the Go tests. *)
Inductive Call :=
| CEmbeddingsEnabled
| CSemanticSearch (query : string) (nodeTypes : list string) (limit : Z)
| CExactSearch (query : string) (nodeTypes : list string) (limit : Z)
| CGetRelatedEntities (factID : string)
| CGetFactsAboutEntity (entityID : string)
| CGetDecisionEntities (decisionID : string)
| CGetInvalidationChain (factID : string)
| CGetEntityDecisions (entityID : string)
| CIncrementCounter (key : string).

Definition logged {S A} (call : Call) (m : M S A) : M (S * list Call) A :=
  fun '(s, log) => let (a, s') := m s in (a, (s', log ++ [call])).

Definition recording {S} (c : Querier S) : Querier (S * list Call) := {|
  EmbeddingsEnabled := logged CEmbeddingsEnabled (EmbeddingsEnabled c);
  SemanticSearch q nts l :=
    logged (CSemanticSearch q nts l) (SemanticSearch c q nts l);
  ExactSearch q nts l := logged (CExactSearch q nts l) (ExactSearch c q nts l);
  GetRelatedEntities id :=
    logged (CGetRelatedEntities id) (GetRelatedEntities c id);
  GetFactsAboutEntity id :=
    logged (CGetFactsAboutEntity id) (GetFactsAboutEntity c id);
  GetDecisionEntities id :=
    logged (CGetDecisionEntities id) (GetDecisionEntities c id);
  GetInvalidationChain id :=
    logged (CGetInvalidationChain id) (GetInvalidationChain c id);
  GetEntityDecisions id :=
    logged (CGetEntityDecisions id) (GetEntityDecisions c id);
  IncrementCounter k := logged (CIncrementCounter k) (IncrementCounter c k) |}.

Definition is_increment (c : Call) : bool :=
  match c with
  | CIncrementCounter _ => true
  | _ => false
  end.

Definition is_search (c : Call) : bool :=
  match c with
  | CSemanticSearch _ _ _ | CExactSearch _ _ _ => true
  | _ => false
  end.

(** A computation on a recording client that only appends calls to the
    log, each of them satisfying [P]. *)
Definition appends {S A} (P : Call -> Prop) (m : M (S * list Call) A)
    : Prop :=
  forall (s : S) (log : list Call),
    exists calls, (m (s, log)).2.2 = log ++ calls /\ Forall P calls.

(** A call other than an increment whose search arguments, if it is a
    search, are the given ones. *)
Definition handler_call (query : string) (nodeTypes : list string)
    (limit : Z) (call : Call) : Prop :=
  match call with
  | CSemanticSearch q nts l | CExactSearch q nts l =>
      q = query /\ nts = nodeTypes /\ l = limit
  | CIncrementCounter _ => False
  | _ => True
  end.

Definition modes : list string := ["semantic"; "exact"; "graph"].

(** The two [if limit ...] of [Query]. *)
Definition clamp_limit (limit : Z) : Z :=
  let limit := if (limit <? 1)%Z then 1 else limit in
  if (50 <? limit)%Z then 50 else limit.

Definition typeLabels : gmap string string :=
  list_to_map [("fact", "Facts"); ("decision", "Decisions");
               ("entity", "Entities"); ("event", "Events")].

(** [for i, x := range l { ... i+1 ... }]: the lines of a numbered
    list. *)
Fixpoint numbered {A} (line : Z -> A -> string) (i : nat) (l : list A)
    : string :=
  match l with
  | [] => ""
  | x :: rest => line (Z.of_nat i + 1)%Z x +:+ numbered line (Datatypes.S i) rest
  end.

Section Handlers.

(** Helpers declared outside the listed sources: the argument readers,
    [Truncate], the similarity renderings, and the verbs [%q], [%.1f]. *)
Variable GetStringArg : gmap string any -> string -> string -> string.
Variable GetStringSliceArg :
  gmap string any -> string -> list string -> list string.
Variable GetIntArg : gmap string any -> string -> Z -> Z.
Variable Truncate : string -> Z -> string.
Variable SimilarityPercent : Q -> Z.
Variable SimilarityIndicator : Q -> string.
Variable fmt_q : string -> string.
Variable fmt_f1 : Q -> string.

Context {S : Type}.

(** The groups of a result list, in the order of [nodeTypes]: one
    section per requested variant that has results. *)
Definition grouped_text (line : Z -> SearchResult -> string)
    (nodeTypes : list string) (results : list SearchResult) : string :=
  String.concat ""
    (map (fun nt =>
            let items :=
              List.filter (fun r => String.eqb (sr_NodeType r) nt) results in
            if (Z.of_nat (length items) =? 0)%Z then ""
            else
              "### " +:+ default "" (typeLabels !! nt) +:+ " (" +:+
              fmt_d (Z.of_nat (length items)) +:+ " results)" +:+ nl +:+
              numbered line 0 items +:+ nl)
         nodeTypes).

Definition detail_line (item : SearchResult) : string :=
  if negb (String.eqb (sr_Detail item) "") then
    "   " +:+ sr_Detail item +:+ nl
  else "".

Definition querySemanticMode (client : Querier S) (query : string)
    (nodeTypes : list string) (limit : Z) : M S ToolResult :=
  let* enabled := EmbeddingsEnabled client in
  if negb enabled then
    ret (NewError "Semantic search requires embeddings to be enabled. Enable in config or use mode=exact.")
  else
    let* r := SemanticSearch client query nodeTypes limit in
    match r with
    | Err e => ret (NewError ("Semantic search failed: " +:+ e))
    | Ok results =>
        if (Z.of_nat (length results) =? 0)%Z then
          ret (NewResult ("## Memory Search Results for: " +:+ fmt_q query
                          +:+ nl +:+ nl +:+ "_No results found._" +:+ nl))
        else
          let line i item :=
            fmt_d i +:+ ". " +:+ SimilarityIndicator (sr_Distance item) +:+
            " " +:+ fmt_d (SimilarityPercent (sr_Distance item)) +:+ "% [" +:+
            sr_ID item +:+ "] " +:+ fmt_q (Truncate (sr_Content item) 100)
            +:+ nl +:+ detail_line item in
          ret (NewResult ("## Memory Search Results for: " +:+ fmt_q query
                          +:+ nl +:+ nl +:+
                          grouped_text line nodeTypes results))
    end.

Definition queryExactMode (client : Querier S) (query : string)
    (nodeTypes : list string) (limit : Z) : M S ToolResult :=
  let* r := ExactSearch client query nodeTypes limit in
  match r with
  | Err e => ret (NewError ("Exact search failed: " +:+ e))
  | Ok results =>
      if (Z.of_nat (length results) =? 0)%Z then
        ret (NewResult ("## Exact Search Results for: " +:+ fmt_q query
                        +:+ nl +:+ nl +:+ "_No results found._" +:+ nl))
      else
        let line i item :=
          fmt_d i +:+ ". [" +:+ sr_ID item +:+ "] " +:+
          fmt_q (Truncate (sr_Content item) 100) +:+ nl +:+
          detail_line item in
        ret (NewResult ("## Exact Search Results for: " +:+ fmt_q query
                        +:+ nl +:+ nl +:+
                        grouped_text line nodeTypes results))
  end.

(** The traversals return what they write to the builder, or the
    client's error. *)
Definition traverseRelatedEntities (client : Querier S) (nodeID : string)
    : M S (result string) :=
  let* r := GetRelatedEntities client nodeID in
  match r with
  | Err e => ret (Err e)
  | Ok entities =>
      if (Z.of_nat (length entities) =? 0)%Z then
        ret (Ok ("_No related entities found._" +:+ nl))
      else
        ret (Ok (numbered
                   (fun i e =>
                      fmt_d i +:+ ". [" +:+ e_ID e +:+ "] " +:+
                      fmt_q (e_Name e) +:+ " (kind: " +:+ e_Kind e +:+ ")"
                      +:+ nl +:+
                      (if negb (String.eqb (e_Description e) "") then
                         "   " +:+ Truncate (e_Description e) 100 +:+ nl
                       else ""))
                   0 entities))
  end.

Definition traverseRelatedFacts (client : Querier S) (nodeID : string)
    : M S (result string) :=
  let* r := GetFactsAboutEntity client nodeID in
  match r with
  | Err e => ret (Err e)
  | Ok facts =>
      if (Z.of_nat (length facts) =? 0)%Z then
        ret (Ok ("_No related facts found._" +:+ nl))
      else
        ret (Ok (numbered
                   (fun i f =>
                      let validStr :=
                        if negb (f_Valid f) then "invalidated" else "valid" in
                      fmt_d i +:+ ". [" +:+ f_ID f +:+ "] " +:+
                      fmt_q (Truncate (f_Content f) 100) +:+
                      " (category: " +:+ f_Category f +:+ ", confidence: "
                      +:+ fmt_f1 (f_Confidence f) +:+ ", " +:+ validStr +:+
                      ")" +:+ nl)
                   0 facts))
  end.

Definition traverseInvalidationChain (client : Querier S) (nodeID : string)
    : M S (result string) :=
  let* r := GetInvalidationChain client nodeID in
  match r with
  | Err e => ret (Err e)
  | Ok chain =>
      if (Z.of_nat (length chain) =? 0)%Z then
        ret (Ok ("_No invalidation chain found._" +:+ nl))
      else
        ret (Ok (numbered
                   (fun i inv =>
                      fmt_d i +:+ ". [" +:+ inv_NewFactID inv +:+ "] -> [" +:+
                      inv_OldFactID inv +:+ "]" +:+ nl +:+
                      "   Reason: " +:+ inv_Reason inv +:+ nl +:+
                      (if negb (String.eqb (inv_OldContent inv) "") then
                         "   Old: " +:+
                         fmt_q (Truncate (inv_OldContent inv) 80) +:+ nl
                       else "") +:+
                      (if negb (String.eqb (inv_NewContent inv) "") then
                         "   New: " +:+
                         fmt_q (Truncate (inv_NewContent inv) 80) +:+ nl
                       else ""))
                   0 chain))
  end.

Definition traverseDecisionEntities (client : Querier S) (nodeID : string)
    : M S (result string) :=
  let* r := GetDecisionEntities client nodeID in
  match r with
  | Err e => ret (Err e)
  | Ok entities =>
      if (Z.of_nat (length entities) =? 0)%Z then
        ret (Ok ("_No related entities found for this decision._" +:+ nl))
      else
        ret (Ok (numbered
                   (fun i e =>
                      fmt_d i +:+ ". [" +:+ e_ID (ewr_Entity e) +:+ "] " +:+
                      fmt_q (e_Name (ewr_Entity e)) +:+ " (kind: " +:+
                      e_Kind (ewr_Entity e) +:+ ", role: " +:+ ewr_Role e +:+
                      ")" +:+ nl)
                   0 entities))
  end.

Definition traverseEntityDecisions (client : Querier S) (nodeID : string)
    : M S (result string) :=
  let* r := GetEntityDecisions client nodeID in
  match r with
  | Err e => ret (Err e)
  | Ok decisions =>
      if (Z.of_nat (length decisions) =? 0)%Z then
        ret (Ok ("_No related decisions found for this entity._" +:+ nl))
      else
        ret (Ok (numbered
                   (fun i d =>
                      fmt_d i +:+ ". [" +:+ d_ID d +:+ "] " +:+
                      fmt_q (Truncate (d_Title d) 100) +:+ " (status: " +:+
                      d_Status d +:+ ")" +:+ nl)
                   0 decisions))
  end.

Definition queryGraphMode (client : Querier S) (args : gmap string any)
    : M S ToolResult :=
  let nodeID := GetStringArg args "node_id" "" in
  if String.eqb nodeID "" then
    ret (NewError "node_id is required for graph mode")
  else
    let traversal := GetStringArg args "traversal" "" in
    if String.eqb traversal "" then
      ret (NewError "traversal is required for graph mode")
    else
      let head :=
        "## Graph Traversal: " +:+ traversal +:+ " from [" +:+ nodeID +:+
        "]" +:+ nl +:+ nl in
      let finish (r : result string) : ToolResult :=
        match r with
        | Err e => NewError ("Traversal failed: " +:+ e)
        | Ok text => NewResult (head +:+ text)
        end in
      if String.eqb traversal "related_entities" then
        let* r := traverseRelatedEntities client nodeID in ret (finish r)
      else if String.eqb traversal "related_facts"
              || String.eqb traversal "facts_about_entity" then
        let* r := traverseRelatedFacts client nodeID in ret (finish r)
      else if String.eqb traversal "invalidation_chain" then
        let* r := traverseInvalidationChain client nodeID in ret (finish r)
      else if String.eqb traversal "decision_entities" then
        let* r := traverseDecisionEntities client nodeID in ret (finish r)
      else if String.eqb traversal "entity_decisions" then
        let* r := traverseEntityDecisions client nodeID in ret (finish r)
      else
        ret (NewError ("Invalid traversal type " +:+ fmt_q traversal +:+
                       ". Must be one of: related_entities, related_facts, invalidation_chain, decision_entities, facts_about_entity, entity_decisions")).

(** The three mode handlers always return a result and a nil error, so
    [Query] returns a result; its counter is incremented when the
    result is not an error. *)
Definition Query (client : Querier S) (args : gmap string any)
    : M S ToolResult :=
  let query := GetStringArg args "query" "" in
  if String.eqb query "" then
    ret (NewError "Missing required parameter: query")
  else
    let mode := GetStringArg args "mode" "semantic" in
    let nodeTypes :=
      GetStringSliceArg args "node_types"
        ["fact"; "decision"; "entity"; "event"] in
    let limit := GetIntArg args "limit" 10 in
    let limit := if (limit <? 1)%Z then 1 else limit in
    let limit := if (50 <? limit)%Z then 50 else limit in
    let counted (handler : M S ToolResult) : M S ToolResult :=
      let* result := handler in
      if negb (IsError result) then
        let* _ := IncrementCounter client "total_queries" in ret result
      else ret result in
    if String.eqb mode "semantic" then
      counted (querySemanticMode client query nodeTypes limit)
    else if String.eqb mode "exact" then
      counted (queryExactMode client query nodeTypes limit)
    else if String.eqb mode "graph" then
      counted (queryGraphMode client args)
    else
      ret (NewError ("Invalid mode " +:+ fmt_q mode +:+
                     ". Must be one of: semantic, exact, graph")).

(** The client call that serves a traversal of graph mode. *)
Definition traversal_call (traversal nodeID : string) : option Call :=
  if String.eqb traversal "related_entities" then
    Some (CGetRelatedEntities nodeID)
  else if String.eqb traversal "related_facts"
          || String.eqb traversal "facts_about_entity" then
    Some (CGetFactsAboutEntity nodeID)
  else if String.eqb traversal "invalidation_chain" then
    Some (CGetInvalidationChain nodeID)
  else if String.eqb traversal "decision_entities" then
    Some (CGetDecisionEntities nodeID)
  else if String.eqb traversal "entity_decisions" then
    Some (CGetEntityDecisions nodeID)
  else None.

End Handlers.

End QueryTool.

(** ** Package memory: the traversals between decisions and entities *)

Module MemoryTraversals.
Import Tools Memory.

(** A row of [mie_decision] with all its columns. *)
Record DecisionNodeRow := {
  dn_title : string;
  dn_rationale : string;
  dn_alternatives : string;
  dn_context : string;
  dn_source_agent : string;
  dn_source_conversation : string;
  dn_status : string;
  dn_created_at : Z;
  dn_updated_at : Z }.

Definition decision_node_cols (id : string) (r : DecisionNodeRow) : list any :=
  [AStr id; AStr (dn_title r); AStr (dn_rationale r);
   AStr (dn_alternatives r); AStr (dn_context r); AStr (dn_source_agent r);
   AStr (dn_source_conversation r); AStr (dn_status r);
   ANum (dn_created_at r); ANum (dn_updated_at r)].

Definition decision_of (id : string) (r : DecisionNodeRow) : Decision :=
  {| d_ID := id; d_Title := dn_title r; d_Rationale := dn_rationale r;
     d_Alternatives := dn_alternatives r; d_Context := dn_context r;
     d_SourceAgent := dn_source_agent r;
     d_SourceConversation := dn_source_conversation r;
     d_Status := dn_status r; d_CreatedAt := dn_created_at r;
     d_UpdatedAt := dn_updated_at r |}.

Section Traversals.

(** - [backend_err m]: the error of the backend on the query of reader
      method [m], if it fails;
    - [decisions]: the relation [mie_decision] with all its columns;
    - [mie_decision_entity]: the relation
      [mie_decision_entity { decision_id, entity_id, role }]. *)
Variable fmt_v : any -> string.
Variable backend_err : string -> option string.
Variable db : Database.
Variable decisions : gmap string DecisionNodeRow.
Variable mie_decision_entity : gset (string * string * string).

(** [*mie_decision_entity { decision_id, entity_id, role },
     decision_id = '%s', *mie_entity { id: entity_id, ... }]. *)
Definition decision_entities_rows (decisionID : string) : list (list any) :=
  omap (fun '(decision_id, entity_id, role) =>
          if String.eqb decision_id decisionID then
            r ← mie_entity db !! entity_id;
            Some (entity_node_cols entity_id r ++ [AStr role])
          else None)
       (elements mie_decision_entity).

Definition GetDecisionEntities (decisionID : string)
    : result (list QueryTool.EntityWithRole) :=
  match backend_err "GetDecisionEntities" with
  | Some e => Err ("get decision entities: " +:+ e)
  | None =>
      Ok (map (fun row =>
                 {| QueryTool.ewr_Entity :=
                      {| e_ID := toString fmt_v (row_at row 0);
                         e_Name := toString fmt_v (row_at row 1);
                         e_Kind := toString fmt_v (row_at row 2);
                         e_Description := toString fmt_v (row_at row 3);
                         e_SourceAgent := toString fmt_v (row_at row 4);
                         e_CreatedAt := toInt64 (row_at row 5);
                         e_UpdatedAt := toInt64 (row_at row 6) |};
                    QueryTool.ewr_Role := toString fmt_v (row_at row 7) |})
              (decision_entities_rows decisionID))
  end.

(** [*mie_decision_entity { decision_id, entity_id }, entity_id = '%s',
     *mie_decision { id: decision_id, ... }].  The role is not bound:
    a decision linked to the entity under several roles gives one
    row. *)
Definition entity_decisions_rows (entityID : string) : list (list any) :=
  omap (fun '(id, r) =>
          if existsb (fun '(decision_id, entity_id, _) =>
                        String.eqb decision_id id
                        && String.eqb entity_id entityID)
                     (elements mie_decision_entity)
          then Some (decision_node_cols id r)
          else None)
       (map_to_list decisions).

Definition GetEntityDecisions (entityID : string) : result (list Decision) :=
  match backend_err "GetEntityDecisions" with
  | Some e => Err ("get entity decisions: " +:+ e)
  | None =>
      Ok (omap (fun row =>
                  match parseNode fmt_v "decision" row with
                  | Some (NDecision dec) => Some dec
                  | _ => None
                  end)
               (entity_decisions_rows entityID))
  end.

End Traversals.

End MemoryTraversals.

(** ** Further test inputs *)

Module MoreFixtures.
Import Tools Memory MemoryReader Fixtures.

(** The request of [TestStore_MissingType]. *)
Definition args_no_type : gmap string any :=
  list_to_map [("content", AStr "Some fact")].

(** The request of [TestStore_FactMissingContent]. *)
Definition args_fact_no_content : gmap string any :=
  list_to_map [("type", AStr "fact")].

(** A relationships slice with a valid edge, an unknown edge type and an
    element that is no object. *)
Definition rels_mixed : list any :=
  [obj [("edge", AStr "fact_entity"); ("target_id", AStr "ent:1")];
   obj [("edge", AStr "bogus"); ("target_id", AStr "ent:1")];
   AStr "x"].

(** Relationships that carry explicit targets only. *)
Definition rels_explicit : list any :=
  [obj [("edge", AStr "fact_entity"); ("target_id", AStr "ent:1")];
   obj [("edge", AStr "fact_topic"); ("target_id", AStr "top:1")]].

(** Explicit targets between a reference that is a text, and so
    dropped, and an element that is no object. *)
Definition rels_some_refs : list any :=
  [obj [("edge", AStr "fact_entity"); ("target_id", AStr "ent:1")];
   obj [("edge", AStr "fact_entity"); ("target_ref", AStr "0");
        ("target_id", AStr "ent:1")];
   AStr "x";
   obj [("edge", AStr "fact_topic"); ("target_id", AStr "top:1")]].

(** A relationship whose reference is a text, not a number. *)
Definition rel_text_ref : gmap string any :=
  list_to_map [("edge", AStr "fact_entity"); ("target_ref", AStr "0");
               ("target_id", AStr "ent:1")].

Definition items_partial : list any :=
  match batch_partial !! "items" with
  | Some (AArr l) => l
  | _ => []
  end.

(** *** The reader *)

(** An embedder whose model is unavailable. *)
Definition test_embedder_fails : option (string -> result unit) :=
  Some (fun _ => Err "no model").

(** An entity listing that also carries the filters of facts. *)
Definition opts_entity_foreign : Tools.ListOptions :=
  {| lo_NodeType := "entity"; lo_Category := "personal"; lo_Kind := "person";
     lo_Status := "active"; lo_TopicName := "go"; lo_ValidOnly := true;
     lo_Limit := 5; lo_Offset := 0; lo_SortBy := "name";
     lo_SortOrder := "asc" |}.

Definition opts_entity_own : Tools.ListOptions :=
  {| lo_NodeType := "entity"; lo_Category := ""; lo_Kind := "person";
     lo_Status := ""; lo_TopicName := ""; lo_ValidOnly := false;
     lo_Limit := 5; lo_Offset := 0; lo_SortBy := "name";
     lo_SortOrder := "asc" |}.

Definition opts_event_filtered : Tools.ListOptions :=
  {| lo_NodeType := "event"; lo_Category := "personal"; lo_Kind := "person";
     lo_Status := "active"; lo_TopicName := ""; lo_ValidOnly := true;
     lo_Limit := 5; lo_Offset := 0; lo_SortBy := ""; lo_SortOrder := "" |}.

(** A backend that answers every script with the single row [7]. *)
Definition count_backend (script : string) : result QueryResult :=
  Ok {| Headers := []; Rows := [[AInt 7]] |}.

(** A backend for the lookups: it holds the entity [ent:W] and a topic
    [misc], and fails when the fact relation is asked for [misc]. *)
Definition lookup_backend (script : string) : result QueryResult :=
  if str_includes script "*mie_entity" && str_includes script "id = 'ent:W'"
  then Ok {| Headers := []; Rows := [entity_node_cols "ent:W" entity_W] |}
  else if str_includes script "*mie_topic" && str_includes script "id = 'misc'"
  then Ok {| Headers := [];
             Rows := [[AStr "misc"; AStr "misc"; AStr ""; ANum 1; ANum 1]] |}
  else if str_includes script "*mie_fact " && str_includes script "id = 'misc'"
  then Err "backend down"
  else Ok {| Headers := []; Rows := [] |}.

Definition run_GetNodeByID :=
  GetNodeByID lookup_backend test_fmt_v test_fmt_q test_nodeTypeToTable
    test_escapeDatalog.

Definition no_backend_err (method : string) : option string := None.

(** Fact B replaced fact A. *)
Definition test_invalidates : gset (string * string * string) :=
  list_to_set [("fact:B", "fact:A", "Replaced by fact:B")].

Definition inv_BA : Invalidation :=
  {| inv_NewFactID := "fact:B"; inv_OldFactID := "fact:A";
     inv_Reason := "Replaced by fact:B";
     inv_OldContent := "Water freezes at 10 degrees Celsius";
     inv_NewContent := "Water freezes at 0 degrees Celsius" |}.

Definition run_GetInvalidationChain :=
  GetInvalidationChain test_fmt_v no_backend_err test_db test_invalidates.

(** *** The counters *)

Definition meta_garbled : gmap string string :=
  list_to_map [("total_stores", "abc"); ("schema_version", "1")].

(** *** The statistics *)

Definition test_ValidEdgeTables (et : string) : list string :=
  if String.eqb et "mie_fact_entity" then ["fact_id"; "entity_id"]
  else if String.eqb et "mie_invalidates"
  then ["new_fact_id"; "old_fact_id"; "reason"]
  else [].

Definition test_edge_rows (et : string) : nat :=
  if String.eqb et "mie_fact_entity" then 2%nat
  else if String.eqb et "mie_invalidates" then 1%nat
  else 0%nat.

Definition run_GetStats :=
  MemoryStats.GetStats test_fmt_v (fun _ => false) test_ValidEdgeTables
    test_edge_rows test_db.

(** *** Decisions and entities *)

Definition decision_1 : MemoryTraversals.DecisionNodeRow :=
  {| MemoryTraversals.dn_title := "Freeze the water tank";
     MemoryTraversals.dn_rationale := "Water freezes at 0 degrees";
     MemoryTraversals.dn_alternatives := "[]";
     MemoryTraversals.dn_context := "";
     MemoryTraversals.dn_source_agent := "unknown";
     MemoryTraversals.dn_source_conversation := "";
     MemoryTraversals.dn_status := "active";
     MemoryTraversals.dn_created_at := 1002;
     MemoryTraversals.dn_updated_at := 1002 |}.

Definition test_decisions : gmap string MemoryTraversals.DecisionNodeRow :=
  list_to_map [("dec:1", decision_1)].

(** The decision involves the entity under two roles. *)
Definition test_decision_entity : gset (string * string * string) :=
  list_to_set [("dec:1", "ent:W", "subject"); ("dec:1", "ent:W", "owner")].

(** *** The query tool *)

Definition test_GetStringSliceArg (args : gmap string any) (key : string)
    (def : list string) : list string :=
  match args !! key with
  | Some (AArr l) =>
      omap (fun v => match v with AStr s => Some s | _ => None end) l
  | _ => def
  end.

Definition test_GetIntArg (args : gmap string any) (key : string) (def : Z)
    : Z :=
  match args !! key with
  | Some (AF64 q) => f64_to_int q
  | Some (AInt z) => z
  | Some (AI64 z) => z
  | _ => def
  end.

Definition test_SimilarityPercent (distance : Q) : Z :=
  f64_to_int ((1 - distance) * 100)%Q.

Definition test_SimilarityIndicator (distance : Q) : string := "*".

(** [MockQuerier] with no function field set, read side. *)
Definition MockReader : QueryTool.Querier unit := {|
  QueryTool.EmbeddingsEnabled := ret true;
  QueryTool.SemanticSearch _ _ _ := ret (Ok []);
  QueryTool.ExactSearch _ _ _ := ret (Ok []);
  QueryTool.GetRelatedEntities _ := ret (Ok []);
  QueryTool.GetFactsAboutEntity _ := ret (Ok []);
  QueryTool.GetDecisionEntities _ := ret (Ok []);
  QueryTool.GetInvalidationChain _ := ret (Ok []);
  QueryTool.GetEntityDecisions _ := ret (Ok []);
  QueryTool.IncrementCounter _ := ret None |}.

(** The mock with [EmbeddingsEnabledFunc] returning false. *)
Definition MockReader_NoEmbeddings : QueryTool.Querier unit := {|
  QueryTool.EmbeddingsEnabled := ret false;
  QueryTool.SemanticSearch := QueryTool.SemanticSearch MockReader;
  QueryTool.ExactSearch := QueryTool.ExactSearch MockReader;
  QueryTool.GetRelatedEntities := QueryTool.GetRelatedEntities MockReader;
  QueryTool.GetFactsAboutEntity := QueryTool.GetFactsAboutEntity MockReader;
  QueryTool.GetDecisionEntities := QueryTool.GetDecisionEntities MockReader;
  QueryTool.GetInvalidationChain := QueryTool.GetInvalidationChain MockReader;
  QueryTool.GetEntityDecisions := QueryTool.GetEntityDecisions MockReader;
  QueryTool.IncrementCounter := QueryTool.IncrementCounter MockReader |}.

Definition run_Query {S} (c : QueryTool.Querier S) :=
  QueryTool.Query test_GetStringArg test_GetStringSliceArg test_GetIntArg
    test_Truncate test_SimilarityPercent test_SimilarityIndicator
    test_fmt_q test_fmt_f1 c.

(** A semantic query that asks for 500 results. *)
Definition args_query_500 : gmap string any :=
  list_to_map [("query", AStr "test"); ("limit", AF64 500)].

(** A graph traversal without a [query]. *)
Definition args_graph_no_query : gmap string any :=
  list_to_map [("mode", AStr "graph"); ("node_id", AStr "ent:W");
               ("traversal", AStr "related_facts")].

Definition args_graph_related_facts : gmap string any :=
  list_to_map [("query", AStr "x"); ("mode", AStr "graph");
               ("node_id", AStr "ent:W");
               ("traversal", AStr "related_facts")].

End MoreFixtures.

(** * Properties *)

(** ** The enumerations of the data model *)

Definition fact_categories : list string :=
  ["personal"; "professional"; "preference"; "technical"; "relationship";
   "general"].

Definition entity_kinds : list string :=
  ["person"; "company"; "project"; "product"; "technology"; "place"; "other"].

Lemma map_bool_list_to_map (l : list (string * bool)) (k : string) :
  NoDup l.*1 ->
  Forall (fun p => p.2 = true) l ->
  map_bool (list_to_map l) k = true <-> k ∈ l.*1.
Proof.
  intros Hnd Hall. unfold map_bool. split.
  - destruct (list_to_map l !! k) as [b|] eqn:E; simpl; [|discriminate].
    intros ->. apply elem_of_list_to_map in E; [|exact Hnd].
    apply list_elem_of_fmap. exists (k, true). split; [reflexivity|exact E].
  - intros Hin. apply list_elem_of_fmap in Hin as [[k' b] [-> Hin]]. simpl.
    assert (b = true) as ->.
    { rewrite Forall_forall in Hall. apply (Hall _ Hin). }
    apply (elem_of_list_to_map (M := gmap string)) in Hin; [|exact Hnd].
    now rewrite Hin.
Qed.

Lemma validFactCategories_spec (c : string) :
  map_bool Tools.validFactCategories c = true <-> c ∈ fact_categories.
Proof.
  unfold Tools.validFactCategories. rewrite map_bool_list_to_map.
  - reflexivity.
  - apply (bool_decide_unpack _). vm_compute. reflexivity.
  - repeat constructor.
Qed.

Lemma validEntityKinds_spec (k : string) :
  map_bool Tools.validEntityKinds k = true <-> k ∈ entity_kinds.
Proof.
  unfold Tools.validEntityKinds. rewrite map_bool_list_to_map.
  - reflexivity.
  - apply (bool_decide_unpack _). vm_compute. reflexivity.
  - repeat constructor.
Qed.

Lemma Qle_bool_false (a b : Q) : Qle_bool a b = false <-> (b < a)%Q.
Proof.
  split.
  - intros H. apply Qnot_le_lt. intros Hle.
    apply Qle_bool_iff in Hle. congruence.
  - intros H. destruct (Qle_bool a b) eqn:E; [|reflexivity].
    apply Qle_bool_iff in E. exfalso. exact (Qlt_not_le _ _ H E).
Qed.

(** ** The store handler *)

Module ToolsProps.
Import Tools.

(** Unfolds one monadic step whose outcome is known or case-split. *)
Ltac run_bind := unfold bind, ret; simpl.

Section Props.

Variable GetStringArg : gmap string any -> string -> string -> string.
Variable GetFloat64Arg : gmap string any -> string -> Q -> Q.
Variable Truncate : string -> Z -> string.
Variable ToLower : string -> string.
Variable fmt_q : string -> string.
Variable fmt_f1 : Q -> string.

Abbreviation storeFact := (storeFact GetStringArg GetFloat64Arg).
Abbreviation storeEntity := (storeEntity GetStringArg fmt_q).
Abbreviation storeNode :=
  (storeNode GetStringArg GetFloat64Arg Truncate ToLower fmt_q fmt_f1).
Abbreviation handleInvalidation := (handleInvalidation GetStringArg fmt_q).
Abbreviation Store :=
  (Store GetStringArg GetFloat64Arg Truncate ToLower fmt_q fmt_f1).
Abbreviation BulkStore :=
  (BulkStore GetStringArg GetFloat64Arg Truncate ToLower fmt_q fmt_f1).
Abbreviation phase1_step :=
  (phase1_step GetStringArg GetFloat64Arg Truncate ToLower fmt_q fmt_f1).
Abbreviation phase1_loop :=
  (phase1_loop GetStringArg GetFloat64Arg Truncate ToLower fmt_q fmt_f1).
Abbreviation phase2_loop := (phase2_loop GetStringArg fmt_q).

(** C2. For every store-fact request with a content, the request handed
    to the client carries the category when it is one of the six known
    ones and [general] otherwise, and the confidence when it lies in
    (0,1] and 0.8 otherwise; the handler adds no failure of its own: its
    outcome is the client's outcome on that request. *)
Theorem storeFact_coerces_category_and_confidence
    {S} (client : Querier S) (args : gmap string any)
    (sourceAgent sourceConversation : string) (s : S) :
  GetStringArg args "content" "" <> "" ->
  let category := GetStringArg args "category" "general" in
  let confidence := GetFloat64Arg args "confidence" 0.8%Q in
  exists req,
    storeFact client args sourceAgent sourceConversation s
      = StoreFact client req s
    /\ sfr_Content req = GetStringArg args "content" ""
    /\ (category ∈ fact_categories -> sfr_Category req = category)
    /\ (category ∉ fact_categories -> sfr_Category req = "general")
    /\ ((0 < confidence)%Q /\ (confidence <= 1)%Q ->
        sfr_Confidence req = confidence)
    /\ (~ ((0 < confidence)%Q /\ (confidence <= 1)%Q) ->
        sfr_Confidence req = 0.8%Q)
    /\ sfr_Category req ∈ fact_categories
    /\ (0 < sfr_Confidence req)%Q /\ (sfr_Confidence req <= 1)%Q.
Proof.
  intros Hc category confidence. unfold Tools.storeFact.
  apply String.eqb_neq in Hc. rewrite Hc.
  fold category. fold confidence.
  eexists. split; [reflexivity|]. simpl.
  split; [reflexivity|].
  pose proof (validFactCategories_spec category) as [Hcat' Hcat].
  assert (Hg : "general" ∈ fact_categories)
    by (apply (bool_decide_unpack _); vm_compute; reflexivity).
  assert (Hc0 : Qle_bool confidence 0 = true -> ~ (0 < confidence)%Q)
    by (intros E H; apply Qle_bool_iff in E; exact (Qlt_not_le _ _ H E)).
  assert (Hc1 : Qle_bool confidence 1 = false -> ~ (confidence <= 1)%Q)
    by (intros E H; apply Qle_bool_false in E; exact (Qlt_not_le _ _ E H)).
  assert (Hc0' : Qle_bool confidence 0 = false -> (0 < confidence)%Q)
    by apply Qle_bool_false.
  assert (Hc1' : Qle_bool confidence 1 = true -> (confidence <= 1)%Q)
    by apply Qle_bool_iff.
  destruct (map_bool validFactCategories category) eqn:Ecat;
    destruct (Qle_bool confidence 0) eqn:E0;
    destruct (Qle_bool confidence 1) eqn:E1; simpl;
    repeat match goal with |- _ /\ _ => split end;
    try reflexivity; try (intros; exact Hg); try (vm_compute; easy);
    try (intros H; exfalso; tauto); auto;
    try (intros H; exfalso; apply Hcat in H; discriminate).
Qed.

(** *** Unknown entity kinds *)

Lemma storeEntity_bad_kind {S} (client : Querier S) (args : gmap string any)
    (sourceAgent : string) (s : S) :
  GetStringArg args "kind" "" ∉ entity_kinds ->
  exists e, storeEntity client args sourceAgent s = (Err e, s).
Proof.
  intros Hk. unfold Tools.storeEntity.
  destruct (String.eqb (GetStringArg args "name" "") ""); [eauto|].
  destruct (String.eqb (GetStringArg args "kind" "") ""); [eauto|].
  destruct (map_bool validEntityKinds (GetStringArg args "kind" "")) eqn:E.
  - apply validEntityKinds_spec in E. contradiction.
  - simpl. eauto.
Qed.

Lemma Store_entity_bad_kind {S} (client : Querier S) (args : gmap string any)
    (s : S) :
  GetStringArg args "type" "" = "entity" ->
  GetStringArg args "kind" "" ∉ entity_kinds ->
  exists r, Store client args s = (r, s) /\ IsError r = true.
Proof.
  intros Ht Hk. unfold Tools.Store, Tools.storeNode. rewrite Ht. simpl.
  destruct (storeEntity_bad_kind client args
              (GetStringArg args "source_agent" "unknown") s Hk) as [e He].
  unfold bind. rewrite He. simpl. eauto.
Qed.

(** C7. A store-entity request whose kind is not one of the seven known
    kinds fails with an error and performs no client operation: whatever
    the client and its state, the state is returned unchanged, and a
    recording client logs no call, so no entity is created and no
    default kind is substituted.  The same holds for the store tool
    called with type [entity]. *)
Theorem store_entity_rejects_unknown_kind
    {S} (client : Querier S) (args : gmap string any) (sourceAgent : string)
    (s : S) (log : list Call) :
  GetStringArg args "kind" "" ∉ entity_kinds ->
  (exists e, storeEntity client args sourceAgent s = (Err e, s))
  /\ (exists e, storeEntity (recording client) args sourceAgent (s, log)
                = (Err e, (s, log)))
  /\ (GetStringArg args "type" "" = "entity" ->
      exists r, Store (recording client) args (s, log) = (r, (s, log))
                /\ IsError r = true).
Proof.
  intros Hk. split; [|split].
  - now apply storeEntity_bad_kind.
  - now apply storeEntity_bad_kind.
  - intros Ht. now apply Store_entity_bad_kind.
Qed.

(** *** Batches of the wrong size *)

Lemma BulkStore_bad_size {S} (client : Querier S) (args : gmap string any)
    (itemSlice : list any) (s : S) :
  args !! "items" = Some (AArr itemSlice) ->
  (length itemSlice = 0 \/ 50 < length itemSlice)%nat ->
  exists r, BulkStore client args s = (r, s) /\ IsError r = true.
Proof.
  intros Hitems Hlen. unfold Tools.BulkStore. rewrite Hitems.
  destruct (Z.of_nat (length itemSlice) =? 0)%Z eqn:E0; [eauto|].
  destruct (maxBulkItems <? Z.of_nat (length itemSlice))%Z eqn:E1; [eauto|].
  exfalso. apply Z.eqb_neq in E0. apply Z.ltb_ge in E1.
  unfold maxBulkItems in E1. lia.
Qed.

(** C6. A bulk-store call whose items array is empty or holds more than
    50 items returns an error result and performs no client operation:
    for every client the state is unchanged, and a recording client logs
    no call. *)
Theorem BulkStore_rejects_empty_or_oversized
    {S} (client : Querier S) (args : gmap string any) (itemSlice : list any)
    (s : S) (log : list Call) :
  args !! "items" = Some (AArr itemSlice) ->
  (length itemSlice = 0 \/ 50 < length itemSlice)%nat ->
  (exists r, BulkStore client args s = (r, s) /\ IsError r = true)
  /\ (exists r, BulkStore (recording client) args (s, log) = (r, (s, log))
                /\ IsError r = true).
Proof.
  intros Hitems Hlen. split.
  - exact (BulkStore_bad_size client args itemSlice s Hitems Hlen).
  - exact (BulkStore_bad_size (recording client) args itemSlice (s, log)
             Hitems Hlen).
Qed.

(** *** A store whose invalidation fails *)

Lemma logged_run {S A} (call : Call) (m : M S A) (s : S) (log : list Call) :
  logged call m (s, log) = ((m s).1, ((m s).2, log ++ [call])).
Proof. unfold logged. now destruct (m s). Qed.

(** A successful [storeNode] has made exactly one client call, a store. *)
Lemma storeNode_recorded {S} (client : Querier S) (args : gmap string any)
    (nodeType : string) (s s1 : S) (log log1 : list Call)
    (nodeID summary : string) :
  storeNode (recording client) args nodeType (s, log)
    = ((nodeID, summary, None), (s1, log1)) ->
  nodeID <> "" ->
  exists call, is_store_call call = true /\ log1 = log ++ [call].
Proof.
  unfold Tools.storeNode.
  destruct (String.eqb nodeType "fact").
  { unfold Tools.storeFact.
    destruct (String.eqb (GetStringArg args "content" "") "");
      [run_bind; discriminate|].
    unfold bind, recording, logged; simpl.
    match goal with |- context [StoreFact client ?r s] =>
      destruct (StoreFact client r s) as [[f|e] s'] end;
      simpl; intros H _; inversion H; subst; eexists; split; eauto; reflexivity. }
  destruct (String.eqb nodeType "decision").
  { unfold Tools.storeDecision.
    destruct (String.eqb (GetStringArg args "title" "") "");
      [run_bind; discriminate|].
    destruct (String.eqb (GetStringArg args "rationale" "") "");
      [run_bind; discriminate|].
    unfold bind, recording, logged; simpl.
    match goal with |- context [StoreDecision client ?r s] =>
      destruct (StoreDecision client r s) as [[f|e] s'] end;
      simpl; intros H _; inversion H; subst; eexists; split; eauto; reflexivity. }
  destruct (String.eqb nodeType "entity").
  { unfold Tools.storeEntity.
    destruct (String.eqb (GetStringArg args "name" "") "");
      [run_bind; discriminate|].
    destruct (String.eqb (GetStringArg args "kind" "") "");
      [run_bind; discriminate|].
    destruct (negb (map_bool validEntityKinds (GetStringArg args "kind" "")));
      [run_bind; discriminate|].
    unfold bind, recording, logged; simpl.
    match goal with |- context [StoreEntity client ?r s] =>
      destruct (StoreEntity client r s) as [[f|e] s'] end;
      simpl; intros H _; inversion H; subst; eexists; split; eauto; reflexivity. }
  destruct (String.eqb nodeType "event").
  { unfold Tools.storeEvent.
    destruct (String.eqb (GetStringArg args "title" "") "");
      [run_bind; discriminate|].
    destruct (String.eqb (GetStringArg args "event_date" "") "");
      [run_bind; discriminate|].
    unfold bind, recording, logged; simpl.
    match goal with |- context [StoreEvent client ?r s] =>
      destruct (StoreEvent client r s) as [[f|e] s'] end;
      simpl; intros H _; inversion H; subst; eexists; split; eauto; reflexivity. }
  destruct (String.eqb nodeType "topic").
  { unfold Tools.storeTopic.
    destruct (String.eqb (GetStringArg args "name" "") "");
      [run_bind; discriminate|].
    unfold bind, recording, logged; simpl.
    match goal with |- context [StoreTopic client ?r s] =>
      destruct (StoreTopic client r s) as [[f|e] s'] end;
      simpl; intros H _; inversion H; subst; eexists; split; eauto; reflexivity. }
  run_bind. intros H Hne. inversion H; subst. contradiction.
Qed.

(** C9. When the store tool has stored its node (the client returned a
    non-empty identifier) and the invalidation then fails, because the
    referenced id lacks the [fact:] prefix or because the client's
    [InvalidateFact] returns an error, the tool returns an error
    result.  The calls made are the store call, followed by the failed
    [InvalidateFact] call when the prefix was right, and nothing else:
    nothing undoes the store (the client state is the one the store, or
    the failed invalidation after it, left), no relationship is added
    and the [total_stores] counter is not incremented. *)
Theorem Store_invalidation_failure_keeps_node
    {S} (client : Querier S) (args : gmap string any) (s s1 : S)
    (log log1 : list Call) (nodeID summary : string) :
  let nodeType := GetStringArg args "type" "" in
  let invalidates := GetStringArg args "invalidates" "" in
  let reason := "Replaced by " +:+ nodeID in
  nodeType <> "" ->
  storeNode (recording client) args nodeType (s, log)
    = ((nodeID, summary, None), (s1, log1)) ->
  nodeID <> "" ->
  invalidates <> "" ->
  (String.prefix "fact:" invalidates = false
   \/ exists e, (InvalidateFact client invalidates nodeID reason s1).1
                = Some e) ->
  exists r s2 store_call tail,
    Store (recording client) args (s, log)
      = (r, (s2, log ++ store_call :: tail))
    /\ IsError r = true
    /\ is_store_call store_call = true
    /\ log1 = log ++ [store_call]
    /\ (String.prefix "fact:" invalidates = false -> tail = [] /\ s2 = s1)
    /\ (String.prefix "fact:" invalidates = true ->
        tail = [CInvalidateFact invalidates nodeID reason]
        /\ s2 = (InvalidateFact client invalidates nodeID reason s1).2)
    /\ (forall e f, CAddRelationship e f ∉ store_call :: tail)
    /\ (forall k, CIncrementCounter k ∉ store_call :: tail).
Proof.
  intros nodeType invalidates reason Ht Hstore Hid Hinv Hfail.
  destruct (storeNode_recorded _ _ _ _ _ _ _ _ _ Hstore Hid)
    as (call & Hcall & ->).
  apply String.eqb_neq in Ht, Hid, Hinv.
  unfold Tools.Store. fold nodeType. rewrite Ht.
  unfold bind at 1. rewrite Hstore. simpl. rewrite Hid.
  unfold bind at 1. unfold Tools.handleInvalidation.
  fold invalidates. rewrite Hinv.
  destruct (String.prefix "fact:" invalidates) eqn:Epre; simpl.
  - destruct Hfail as [Hfail|[e He]]; [discriminate|].
    fold reason. unfold bind, logged.
    destruct (InvalidateFact client invalidates nodeID reason s1)
      as [err s2] eqn:Einv.
    simpl in He. subst err. simpl.
    exists (NewError ("Failed to invalidate fact " +:+ invalidates +:+ ": "
                      +:+ e)), s2, call,
           [CInvalidateFact invalidates nodeID reason].
    rewrite <- app_assoc. simpl.
    repeat match goal with |- _ /\ _ => split end;
      try reflexivity; try assumption; try discriminate; auto.
    + intros e' f Hin. apply elem_of_cons in Hin as [<-|Hin];
        [discriminate|].
      apply elem_of_cons in Hin as [Hin|Hin]; [discriminate|].
      now apply elem_of_nil in Hin.
    + intros k Hin. apply elem_of_cons in Hin as [<-|Hin];
        [discriminate|].
      apply elem_of_cons in Hin as [Hin|Hin]; [discriminate|].
      now apply elem_of_nil in Hin.
  - unfold ret.
    exists (NewError ("invalidates must reference a fact ID (got " +:+
                      fmt_q invalidates +:+ ")")), s1, call, [].
    repeat match goal with |- _ /\ _ => split end;
      try reflexivity; try assumption; try discriminate; auto.
    + intros e' f Hin. apply elem_of_cons in Hin as [<-|Hin];
        [discriminate|].
      now apply elem_of_nil in Hin.
    + intros k Hin. apply elem_of_cons in Hin as [<-|Hin];
        [discriminate|].
      now apply elem_of_nil in Hin.
Qed.

(** *** Bulk store: phase 1 and reference resolution *)

Abbreviation item_stored :=
  (item_stored GetStringArg GetFloat64Arg Truncate ToLower fmt_q fmt_f1).
Abbreviation state_before :=
  (state_before GetStringArg GetFloat64Arg Truncate ToLower fmt_q fmt_f1).

Lemma phase1_step_stored {S} (client : Querier S) (i : nat) (raw : any)
    (acc : phase1_acc) (s : S) :
  p1_stored (phase1_step client i raw acc s).1
  = match item_stored client raw s with
    | Some b => <[i := b]> (p1_stored acc)
    | None => p1_stored acc
    end.
Proof.
  unfold Tools.phase1_step, Tools.item_stored.
  destruct raw; try reflexivity.
  destruct (String.eqb (GetStringArg m "type" "") ""); [reflexivity|].
  unfold bind.
  destruct (storeNode client m (GetStringArg m "type" "") s)
    as [[[id sum] [e|]] s']; simpl; [reflexivity|].
  destruct (String.eqb id ""); reflexivity.
Qed.

Lemma phase1_loop_lookup {S} (client : Querier S) (items : list any) :
  forall (i : nat) (acc : phase1_acc) (s : S),
  (forall j, (i <= j)%nat -> (j < length (p1_stored acc))%nat ->
             p1_stored acc !! j = Some bulkItem_zero) ->
  (i + length items <= length (p1_stored acc))%nat ->
  let acc' := (phase1_loop client i items acc s).1 in
  length (p1_stored acc') = length (p1_stored acc)
  /\ (forall j, (j < i)%nat -> p1_stored acc' !! j = p1_stored acc !! j)
  /\ (forall k raw, items !! k = Some raw ->
        p1_stored acc' !! (i + k)%nat
        = Some (default bulkItem_zero
                  (item_stored client raw
                     (phase1_loop client i (take k items) acc s).2))).
Proof.
  induction items as [|raw0 rest IH]; intros i acc s Hzero Hlen acc'.
  - subst acc'. simpl. repeat split; auto.
    intros k raw Hk. now rewrite lookup_nil in Hk.
  - simpl in Hlen.
    pose proof (phase1_step_stored client i raw0 acc s) as Hstep.
    destruct (phase1_step client i raw0 acc s) as [acc1 s1] eqn:E.
    simpl in Hstep.
    assert (Hrun : forall l, phase1_loop client i (raw0 :: l) acc s
                   = phase1_loop client (Datatypes.S i) l acc1 s1).
    { intros l. simpl. unfold bind. now rewrite E. }
    subst acc'. rewrite Hrun.
    assert (Hlen1 : length (p1_stored acc1) = length (p1_stored acc)).
    { rewrite Hstep. destruct (item_stored client raw0 s);
        [apply length_insert|reflexivity]. }
    assert (Hne : forall j, j <> i ->
              p1_stored acc1 !! j = p1_stored acc !! j).
    { intros j Hj. rewrite Hstep. destruct (item_stored client raw0 s);
        [apply list_lookup_insert_ne; congruence|reflexivity]. }
    destruct (IH (Datatypes.S i) acc1 s1) as (IHlen & IHlow & IHk).
    { intros j Hj Hj'. rewrite Hne by lia. apply Hzero; lia. }
    { lia. }
    split; [congruence|]. split.
    + intros j Hj. rewrite IHlow by lia. apply Hne. lia.
    + intros [|k] raw Hk; simpl in Hk.
      * inversion Hk; subst raw0. rewrite Nat.add_0_r.
        rewrite IHlow by lia. simpl. rewrite Hstep.
        destruct (item_stored client raw s); simpl.
        -- apply list_lookup_insert_eq. lia.
        -- apply Hzero; lia.
      * replace (i + Datatypes.S k)%nat with (Datatypes.S i + k)%nat by lia.
        rewrite (IHk k raw Hk). simpl take. now rewrite Hrun.
Qed.

(** After phase 1, slot [j] of [stored] holds what item [j] recorded:
    its [bulkItem] when it was stored, the zero item when it failed. *)
Lemma phase1_stored_lookup {S} (client : Querier S) (itemSlice : list any)
    (s : S) (j : nat) (raw : any) :
  itemSlice !! j = Some raw ->
  p1_stored (phase1_loop client 0 itemSlice
               (phase1_init (length itemSlice)) s).1 !! j
  = Some (default bulkItem_zero
            (item_stored client raw (state_before client itemSlice j s))).
Proof.
  intros Hj.
  destruct (phase1_loop_lookup client itemSlice 0
              (phase1_init (length itemSlice)) s) as (_ & _ & Hk).
  - intros i _ Hi. simpl in *. rewrite length_replicate in Hi.
    now apply lookup_replicate_2.
  - simpl. rewrite length_replicate. lia.
  - exact (Hk j raw Hj).
Qed.

Lemma phase1_stored_length {S} (client : Querier S) (itemSlice : list any)
    (s : S) :
  length (p1_stored (phase1_loop client 0 itemSlice
                       (phase1_init (length itemSlice)) s).1)
  = length itemSlice.
Proof.
  destruct (phase1_loop_lookup client itemSlice 0
              (phase1_init (length itemSlice)) s) as (Hl & _ & _).
  - intros i _ Hi. simpl in *. rewrite length_replicate in Hi.
    now apply lookup_replicate_2.
  - simpl. rewrite length_replicate. lia.
  - rewrite Hl. simpl. apply length_replicate.
Qed.

(** A batch of 1 to 50 items never yields an error result. *)
Lemma BulkStore_ok {S} (client : Querier S) (args : gmap string any)
    (itemSlice : list any) (s : S) :
  args !! "items" = Some (AArr itemSlice) ->
  (0 < length itemSlice <= 50)%nat ->
  IsError (BulkStore client args s).1 = false.
Proof.
  intros Hitems Hlen. unfold Tools.BulkStore. rewrite Hitems.
  destruct (Z.of_nat (length itemSlice) =? 0)%Z eqn:E0.
  { apply Z.eqb_eq in E0. lia. }
  destruct (maxBulkItems <? Z.of_nat (length itemSlice))%Z eqn:E1.
  { apply Z.ltb_lt in E1. unfold maxBulkItems in E1. lia. }
  unfold bind.
  destruct (phase1_loop client 0 itemSlice _ s) as [p1 s1].
  destruct (phase2_loop client itemSlice _ 0 _ _ s1) as [[errors rels] s2].
  destruct (incrementCounters client _ s2) as [u s3].
  reflexivity.
Qed.

Lemma item_stored_nonempty {S} (client : Querier S) (raw : any) (s : S)
    (item : bulkItem) :
  item_stored client raw s = Some item -> String.eqb (nodeID item) "" = false.
Proof.
  unfold Tools.item_stored. destruct raw; try discriminate.
  destruct (String.eqb (GetStringArg m "type" "") ""); [discriminate|].
  destruct (storeNode client m (GetStringArg m "type" "") s)
    as [[[id sum] [e|]] s']; [discriminate|].
  destruct (String.eqb id "") eqn:E; [discriminate|].
  intros H. inversion H. exact E.
Qed.

Lemma resolveBatchRefs_app (stored : list bulkItem) (pre post : list any)
    (rel : any) :
  resolveBatchRefs (AArr (pre ++ rel :: post)) stored
  = resolveBatchRefs (AArr pre) stored ++ resolveBatchRef stored rel
    ++ resolveBatchRefs (AArr post) stored.
Proof.
  unfold resolveBatchRefs. rewrite map_app, concat_app. reflexivity.
Qed.

End Props.

End ToolsProps.

(** ** The reader *)

Lemma elem_of_concat_map {A B} (f : A -> list B) (l : list A) (y : B) :
  y ∈ concat (map f l) <-> exists x, x ∈ l /\ y ∈ f x.
Proof.
  induction l as [|a l IH]; simpl.
  - split; [intros H; now apply elem_of_nil in H|].
    intros (x & H & _). now apply elem_of_nil in H.
  - rewrite elem_of_app, IH. split.
    + intros [H|(x & Hx & Hy)].
      * exists a. split; [apply elem_of_cons; now left|exact H].
      * exists x. split; [apply elem_of_cons; now right|exact Hy].
    + intros (x & Hx & Hy). apply elem_of_cons in Hx as [->|Hx]; eauto.
Qed.

Lemma wrap_int_small (z : Z) :
  (min_int <= z <= max_int)%Z -> wrap_int z = z.
Proof.
  unfold min_int, max_int, wrap_int. intros H.
  rewrite Z.mod_small; lia.
Qed.

Module ReaderProps.
Import Tools Memory.

Section Props.

Variable Vec : Type.
Variable embedder : option (string -> result Vec).
Variable hnsw : string -> Vec -> Z -> Z -> option (list (string * Q)).
Variable exact_fails : string -> bool.
Variable backend_err : string -> option string.
Variable fmt_v : any -> string.
Variable db : Database.

Abbreviation parseSearchResult := (parseSearchResult fmt_v).
Abbreviation parseNode := (parseNode fmt_v).
Abbreviation semantic_rows := (semantic_rows Vec hnsw db).
Abbreviation semantic_collect := (semantic_collect Vec hnsw fmt_v db).
Abbreviation SemanticSearch := (SemanticSearch Vec embedder hnsw fmt_v db).
Abbreviation exact_rows := (exact_rows exact_fails db).
Abbreviation exact_collect := (exact_collect exact_fails fmt_v db).
Abbreviation ExactSearch := (ExactSearch exact_fails fmt_v db).
Abbreviation GetRelatedEntities := (GetRelatedEntities backend_err fmt_v db).
Abbreviation GetFactsAboutEntity := (GetFactsAboutEntity backend_err fmt_v db).
Abbreviation GetRelatedFacts := (GetRelatedFacts backend_err fmt_v db).

(** Computes the name of a concrete variant's index in [H]. *)
Ltac norm_index H :=
  match type of H with
  | context [embedding_index ?nt] =>
      let v := eval vm_compute in (embedding_index nt) in
      change (embedding_index nt) with v in H
  end.

(** *** Rows of the evaluated scripts *)

Lemma elem_of_hnsw_join {Row} (rel : gmap string Row) (keep : Row -> bool)
    (cols : string -> Row -> list any) (hits : list (string * Q))
    (d : Q) (row : list any) :
  (d, row) ∈ hnsw_join rel keep cols hits <->
  exists id r, (id, d) ∈ hits /\ rel !! id = Some r /\ keep r = true
               /\ row = cols id r ++ [AF64 d].
Proof.
  unfold hnsw_join. rewrite list_elem_of_omap. split.
  - intros ([id d'] & Hin & Hf).
    destruct (rel !! id) as [r|] eqn:E; [|discriminate].
    destruct (keep r) eqn:K; [|discriminate].
    inversion Hf; subst. eauto 10.
  - intros (id & r & Hin & E & K & ->).
    exists (id, d). split; [exact Hin|]. now rewrite E, K.
Qed.

Lemma elem_of_order_limit (limit : Z) (rows : list (Q * list any))
    (row : list any) :
  row ∈ order_limit limit rows -> exists d, (d, row) ∈ rows.
Proof.
  unfold order_limit. intros H. apply subseteq_take in H.
  apply list_elem_of_fmap in H as ([d row'] & -> & H).
  exists d. now rewrite merge_sort_Permutation in H.
Qed.

Lemma elem_of_scan_limit {Row} (rel : gmap string Row) (keep : Row -> bool)
    (cols : string -> Row -> list any) (limit : Z) (row : list any) :
  row ∈ scan_limit rel keep cols limit ->
  exists id r, rel !! id = Some r /\ keep r = true /\ row = cols id r.
Proof.
  unfold scan_limit. intros H. apply subseteq_take in H.
  apply list_elem_of_omap in H as ([id r] & Hin & Hf).
  apply elem_of_map_to_list in Hin.
  destruct (keep r) eqn:K; [|discriminate].
  inversion Hf; subst. eauto.
Qed.

Lemma parseSearchResult_NodeType (nt : string) (row : list any) :
  sr_NodeType (parseSearchResult nt row) = nt.
Proof.
  unfold Memory.parseSearchResult.
  repeat match goal with
         | |- context [if ?b then _ else _] => destruct b
         end; reflexivity.
Qed.

Lemma parseSearchResult_ID (nt : string) (row : list any) (id : string)
    (rest : list any) :
  nt ∈ embedded_variants \/ nt = "topic" ->
  row = AStr id :: rest ->
  sr_ID (parseSearchResult nt row) = id.
Proof.
  intros Hnt ->. destruct Hnt as [Hnt| ->]; [|reflexivity].
  unfold embedded_variants in Hnt.
  repeat (apply elem_of_cons in Hnt as [->|Hnt]; [reflexivity|]).
  now apply elem_of_nil in Hnt.
Qed.

(** *** Facts returned by the two search operators *)

Lemma semantic_collect_fact_valid (nodeTypes : list string) (queryEmb : Vec)
    (limit : Z) (sr : SearchResult) :
  sr ∈ semantic_collect nodeTypes queryEmb limit ->
  sr_NodeType sr = "fact" ->
  exists r, mie_fact db !! sr_ID sr = Some r /\ fr_valid r = true.
Proof.
  intros Hin Hty. apply elem_of_concat_map in Hin as (nt & _ & Hin).
  destruct (semantic_rows nt queryEmb limit) as [rows|] eqn:E;
    [|now apply elem_of_nil in Hin].
  apply list_elem_of_fmap in Hin as (row & -> & Hrow).
  rewrite parseSearchResult_NodeType in Hty. subst nt.
  unfold Memory.semantic_rows in E. simpl in E.
  destruct (hnsw _ queryEmb _ 200) as [hits|]; [|discriminate].
  simpl in E. inversion E; subst rows; clear E.
  apply elem_of_order_limit in Hrow as (d & Hrow).
  apply elem_of_hnsw_join in Hrow as (id & r & _ & Hr & Hv & ->).
  exists r. split; [exact Hr|exact Hv].
Qed.

Lemma exact_collect_fact_valid (nodeTypes : list string) (query : string)
    (limit : Z) (sr : SearchResult) :
  sr ∈ exact_collect nodeTypes query limit ->
  sr_NodeType sr = "fact" ->
  exists r, mie_fact db !! sr_ID sr = Some r /\ fr_valid r = true.
Proof.
  intros Hin Hty. apply elem_of_concat_map in Hin as (nt & _ & Hin).
  destruct (exact_rows nt query limit) as [rows|] eqn:E;
    [|now apply elem_of_nil in Hin].
  apply list_elem_of_fmap in Hin as (row & -> & Hrow).
  rewrite parseSearchResult_NodeType in Hty. subst nt.
  unfold Memory.exact_rows in E.
  destruct (exact_fails "fact"); [discriminate|].
  simpl in E. inversion E; subst rows; clear E.
  apply elem_of_scan_limit in Hrow as (id & r & Hr & Hv & ->).
  apply andb_true_iff in Hv as [Hv _].
  exists r. split; [exact Hr|exact Hv].
Qed.

Lemma SemanticSearch_results (query : string) (nodeTypes : list string)
    (limit : Z) (results : list SearchResult) :
  SemanticSearch query nodeTypes limit = Ok results ->
  exists nts queryEmb lim,
    forall sr, sr ∈ results -> sr ∈ semantic_collect nts queryEmb lim.
Proof.
  unfold Memory.SemanticSearch.
  destruct embedder as [gen|]; [|discriminate].
  destruct (gen query) as [queryEmb|e]; [|discriminate].
  intros H. inversion H as [Hres]; clear H.
  exists (default_node_types nodeTypes ["fact"; "decision"; "entity"; "event"]),
         queryEmb, (if (limit <=? 0)%Z then 10 else limit).
  intros sr Hin.
  rewrite <- (merge_sort_Permutation result_le).
  match goal with
  | H : sr ∈ (if ?b then _ else _) |- _ => destruct b
  end; [apply subseteq_take in Hin|]; exact Hin.
Qed.

Lemma ExactSearch_results (query : string) (nodeTypes : list string)
    (limit : Z) (results : list SearchResult) :
  ExactSearch query nodeTypes limit = Ok results ->
  exists nts lim,
    forall sr, sr ∈ results -> sr ∈ exact_collect nts query lim.
Proof.
  unfold Memory.ExactSearch. intros H. inversion H as [Hres]; clear H.
  exists (default_node_types nodeTypes
            ["fact"; "decision"; "entity"; "event"; "topic"]),
         (if (limit <=? 0)%Z then 10 else limit).
  intros sr Hin.
  match goal with
  | H : sr ∈ (if ?b then _ else _) |- _ => destruct b
  end; [apply subseteq_take in Hin|]; exact Hin.
Qed.

Lemma search_fact_valid (query : string) (nodeTypes : list string)
    (limit : Z) (results : list SearchResult) (sr : SearchResult) :
  SemanticSearch query nodeTypes limit = Ok results
  \/ ExactSearch query nodeTypes limit = Ok results ->
  sr ∈ results -> sr_NodeType sr = "fact" ->
  exists r, mie_fact db !! sr_ID sr = Some r /\ fr_valid r = true.
Proof.
  intros [H|H] Hin Hty.
  - apply SemanticSearch_results in H as (nts & q & lim & H).
    eapply semantic_collect_fact_valid; eauto.
  - apply ExactSearch_results in H as (nts & lim & H).
    eapply exact_collect_fact_valid; eauto.
Qed.

(** C3. Every fact returned by semantic search or by exact search is a
    stored fact whose [valid] flag is true; a stored fact whose flag is
    false is the source of no fact result of either operator. *)
Theorem search_returns_only_valid_facts
    (query : string) (nodeTypes : list string) (limit : Z)
    (results : list SearchResult) :
  SemanticSearch query nodeTypes limit = Ok results
  \/ ExactSearch query nodeTypes limit = Ok results ->
  (forall sr, sr ∈ results -> sr_NodeType sr = "fact" ->
     exists r, mie_fact db !! sr_ID sr = Some r /\ fr_valid r = true)
  /\ (forall id r, mie_fact db !! id = Some r -> fr_valid r = false ->
        forall sr, sr ∈ results -> sr_NodeType sr = "fact" ->
                   sr_ID sr <> id).
Proof.
  intros H. split.
  - intros sr Hin Hty. eapply search_fact_valid; eauto.
  - intros id r Hr Hv sr Hin Hty Heq.
    destruct (search_fact_valid _ _ _ _ sr H Hin Hty) as (r' & Hr' & Hv').
    rewrite Heq in Hr'. congruence.
Qed.

(** *** Semantic search: candidates, order and cut *)

#[local] Instance result_le_trans : Transitive result_le.
Proof. intros a b c. unfold result_le. apply Qle_trans. Qed.

#[local] Instance result_le_total : Total result_le.
Proof.
  intros a b. unfold result_le.
  destruct (Qlt_le_dec (sr_Distance a) (sr_Distance b)) as [H|H].
  - left. now apply Qlt_le_weak.
  - now right.
Qed.

Lemma length_hnsw_join {Row} (rel : gmap string Row) (keep : Row -> bool)
    (cols : string -> Row -> list any) (hits : list (string * Q)) :
  (length (hnsw_join rel keep cols hits) <= length hits)%nat.
Proof.
  unfold hnsw_join.
  induction hits as [|[id d] hits IH]; [reflexivity|].
  unfold omap in *. cbn [list_omap].
  destruct (rel !! id) as [r|]; [destruct (keep r)|]; cbn [length]; lia.
Qed.

Lemma elem_of_order_limit_all (limit : Z) (rows : list (Q * list any))
    (d : Q) (row : list any) :
  (Z.of_nat (length rows) <= limit)%Z ->
  (d, row) ∈ rows -> row ∈ order_limit limit rows.
Proof.
  intros Hlen Hin. unfold order_limit. rewrite take_ge.
  - apply list_elem_of_fmap. exists (d, row). split; [reflexivity|].
    now rewrite merge_sort_Permutation.
  - rewrite length_map, (Permutation_length (merge_sort_Permutation _ _)).
    lia.
Qed.

Lemma rows_complete {Row} (rel : gmap string Row) (keep : Row -> bool)
    (cols : string -> Row -> list any) (hits : list (string * Q))
    (limit : Z) (id : string) (d : Q) (r : Row) :
  rel !! id = Some r -> keep r = true -> (id, d) ∈ hits ->
  (Z.of_nat (length hits) <= limit)%Z ->
  (cols id r ++ [AF64 d]) ∈ order_limit limit (hnsw_join rel keep cols hits).
Proof.
  intros Hr Hk Hhit Hlen. apply (elem_of_order_limit_all _ _ d).
  - pose proof (length_hnsw_join rel keep cols hits). lia.
  - apply elem_of_hnsw_join. exists id, r. auto.
Qed.

(** Every collected result is an index hit of a requested, embedded
    variant, queried with [k = limit*5] and [ef = 200], under the hit's
    identifier and distance. *)
Lemma semantic_collect_sound (nodeTypes : list string) (queryEmb : Vec)
    (limit : Z) (sr : SearchResult) :
  sr ∈ semantic_collect nodeTypes queryEmb limit ->
  exists nt hits,
    nt ∈ nodeTypes /\ nt ∈ embedded_variants
    /\ hnsw (embedding_index nt) queryEmb (wrap_int (limit * 5)) 200
       = Some hits
    /\ (sr_ID sr, sr_Distance sr) ∈ hits
    /\ sr_NodeType sr = nt
    /\ node_joinable db nt (sr_ID sr) = true.
Proof.
  intros Hin. apply elem_of_concat_map in Hin as (nt & Hnt & Hin).
  destruct (semantic_rows nt queryEmb limit) as [rows|] eqn:E;
    [|now apply elem_of_nil in Hin].
  apply list_elem_of_fmap in Hin as (row & -> & Hrow).
  exists nt. unfold Memory.semantic_rows in E.
  destruct (String.eqb nt "fact") eqn:E1;
    [|destruct (String.eqb nt "decision") eqn:E2;
      [|destruct (String.eqb nt "entity") eqn:E3;
        [|destruct (String.eqb nt "event") eqn:E4; [|discriminate]]]];
    match goal with
    | H : String.eqb nt _ = true |- _ => apply String.eqb_eq in H; subst nt
    end;
    (destruct (hnsw _ queryEmb _ 200) as [hits|] eqn:Eh; [|discriminate]);
    simpl in E; inversion E; subst rows; clear E;
    apply elem_of_order_limit in Hrow as (d & Hrow);
    apply elem_of_hnsw_join in Hrow as (id & r & Hhit & Hr & Hv & ->);
    exists hits;
    (split; [exact Hnt|]);
    (split; [apply (bool_decide_unpack _); vm_compute; reflexivity|]);
    (split; [first [exact Eh|reflexivity]|]);
    (split; [exact Hhit|]);
    (split; [reflexivity|]);
    unfold Memory.node_joinable; simpl; rewrite Hr; try exact Hv; reflexivity.
Qed.

(** Conversely, when the index returns at most [limit] hits for a
    requested variant, every hit whose node the join keeps is collected. *)
Lemma semantic_collect_complete (nodeTypes : list string) (queryEmb : Vec)
    (limit : Z) (nt : string) (hits : list (string * Q)) (id : string)
    (d : Q) :
  nt ∈ nodeTypes -> nt ∈ embedded_variants ->
  hnsw (embedding_index nt) queryEmb (wrap_int (limit * 5)) 200 = Some hits ->
  (Z.of_nat (length hits) <= limit)%Z ->
  (id, d) ∈ hits ->
  node_joinable db nt id = true ->
  exists sr, sr ∈ semantic_collect nodeTypes queryEmb limit
             /\ sr_NodeType sr = nt /\ sr_ID sr = id /\ sr_Distance sr = d.
Proof.
  intros Hnt Hemb Hh Hlen Hhit Hjoin.
  assert (Hrows : exists rows row rest,
             semantic_rows nt queryEmb limit = Some rows
             /\ row ∈ rows /\ row = AStr id :: rest
             /\ sr_Distance (parseSearchResult nt row) = d).
  { unfold embedded_variants in Hemb. unfold Memory.node_joinable in Hjoin.
    unfold Memory.semantic_rows.
    apply elem_of_cons in Hemb as [->|Hemb].
    { simpl in Hjoin |- *.
      norm_index Hh. rewrite Hh. simpl.
      destruct (mie_fact db !! id) as [r|] eqn:Er; [|discriminate].
      eexists _, _, _. split; [reflexivity|].
      split; [apply (rows_complete _ _ _ _ _ id d r); auto|].
      split; reflexivity. }
    apply elem_of_cons in Hemb as [->|Hemb].
    { simpl in Hjoin |- *.
      norm_index Hh. rewrite Hh. simpl.
      destruct (mie_decision db !! id) as [r|] eqn:Er; [|discriminate].
      eexists _, _, _. split; [reflexivity|].
      split; [apply (rows_complete _ _ _ _ _ id d r); auto|].
      split; reflexivity. }
    apply elem_of_cons in Hemb as [->|Hemb].
    { simpl in Hjoin |- *.
      norm_index Hh. rewrite Hh. simpl.
      destruct (mie_entity db !! id) as [r|] eqn:Er; [|discriminate].
      eexists _, _, _. split; [reflexivity|].
      split; [apply (rows_complete _ _ _ _ _ id d r); auto|].
      split; reflexivity. }
    apply elem_of_cons in Hemb as [->|Hemb].
    { simpl in Hjoin |- *.
      norm_index Hh. rewrite Hh. simpl.
      destruct (mie_event db !! id) as [r|] eqn:Er; [|discriminate].
      eexists _, _, _. split; [reflexivity|].
      split; [apply (rows_complete _ _ _ _ _ id d r); auto|].
      split; reflexivity. }
    now apply elem_of_nil in Hemb. }
  destruct Hrows as (rows & row & rest & Hrows & Hrow & Hshape & Hd).
  exists (parseSearchResult nt row). split; [|split; [|split]].
  - apply elem_of_concat_map. exists nt. split; [exact Hnt|].
    rewrite Hrows. apply list_elem_of_fmap. eauto.
  - apply parseSearchResult_NodeType.
  - eapply parseSearchResult_ID; [left; exact Hemb|exact Hshape].
  - exact Hd.
Qed.

Lemma StronglySorted_take {A} (R : relation A) (n : nat) (l : list A) :
  StronglySorted R l -> StronglySorted R (take n l).
Proof.
  intros H. rewrite <- (take_drop n l) in H.
  now apply StronglySorted_app_1_l in H.
Qed.


(** *** Traversals through [mie_fact_entity] *)

Lemma f64_to_int_inject_Z (z : Z) : f64_to_int (inject_Z z) = z.
Proof. unfold f64_to_int, inject_Z. simpl. apply Z.quot_1_r. Qed.

Lemma parseNode_entity_cols (id : string) (r : EntityRow) :
  parseNode "entity" (entity_node_cols id r) = Some (NEntity (entity_of id r)).
Proof.
  unfold Memory.parseNode, entity_node_cols, entity_of. simpl.
  now rewrite !f64_to_int_inject_Z.
Qed.

Lemma parseNode_fact_cols (id : string) (r : FactRow) :
  parseNode "fact" (fact_node_cols id r) = Some (NFact (fact_of id r)).
Proof.
  unfold Memory.parseNode, fact_node_cols, fact_of. simpl.
  now rewrite !f64_to_int_inject_Z.
Qed.

Lemma elem_of_GetRelatedEntities (factID : string)
    (entities : list Entity) (ent : Entity) :
  GetRelatedEntities factID = Ok entities ->
  (ent ∈ entities <->
   exists entity_id r,
     (factID, entity_id) ∈ mie_fact_entity db
     /\ mie_entity db !! entity_id = Some r
     /\ ent = entity_of entity_id r).
Proof.
  unfold Memory.GetRelatedEntities.
  destruct (backend_err "GetRelatedEntities"); [discriminate|].
  intros H. inversion H; subst entities; clear H.
  unfold related_entities_rows.
  rewrite list_elem_of_omap. split.
  - intros (row & Hrow & Hparse).
    apply list_elem_of_omap in Hrow as ([fid eid] & Hin & Hf).
    apply elem_of_elements in Hin.
    destruct (String.eqb fid factID) eqn:E; [|discriminate].
    apply String.eqb_eq in E. subst fid.
    destruct (mie_entity db !! eid) as [r|] eqn:Er; [|discriminate].
    inversion Hf; subst row. rewrite parseNode_entity_cols in Hparse.
    inversion Hparse. eauto.
  - intros (eid & r & Hin & Er & ->).
    exists (entity_node_cols eid r). split.
    + apply list_elem_of_omap. exists (factID, eid).
      split; [now apply elem_of_elements|].
      now rewrite String.eqb_refl, Er.
    + now rewrite parseNode_entity_cols.
Qed.

Lemma elem_of_GetFactsAboutEntity (entityID : string)
    (facts : list Fact) (fact : Fact) :
  GetFactsAboutEntity entityID = Ok facts ->
  (fact ∈ facts <->
   exists fact_id r,
     (fact_id, entityID) ∈ mie_fact_entity db
     /\ mie_fact db !! fact_id = Some r
     /\ fact = fact_of fact_id r).
Proof.
  unfold Memory.GetFactsAboutEntity.
  destruct (backend_err "GetFactsAboutEntity"); [discriminate|].
  intros H. inversion H; subst facts; clear H.
  unfold facts_about_entity_rows.
  rewrite list_elem_of_omap. split.
  - intros (row & Hrow & Hparse).
    apply list_elem_of_omap in Hrow as ([fid eid] & Hin & Hf).
    apply elem_of_elements in Hin.
    destruct (String.eqb eid entityID) eqn:E; [|discriminate].
    apply String.eqb_eq in E. subst eid.
    destruct (mie_fact db !! fid) as [r|] eqn:Er; [|discriminate].
    inversion Hf; subst row. rewrite parseNode_fact_cols in Hparse.
    inversion Hparse. eauto.
  - intros (fid & r & Hin & Er & ->).
    exists (fact_node_cols fid r). split.
    + apply list_elem_of_omap. exists (fid, entityID).
      split; [now apply elem_of_elements|].
      now rewrite String.eqb_refl, Er.
    + now rewrite parseNode_fact_cols.
Qed.

(** Each traversal fails exactly when the backend fails its query, with
    the backend's error wrapped. *)
Lemma GetRelatedEntities_outcome (factID : string) :
  match backend_err "GetRelatedEntities" with
  | Some e =>
      GetRelatedEntities factID = Err ("get related entities: " +:+ e)
  | None => exists entities, GetRelatedEntities factID = Ok entities
  end.
Proof.
  unfold Memory.GetRelatedEntities.
  destruct (backend_err "GetRelatedEntities"); eauto.
Qed.

Lemma GetFactsAboutEntity_outcome (entityID : string) :
  match backend_err "GetFactsAboutEntity" with
  | Some e =>
      GetFactsAboutEntity entityID = Err ("get facts about entity: " +:+ e)
  | None => exists facts, GetFactsAboutEntity entityID = Ok facts
  end.
Proof.
  unfold Memory.GetFactsAboutEntity.
  destruct (backend_err "GetFactsAboutEntity"); eauto.
Qed.

(** C5. For a stored fact [f] and a stored entity [e], when both
    traversals return: the entity is among the related entities of the
    fact exactly when the fact is among the facts about the entity
    (both hold exactly when [mie_fact_entity] relates the two
    identifiers).  A traversal returns whenever the backend answers
    its query, and fails with the backend's error, wrapped,
    otherwise. *)
Theorem fact_entity_traversal_symmetry
    (factID entityID : string) (fr : FactRow) (er : EntityRow) :
  mie_fact db !! factID = Some fr ->
  mie_entity db !! entityID = Some er ->
  (forall entities facts,
      GetRelatedEntities factID = Ok entities ->
      GetFactsAboutEntity entityID = Ok facts ->
      (entity_of entityID er ∈ entities <-> fact_of factID fr ∈ facts)
      /\ (entity_of entityID er ∈ entities
          <-> (factID, entityID) ∈ mie_fact_entity db))
  /\ (backend_err "GetRelatedEntities" = None ->
      exists entities, GetRelatedEntities factID = Ok entities)
  /\ (backend_err "GetFactsAboutEntity" = None ->
      exists facts, GetFactsAboutEntity entityID = Ok facts)
  /\ (forall e, backend_err "GetRelatedEntities" = Some e ->
        GetRelatedEntities factID = Err ("get related entities: " +:+ e))
  /\ (forall e, backend_err "GetFactsAboutEntity" = Some e ->
        GetFactsAboutEntity entityID
        = Err ("get facts about entity: " +:+ e)).
Proof.
  intros Hf He. split; [|split; [|split; [|split]]].
  - intros entities facts Hents Hfacts.
    rewrite (elem_of_GetRelatedEntities _ _ _ Hents).
    rewrite (elem_of_GetFactsAboutEntity _ _ _ Hfacts).
    assert (Hedge : (exists entity_id r,
                        (factID, entity_id) ∈ mie_fact_entity db
                        /\ mie_entity db !! entity_id = Some r
                        /\ entity_of entityID er = entity_of entity_id r)
                    <-> (factID, entityID) ∈ mie_fact_entity db).
    { split.
      - intros (eid & r & Hin & _ & Heq).
        assert (eid = entityID) as -> by (now inversion Heq). exact Hin.
      - intros Hin. eauto. }
    split; [|exact Hedge]. rewrite Hedge. split.
    + intros Hin. eauto.
    + intros (fid & r & Hin & _ & Heq).
      assert (fid = factID) as -> by (now inversion Heq). exact Hin.
  - intros Hok. pose proof (GetRelatedEntities_outcome factID) as H.
    now rewrite Hok in H.
  - intros Hok. pose proof (GetFactsAboutEntity_outcome entityID) as H.
    now rewrite Hok in H.
  - intros e Hfail. pose proof (GetRelatedEntities_outcome factID) as H.
    now rewrite Hfail in H.
  - intros e Hfail. pose proof (GetFactsAboutEntity_outcome entityID) as H.
    now rewrite Hfail in H.
Qed.

(** C10. The facts-about-entity traversal and its alias, related
    facts, are the same call.  When the backend answers, it returns
    exactly the stored facts that [mie_fact_entity] relates to the
    entity, whatever their [valid] flag: an invalidated fact related to
    the entity is returned, with [Valid = false], whereas no result of
    semantic or exact search is that fact.  When the backend fails,
    the traversal fails with its error, wrapped. *)
Theorem related_facts_include_invalidated (entityID : string) :
  GetRelatedFacts entityID = GetFactsAboutEntity entityID
  /\ (forall e, backend_err "GetFactsAboutEntity" = Some e ->
        GetRelatedFacts entityID = Err ("get facts about entity: " +:+ e))
  /\ (backend_err "GetFactsAboutEntity" = None ->
      exists facts,
        GetRelatedFacts entityID = Ok facts
        /\ GetFactsAboutEntity entityID = Ok facts
        /\ (forall fact,
              fact ∈ facts <->
              exists fact_id r,
                (fact_id, entityID) ∈ mie_fact_entity db
                /\ mie_fact db !! fact_id = Some r
                /\ fact = fact_of fact_id r)
        /\ (forall fact_id r,
              (fact_id, entityID) ∈ mie_fact_entity db ->
              mie_fact db !! fact_id = Some r ->
              fr_valid r = false ->
              fact_of fact_id r ∈ facts
              /\ f_Valid (fact_of fact_id r) = false
              /\ forall query nodeTypes limit results,
                   SemanticSearch query nodeTypes limit = Ok results
                   \/ ExactSearch query nodeTypes limit = Ok results ->
                   forall sr, sr ∈ results -> sr_NodeType sr = "fact" ->
                              sr_ID sr <> fact_id)).
Proof.
  split; [reflexivity|]. split.
  - intros e Hfail. pose proof (GetFactsAboutEntity_outcome entityID) as H.
    now rewrite Hfail in H.
  - intros Hok. pose proof (GetFactsAboutEntity_outcome entityID) as H.
    rewrite Hok in H. destruct H as (facts & Hrun).
    exists facts. split; [exact Hrun|]. split; [exact Hrun|]. split.
    + intros fact. exact (elem_of_GetFactsAboutEntity _ _ fact Hrun).
    + intros fid r Hin Hr Hv.
      split; [apply (elem_of_GetFactsAboutEntity _ _ _ Hrun); eauto|].
      split; [exact Hv|].
      intros query nodeTypes limit results Hs sr Hsr Hty Heq.
      destruct (search_fact_valid _ _ _ _ sr Hs Hsr Hty) as (r' & Hr' & Hv').
      rewrite Heq in Hr'. congruence.
Qed.

End Props.

(** *** ListNodes *)

Lemma string_app_assoc (a b c : string) : (a +:+ b) +:+ c = a +:+ b +:+ c.
Proof.
  induction a as [|x a IH]; [reflexivity|].
  change (String x ((a +:+ b) +:+ c) = String x (a +:+ b +:+ c)).
  now rewrite IH.
Qed.

Section ListProps.

Variable backend_Query : string -> result QueryResult.
Variable fmt_v : any -> string.
Variable nodeTypeToTable : string -> string.
Variable escapeDatalog : string -> string.
Variable strings_TrimSpace : string -> string.

Abbreviation list_script := (list_script escapeDatalog).
Abbreviation ListNodes :=
  (ListNodes backend_Query fmt_v nodeTypeToTable escapeDatalog
             strings_TrimSpace).

(** C8, as the reader implements it.  [ListNodes] orders by
    [created_at] when [sort_by] is empty and by the given [sort_by],
    whatever it is, otherwise; it uses the limit 20 when the given limit
    is not positive and the given limit, whatever it is, otherwise.
    These are the order column and the limit of the script it sends to
    the backend, whose answer decides the result. *)
Theorem ListNodes_order_and_limit (opts : ListOptions) :
  (lo_SortBy opts = "" -> list_sortBy opts = "created_at")
  /\ (lo_SortBy opts <> "" -> list_sortBy opts = lo_SortBy opts)
  /\ ((lo_Limit opts <= 0)%Z -> list_limit opts = 20%Z)
  /\ ((0 < lo_Limit opts)%Z -> list_limit opts = lo_Limit opts)
  /\ (forall table,
        nodeTypeToTable (lo_NodeType opts) = table -> table <> "" ->
        (exists head dir,
            (dir = "" \/ dir = "-")
            /\ list_script opts table
               = head +:+ " :order " +:+ dir +:+ list_sortBy opts
                 +:+ " :limit " +:+ fmt_d (list_limit opts)
                 +:+ " :offset " +:+ fmt_d (lo_Offset opts))
        /\ (forall e, backend_Query (list_script opts table) = Err e ->
                      ListNodes opts = Err ("list nodes: " +:+ e))
        /\ (forall qr nodes total,
              backend_Query (list_script opts table) = Ok qr ->
              ListNodes opts = Ok (nodes, total) ->
              nodes = omap (parseNode fmt_v (lo_NodeType opts)) (Rows qr))).
Proof.
  split; [|split; [|split; [|split]]].
  - intros H. unfold list_sortBy. now rewrite H.
  - intros H. unfold list_sortBy. apply String.eqb_neq in H. now rewrite H.
  - intros H. unfold list_limit. apply Z.leb_le in H. now rewrite H.
  - intros H. unfold list_limit. apply Z.leb_gt in H. now rewrite H.
  - intros table Ht Hne. apply String.eqb_neq in Hne.
    split; [|split].
    + unfold Memory.list_script, list_sortOrder.
      exists ("?[" +:+ columnsForNodeType (lo_NodeType opts) +:+ "] := *"
              +:+ table +:+ " { " +:+ columnsForNodeType (lo_NodeType opts)
              +:+ " }" +:+ list_condStr (buildListConditions escapeDatalog opts)).
      destruct (String.eqb (lo_SortOrder opts) "asc"); simpl.
      * exists "". split; [now left|].
        rewrite !string_app_assoc. reflexivity.
      * exists "-". split; [now right|].
        rewrite !string_app_assoc. reflexivity.
    + intros e He. unfold Memory.ListNodes. rewrite Ht, Hne, He. reflexivity.
    + intros qr nodes total Hq. unfold Memory.ListNodes.
      rewrite Ht, Hne, Hq.
      destruct (countNodes _ _ _ _ _) as [n|e]; [|discriminate].
      intros H. now inversion H.
Qed.

End ListProps.

End ReaderProps.

(** * Further properties of the handlers *)

Module ToolsExtras.
Import Tools ToolsCalls.

(** [x] is none of the literals of a list it is known not to be in. *)
Ltac not_in_literals H :=
  apply String.eqb_neq; intros ->; apply H;
  apply (bool_decide_unpack _); vm_compute; reflexivity.

Section Props.

Variable GetStringArg : gmap string any -> string -> string -> string.
Variable GetFloat64Arg : gmap string any -> string -> Q -> Q.
Variable Truncate : string -> Z -> string.
Variable ToLower : string -> string.
Variable fmt_q : string -> string.
Variable fmt_f1 : Q -> string.

Abbreviation storeNode :=
  (storeNode GetStringArg GetFloat64Arg Truncate ToLower fmt_q fmt_f1).
Abbreviation handleInvalidation := (handleInvalidation GetStringArg fmt_q).
Abbreviation storeRelationship := (storeRelationship GetStringArg).
Abbreviation storeRelationships_loop := (storeRelationships_loop GetStringArg).
Abbreviation storeRelationships := (storeRelationships GetStringArg).
Abbreviation buildEdgeFields := (buildEdgeFields GetStringArg).
Abbreviation relationship_calls := (relationship_calls GetStringArg).
Abbreviation missing_field := (missing_field GetStringArg).
Abbreviation Store :=
  (Store GetStringArg GetFloat64Arg Truncate ToLower fmt_q fmt_f1).
Abbreviation BulkStore :=
  (BulkStore GetStringArg GetFloat64Arg Truncate ToLower fmt_q fmt_f1).
Abbreviation phase1_step :=
  (phase1_step GetStringArg GetFloat64Arg Truncate ToLower fmt_q fmt_f1).
Abbreviation phase1_loop :=
  (phase1_loop GetStringArg GetFloat64Arg Truncate ToLower fmt_q fmt_f1).
Abbreviation phase2_step := (phase2_step GetStringArg fmt_q).
Abbreviation phase2_loop := (phase2_loop GetStringArg fmt_q).

(** ** The store tool: what it refuses *)

Lemma storeNode_unknown_type {S} (client : Querier S) (args : gmap string any)
    (nodeType : string) (s : S) :
  nodeType ∉ node_types ->
  storeNode client args nodeType s = (("", "", None), s).
Proof.
  intros H. unfold Tools.storeNode.
  replace (String.eqb nodeType "fact") with false
    by (symmetry; not_in_literals H).
  replace (String.eqb nodeType "decision") with false
    by (symmetry; not_in_literals H).
  replace (String.eqb nodeType "entity") with false
    by (symmetry; not_in_literals H).
  replace (String.eqb nodeType "event") with false
    by (symmetry; not_in_literals H).
  replace (String.eqb nodeType "topic") with false
    by (symmetry; not_in_literals H).
  reflexivity.
Qed.

(** X1. A store request whose type is missing or is none of the five
    node types is answered with an error result and reaches the client
    not at all. *)
Theorem Store_rejects_missing_or_unknown_type
    {S} (client : Querier S) (args : gmap string any) (s : S)
    (log : list Call) :
  GetStringArg args "type" "" ∉ node_types ->
  (exists r, Store client args s = (r, s) /\ IsError r = true)
  /\ (exists r, Store (recording client) args (s, log) = (r, (s, log))
                /\ IsError r = true).
Proof.
  intros H.
  assert (Hgen : forall T (c : Querier T) (t : T),
             exists r, Store c args t = (r, t) /\ IsError r = true).
  { intros T c t. unfold Tools.Store.
    destruct (String.eqb (GetStringArg args "type" "") ""); [eauto|].
    unfold bind. rewrite (storeNode_unknown_type c args _ t H). simpl.
    eauto. }
  split; apply Hgen.
Qed.

Lemma storeNode_missing_field {S} (client : Querier S)
    (args : gmap string any) (nodeType field : string) (s : S) :
  missing_field args nodeType = Some field ->
  storeNode client args nodeType s
  = (("", "", Some (field +:+ " is required for " +:+ nodeType +:+ " type")),
     s).
Proof.
  unfold ToolsCalls.missing_field, Tools.storeNode.
  destruct (String.eqb nodeType "fact") eqn:E1.
  { apply String.eqb_eq in E1. subst. unfold Tools.storeFact.
    destruct (String.eqb (GetStringArg args "content" "") "");
      intros H; inversion H; reflexivity. }
  destruct (String.eqb nodeType "decision") eqn:E2.
  { apply String.eqb_eq in E2. subst. unfold Tools.storeDecision.
    destruct (String.eqb (GetStringArg args "title" "") "");
      [intros H; inversion H; reflexivity|].
    destruct (String.eqb (GetStringArg args "rationale" "") "");
      intros H; inversion H; reflexivity. }
  destruct (String.eqb nodeType "entity") eqn:E3.
  { apply String.eqb_eq in E3. subst. unfold Tools.storeEntity.
    destruct (String.eqb (GetStringArg args "name" "") "");
      [intros H; inversion H; reflexivity|].
    destruct (String.eqb (GetStringArg args "kind" "") "");
      intros H; inversion H; reflexivity. }
  destruct (String.eqb nodeType "event") eqn:E4.
  { apply String.eqb_eq in E4. subst. unfold Tools.storeEvent.
    destruct (String.eqb (GetStringArg args "title" "") "");
      [intros H; inversion H; reflexivity|].
    destruct (String.eqb (GetStringArg args "event_date" "") "");
      intros H; inversion H; reflexivity. }
  destruct (String.eqb nodeType "topic") eqn:E5; [|discriminate].
  apply String.eqb_eq in E5. subst. unfold Tools.storeTopic.
  destruct (String.eqb (GetStringArg args "name" "") "");
    intros H; inversion H; reflexivity.
Qed.

(** X2. A store request that leaves a required field of its variant
    empty (content; title, rationale; name, kind; title, event_date;
    name) fails with the message "<field> is required for <type> type",
    naming the first such field, and reaches the client not at all. *)
Theorem Store_requires_fields
    {S} (client : Querier S) (args : gmap string any) (field : string)
    (s : S) (log : list Call) :
  let nodeType := GetStringArg args "type" "" in
  missing_field args nodeType = Some field ->
  GetStringArg args field "" = ""
  /\ Store (recording client) args (s, log)
     = (NewError ("Failed to store " +:+ nodeType +:+ ": " +:+ field +:+
                  " is required for " +:+ nodeType +:+ " type"),
        (s, log)).
Proof.
  intros nodeType H. split.
  - unfold ToolsCalls.missing_field in H. fold nodeType in H.
    repeat match type of H with
           | (if ?b then _ else _) = Some _ =>
               let E := fresh "E" in destruct b eqn:E
           end;
      inversion H; subst; try (now apply String.eqb_eq); discriminate.
  - unfold Tools.Store. fold nodeType.
    destruct (String.eqb nodeType "") eqn:E.
    + apply String.eqb_eq in E. unfold ToolsCalls.missing_field in H.
      rewrite E in H. discriminate.
    + unfold bind.
      rewrite (storeNode_missing_field (recording client) args nodeType
                 field (s, log) H).
      reflexivity.
Qed.

(** ** Relationships *)

Lemma storeRelationship_calls {S} (client : Querier S) (sourceNodeID : string)
    (rel : any) (sb : string) (s : S) (log : list Call) :
  exists sb' s',
    storeRelationship (recording client) sourceNodeID rel sb (s, log)
    = (sb', (s', log ++ relationship_calls sourceNodeID rel)).
Proof.
  unfold Tools.storeRelationship, ToolsCalls.relationship_calls.
  destruct rel; try (eexists _, _; rewrite app_nil_r; reflexivity).
  destruct (String.eqb (GetStringArg m "edge" "") ""
            || String.eqb (GetStringArg m "target_id" "") "");
    [eexists _, _; rewrite app_nil_r; reflexivity|].
  destruct (map_bool validEdgeTypes (GetStringArg m "edge" "")); simpl;
    [|eexists _, _; rewrite app_nil_r; reflexivity].
  unfold bind, logged.
  destruct (AddRelationship client _ _ s) as [[e|] s']; eexists _, _;
    reflexivity.
Qed.

Lemma storeRelationships_loop_calls {S} (client : Querier S)
    (sourceNodeID : string) (rels : list any) :
  forall (sb : string) (s : S) (log : list Call),
  exists sb' s',
    storeRelationships_loop (recording client) sourceNodeID rels sb (s, log)
    = (sb', (s', log ++ concat (map (relationship_calls sourceNodeID) rels))).
Proof.
  induction rels as [|rel rels IH]; intros sb s log; simpl.
  - eexists _, _. rewrite app_nil_r. reflexivity.
  - destruct (storeRelationship_calls client sourceNodeID rel sb s log)
      as (sb1 & s1 & H1).
    unfold bind. rewrite H1.
    destruct (IH sb1 s1 (log ++ relationship_calls sourceNodeID rel))
      as (sb2 & s2 & H2).
    rewrite H2. eexists _, _. now rewrite app_assoc.
Qed.

Lemma validEdgeTypes_spec (e : string) :
  map_bool validEdgeTypes e = true <-> e ∈ edge_types.
Proof.
  unfold validEdgeTypes. rewrite map_bool_list_to_map.
  - reflexivity.
  - apply (bool_decide_unpack _). vm_compute. reflexivity.
  - repeat constructor.
Qed.

(** For a known edge type the fields hold the source node under one
    column and the target under another. *)
Lemma buildEdgeFields_endpoints (edgeType sourceNodeID targetID : string)
    (relMap : gmap string any) :
  edgeType ∈ edge_types ->
  exists source_col target_col,
    source_col <> target_col
    /\ buildEdgeFields edgeType sourceNodeID targetID relMap !! source_col
       = Some sourceNodeID
    /\ buildEdgeFields edgeType sourceNodeID targetID relMap !! target_col
       = Some targetID.
Proof.
  intros H. unfold edge_types in H.
  repeat (apply elem_of_cons in H as [->|H];
    [ unfold Tools.buildEdgeFields; simpl;
      try match goal with
          | |- context [if ?b then _ else _] => destruct b
          end;
      first
        [ exists "fact_id", "entity_id"; split; [discriminate|];
          split; reflexivity
        | exists "fact_id", "topic_id"; split; [discriminate|];
          split; reflexivity
        | exists "decision_id", "topic_id"; split; [discriminate|];
          split; reflexivity
        | exists "decision_id", "entity_id"; split; [discriminate|];
          split; reflexivity
        | exists "event_id", "decision_id"; split; [discriminate|];
          split; reflexivity
        | exists "entity_id", "topic_id"; split; [discriminate|];
          split; reflexivity ]
    |]).
  now apply elem_of_nil in H.
Qed.

(** X3. Whatever the client answers, [storeRelationships] calls
    [AddRelationship] once, in order, for each element that is an
    object with a non-empty edge and target and a known edge type, and
    makes no other call: an element it skips or a call that fails does
    not stop the ones after it.  Each call is on the table
    [mie_<edge>] of one of the six edge types, and its fields hold the
    source node under one column and the target under another.  A value
    that is not an array gives no call at all. *)
Theorem storeRelationships_calls
    {S} (client : Querier S) (sourceNodeID : string) (rels : list any)
    (other : any) (s : S) (log : list Call) :
  let calls := concat (map (relationship_calls sourceNodeID) rels) in
  (exists text s',
      storeRelationships (recording client) sourceNodeID (AArr rels) (s, log)
      = (text, (s', log ++ calls)))
  /\ (length calls <= length rels)%nat
  /\ (forall call, call ∈ calls ->
        exists edgeType fields source_col target_col targetID,
          call = CAddRelationship ("mie_" +:+ edgeType) fields
          /\ edgeType ∈ edge_types
          /\ targetID <> ""
          /\ source_col <> target_col
          /\ fields !! source_col = Some sourceNodeID
          /\ fields !! target_col = Some targetID)
  /\ ((forall l, other <> AArr l) ->
      storeRelationships (recording client) sourceNodeID other (s, log)
      = ("", (s, log))).
Proof.
  intros calls. split; [|split; [|split]].
  - apply storeRelationships_loop_calls.
  - subst calls. induction rels as [|rel rels IH]; simpl; [lia|].
    rewrite length_app.
    assert (length (relationship_calls sourceNodeID rel) <= 1)%nat.
    { unfold ToolsCalls.relationship_calls. destruct rel; simpl; try lia.
      repeat match goal with
             | |- context [if ?b then _ else _] => destruct b
             end; simpl; lia. }
    lia.
  - intros call Hin. apply elem_of_concat_map in Hin as (rel & _ & Hin).
    unfold ToolsCalls.relationship_calls in Hin.
    destruct rel; try (now apply elem_of_nil in Hin).
    destruct (String.eqb (GetStringArg m "edge" "") ""
              || String.eqb (GetStringArg m "target_id" "") "") eqn:E;
      [now apply elem_of_nil in Hin|].
    apply orb_false_iff in E as [_ Et]. apply String.eqb_neq in Et.
    destruct (map_bool validEdgeTypes (GetStringArg m "edge" "")) eqn:Ev;
      [|now apply elem_of_nil in Hin].
    apply validEdgeTypes_spec in Ev.
    apply elem_of_cons in Hin as [->|Hin]; [|now apply elem_of_nil in Hin].
    destruct (buildEdgeFields_endpoints _ sourceNodeID
                (GetStringArg m "target_id" "") m Ev)
      as (sc & tc & Hne & Hs & Ht).
    eexists _, _, sc, tc, _. eauto 10.
  - intros Hother. destruct other; try reflexivity.
    now destruct (Hother l).
Qed.

(** ** Invalidation and the success path of the store tool *)

(** X4. [handleInvalidation] calls [InvalidateFact] at most once, and
    only for a non-empty [invalidates] that starts with [fact:]; the
    call names the old fact first, the node just stored as its
    replacement, and the reason "Replaced by <id>".  It reports an
    error exactly when the prefix is wrong or the client's call fails,
    and a message exactly when the call succeeded. *)
Theorem handleInvalidation_calls
    {S} (client : Querier S) (args : gmap string any) (nodeID : string)
    (s : S) (log : list Call) :
  let invalidates := GetStringArg args "invalidates" "" in
  let reason := "Replaced by " +:+ nodeID in
  let outcome := InvalidateFact client invalidates nodeID reason s in
  (invalidates = "" ->
   handleInvalidation (recording client) args nodeID (s, log)
   = ((None, ""), (s, log)))
  /\ (invalidates <> "" -> String.prefix "fact:" invalidates = false ->
      exists te,
        handleInvalidation (recording client) args nodeID (s, log)
        = ((Some te, ""), (s, log))
        /\ IsError te = true)
  /\ (invalidates <> "" -> String.prefix "fact:" invalidates = true ->
      exists toolErr msg,
        handleInvalidation (recording client) args nodeID (s, log)
        = ((toolErr, msg),
           (outcome.2, log ++ [CInvalidateFact invalidates nodeID reason]))
        /\ (toolErr = None <-> outcome.1 = None)
        /\ (msg = "" <-> outcome.1 <> None)
        /\ (forall te, toolErr = Some te -> IsError te = true)).
Proof.
  intros invalidates reason outcome. unfold Tools.handleInvalidation.
  fold invalidates. split; [|split].
  - intros ->. reflexivity.
  - intros Hne Hp. apply String.eqb_neq in Hne. rewrite Hne, Hp. simpl.
    eexists. split; reflexivity.
  - intros Hne Hp. apply String.eqb_neq in Hne. rewrite Hne, Hp. simpl.
    fold reason. unfold bind, logged. subst outcome.
    destruct (InvalidateFact client invalidates nodeID reason s)
      as [[e|] s']; simpl; eexists _, _; (split; [reflexivity|]).
    + split; [split; discriminate|]. split; [split; [discriminate|auto]|].
      intros te H. now inversion H.
    + split; [tauto|]. split.
      * split; [discriminate|]. intros H. now destruct H.
      * intros te H. discriminate.
Qed.

(** X5. When the node is stored and the invalidation does not fail, the
    store tool returns a non-error result whatever the relationship
    calls and the counter call answer; after the invalidation it makes
    only [AddRelationship] calls, and then increments [total_stores]
    exactly once, as its last call. *)
Theorem Store_success_increments_once
    {S} (client : Querier S) (args : gmap string any) (s s1 s2 : S)
    (log log1 log2 : list Call) (nodeID summary msg : string) :
  let nodeType := GetStringArg args "type" "" in
  nodeType <> "" ->
  storeNode (recording client) args nodeType (s, log)
    = ((nodeID, summary, None), (s1, log1)) ->
  nodeID <> "" ->
  handleInvalidation (recording client) args nodeID (s1, log1)
    = ((None, msg), (s2, log2)) ->
  exists r s3 rel_calls,
    Store (recording client) args (s, log)
    = (r, (s3, log2 ++ rel_calls ++ [CIncrementCounter "total_stores"]))
    /\ IsError r = false
    /\ Forall (fun call => is_add_relationship call = true) rel_calls.
Proof.
  intros nodeType Ht Hstore Hid Hinv.
  apply String.eqb_neq in Ht, Hid.
  unfold Tools.Store. fold nodeType. rewrite Ht.
  unfold bind at 1. rewrite Hstore. simpl. rewrite Hid.
  unfold bind at 1. rewrite Hinv. simpl.
  assert (Hrel : exists relMsg s3 rel_calls,
            (match args !! "relationships" with
             | Some ANil | None => ret ""
             | Some rels => storeRelationships (recording client) nodeID rels
             end) (s2, log2) = (relMsg, (s3, log2 ++ rel_calls))
            /\ Forall (fun call => is_add_relationship call = true)
                      rel_calls).
  { assert (Hnone : exists relMsg s3 rel_calls,
              @ret (S * list Call) string "" (s2, log2)
              = (relMsg, (s3, log2 ++ rel_calls))
              /\ Forall (fun call => is_add_relationship call = true)
                        rel_calls).
    { exists "", s2, []. rewrite app_nil_r. split; [reflexivity|constructor]. }
    destruct (args !! "relationships") as [rels|]; [|exact Hnone].
    destruct rels; try exact Hnone.
    destruct (storeRelationships_loop_calls client nodeID l "" s2 log2)
      as (text & s3 & Hrun).
    exists text, s3, (concat (map (relationship_calls nodeID) l)).
    split; [exact Hrun|].
    apply Forall_forall. intros call Hin.
    apply elem_of_concat_map in Hin as (rel & _ & Hin).
    unfold ToolsCalls.relationship_calls in Hin.
    destruct rel; try (now apply elem_of_nil in Hin).
    repeat match type of Hin with
           | _ ∈ (if ?b then _ else _) => destruct b
           end; try (now apply elem_of_nil in Hin).
    apply elem_of_cons in Hin as [->|Hin]; [reflexivity|].
    now apply elem_of_nil in Hin. }
  destruct Hrel as (relMsg & s3 & rel_calls & Hrun & Hall).
  unfold bind at 1. rewrite Hrun.
  unfold bind, logged. simpl.
  destruct (IncrementCounter client "total_stores" s3) as [err s4].
  eexists _, s4, rel_calls. rewrite <- app_assoc.
  split; [reflexivity|]. split; [reflexivity|exact Hall].
Qed.

(** ** Bulk store: reference resolution *)

(** X6. What reference resolution hands to [storeRelationships]
    contains only objects, none of which carries a [target_ref]
    any more, and never more elements than it was given.  Elements
    without a [target_ref] pass through unchanged and in order, also
    in a slice that mixes them with references: wherever such an
    element stands, the output is the output of what precedes it, the
    element itself, and the output of what follows it, so the
    elements without a [target_ref] form a subsequence of the output.
    An element that is no object, or whose [target_ref] is not a
    number, is dropped (the latter even when it also names an explicit
    target) and leaves the output for the others as it is.  What is
    not an array resolves to nothing. *)
Theorem resolveBatchRefs_output
    (rels : list any) (stored : list bulkItem) :
  (forall out, out ∈ resolveBatchRefs (AArr rels) stored ->
     exists m, out = AObj m /\ m !! "target_ref" = None)
  /\ (length (resolveBatchRefs (AArr rels) stored) <= length rels)%nat
  /\ (Forall (fun rel => exists m, rel = AObj m /\ m !! "target_ref" = None)
             rels ->
      resolveBatchRefs (AArr rels) stored = rels)
  /\ (forall pre relMap post,
        rels = pre ++ AObj relMap :: post ->
        relMap !! "target_ref" = None ->
        resolveBatchRefs (AArr rels) stored
        = resolveBatchRefs (AArr pre) stored
          ++ AObj relMap :: resolveBatchRefs (AArr post) stored)
  /\ List.filter has_no_ref rels `sublist_of`
       resolveBatchRefs (AArr rels) stored
  /\ (forall pre rel post,
        rels = pre ++ rel :: post ->
        (forall relMap, rel <> AObj relMap) ->
        resolveBatchRefs (AArr rels) stored
        = resolveBatchRefs (AArr pre) stored
          ++ resolveBatchRefs (AArr post) stored)
  /\ (forall pre relMap refIdx post,
        rels = pre ++ AObj relMap :: post ->
        relMap !! "target_ref" = Some refIdx ->
        (forall q, refIdx <> AF64 q) ->
        (forall z, refIdx <> AInt z /\ refIdx <> AI64 z) ->
        resolveBatchRefs (AArr rels) stored
        = resolveBatchRefs (AArr pre) stored
          ++ resolveBatchRefs (AArr post) stored)
  /\ (forall v, (forall relSlice, v <> AArr relSlice) ->
        resolveBatchRefs v stored = []).
Proof.
  assert (Hsplit : forall pre rel post,
            resolveBatchRefs (AArr (pre ++ rel :: post)) stored
            = resolveBatchRefs (AArr pre) stored
              ++ resolveBatchRef stored rel
              ++ resolveBatchRefs (AArr post) stored).
  { intros pre rel post. unfold resolveBatchRefs.
    rewrite map_app, concat_app. reflexivity. }
  repeat match goal with |- _ /\ _ => split end.
  - intros out Hin. unfold resolveBatchRefs in Hin.
    apply elem_of_concat_map in Hin as (rel & _ & Hin).
    unfold resolveBatchRef in Hin.
    destruct rel; try (now apply elem_of_nil in Hin).
    destruct (m !! "target_ref") as [refIdx|] eqn:E.
    + destruct ((toInt refIdx <? 0)%Z
                || (Z.of_nat (length stored) <=? toInt refIdx)%Z);
        [now apply elem_of_nil in Hin|].
      destruct (stored !! Z.to_nat (toInt refIdx)) as [item|];
        [|now apply elem_of_nil in Hin].
      destruct (String.eqb (nodeID item) "");
        [now apply elem_of_nil in Hin|].
      apply elem_of_cons in Hin as [->|Hin]; [|now apply elem_of_nil in Hin].
      eexists. split; [reflexivity|].
      rewrite !lookup_insert_ne by discriminate. apply lookup_empty.
    + apply elem_of_cons in Hin as [->|Hin]; [|now apply elem_of_nil in Hin].
      eauto.
  - unfold resolveBatchRefs.
    induction rels as [|rel rels IH]; simpl; [lia|].
    rewrite length_app.
    assert (length (resolveBatchRef stored rel) <= 1)%nat; [|lia].
    unfold resolveBatchRef. destruct rel; simpl; try lia.
    destruct (m !! "target_ref"); simpl; [|lia].
    repeat match goal with
           | |- context [if ?b then _ else _] => destruct b
           | |- context [match ?o with Some _ => _ | None => _ end] =>
               destruct o
           end; simpl; lia.
  - unfold resolveBatchRefs. induction 1 as [|rel rels (m & -> & Hm) _ IH];
      simpl; [reflexivity|].
    rewrite Hm. simpl. now rewrite IH.
  - intros pre relMap post -> Href. rewrite Hsplit.
    unfold resolveBatchRef. rewrite Href. reflexivity.
  - unfold resolveBatchRefs.
    induction rels as [|rel rels IH]; simpl; [constructor|].
    destruct (has_no_ref rel) eqn:E.
    + destruct rel; try discriminate E. simpl in E. simpl.
      destruct (m !! "target_ref"); [discriminate E|].
      simpl. now apply sublist_skip.
    + now apply sublist_inserts_l.
  - intros pre rel post -> Hno. rewrite Hsplit.
    destruct rel; try reflexivity. now destruct (Hno m).
  - intros pre relMap refIdx post -> Href Hf Hi. rewrite Hsplit.
    unfold resolveBatchRef. rewrite Href.
    destruct refIdx; try reflexivity.
    + now destruct (Hf q).
    + now destruct (proj1 (Hi z)).
    + now destruct (proj2 (Hi z)).
  - intros v Hv. destruct v; try reflexivity. now destruct (Hv l).
Qed.

(** X7. A bulk-store call without an [items] argument, or with one
    that is nil or not an array, is answered with an error result and
    reaches the client not at all. *)
Theorem BulkStore_rejects_missing_items
    {S} (client : Querier S) (args : gmap string any) (s : S)
    (log : list Call) :
  (forall itemSlice, args !! "items" <> Some (AArr itemSlice)) ->
  exists r,
    BulkStore (recording client) args (s, log) = (r, (s, log))
    /\ IsError r = true.
Proof.
  intros H. unfold Tools.BulkStore.
  destruct (args !! "items") as [v|]; [|eauto].
  destruct v; eauto. now destruct (H l).
Qed.

(** ** Bulk store: accounting of items and of counter increments *)

Lemma wrap_int_add_l (a b : Z) : wrap_int (wrap_int a + b) = wrap_int (a + b).
Proof.
  unfold wrap_int.
  replace ((a + 2 ^ 63) mod 2 ^ 64 - 2 ^ 63 + b + 2 ^ 63)%Z
    with ((a + 2 ^ 63) mod 2 ^ 64 + b)%Z by lia.
  rewrite Zplus_mod_idemp_l. f_equal. f_equal. lia.
Qed.

Lemma wrap_int_add_r (a b : Z) : wrap_int (a + wrap_int b) = wrap_int (a + b).
Proof. rewrite Z.add_comm, wrap_int_add_l. f_equal. lia. Qed.

Lemma totalStored_of_incr (typeCounts : gmap string Z) (k : string) :
  totalStored_of
    (<[k := wrap_int (default 0 (typeCounts !! k) + 1)]> typeCounts)
  = wrap_int (totalStored_of typeCounts + 1).
Proof.
  unfold totalStored_of.
  assert (Hcomm : forall (m : gmap string Z) (j1 j2 : string) (z1 z2 y : Z),
             j1 <> j2 -> m !! j1 = Some z1 -> m !! j2 = Some z2 ->
             wrap_int (wrap_int (y + z2) + z1)
             = wrap_int (wrap_int (y + z1) + z2)).
  { intros _ _ _ z1 z2 y _ _ _. rewrite !wrap_int_add_l. f_equal. lia. }
  destruct (typeCounts !! k) as [v|] eqn:E; simpl.
  - rewrite <- (insert_delete_eq typeCounts).
    rewrite map_fold_insert_L;
      [|apply Hcomm|apply lookup_delete_eq].
    rewrite <- (insert_id typeCounts k v E) at 2.
    rewrite <- (insert_delete_eq typeCounts).
    rewrite map_fold_insert_L;
      [|apply Hcomm|apply lookup_delete_eq].
    rewrite wrap_int_add_r, wrap_int_add_l. f_equal. lia.
  - rewrite map_fold_insert_L; [|apply Hcomm|exact E].
    now rewrite wrap_int_add_r.
Qed.

Lemma count_stored_insert (stored : list bulkItem) (i : nat) (b : bulkItem) :
  stored !! i = Some bulkItem_zero -> nodeID b <> "" ->
  count_stored (<[i := b]> stored) = Datatypes.S (count_stored stored).
Proof.
  intros Hi Hb. unfold count_stored.
  pose proof (lookup_lt_Some _ _ _ Hi) as Hlt.
  rewrite insert_take_drop by exact Hlt.
  rewrite <- (take_drop_middle stored i bulkItem_zero Hi) at 3.
  rewrite !filter_app, !length_app, !filter_cons.
  destruct (decide (nodeID b <> "")) as [_|Hn]; [|contradiction].
  destruct (decide (nodeID bulkItem_zero <> "")) as [Hz|_];
    [now destruct Hz|].
  simpl. lia.
Qed.

Abbreviation item_stored :=
  (item_stored GetStringArg GetFloat64Arg Truncate ToLower fmt_q fmt_f1).

(** What one iteration of phase 1 does to its three accumulators. *)
Lemma phase1_step_acc {S} (client : Querier S) (i : nat) (raw : any)
    (acc : phase1_acc) (s : S) :
  let acc' := (phase1_step client i raw acc s).1 in
  match item_stored client raw s with
  | Some b =>
      nodeID b <> ""
      /\ p1_stored acc' = <[i := b]> (p1_stored acc)
      /\ p1_errors acc' = p1_errors acc
      /\ p1_typeCounts acc'
         = <[nodeType b :=
               wrap_int (default 0 (p1_typeCounts acc !! nodeType b) + 1)]>
           (p1_typeCounts acc)
  | None =>
      p1_stored acc' = p1_stored acc
      /\ length (p1_errors acc') = Datatypes.S (length (p1_errors acc))
      /\ p1_typeCounts acc' = p1_typeCounts acc
  end.
Proof.
  unfold Tools.phase1_step, Tools.item_stored.
  destruct raw; simpl;
    try (rewrite length_app; simpl; split; [reflexivity|split; [lia|reflexivity]]).
  destruct (String.eqb (GetStringArg m "type" "") ""); simpl;
    [rewrite length_app; simpl; split; [reflexivity|split; [lia|reflexivity]]|].
  unfold bind.
  destruct (storeNode client m (GetStringArg m "type" "") s)
    as [[[id sum] [e|]] s']; simpl;
    [rewrite length_app; simpl; split; [reflexivity|split; [lia|reflexivity]]|].
  destruct (String.eqb id "") eqn:E; simpl.
  - rewrite length_app; simpl; split; [reflexivity|split; [lia|reflexivity]].
  - apply String.eqb_neq in E. repeat split; auto.
Qed.

Lemma phase1_loop_accounting {S} (client : Querier S) (items : list any) :
  forall (i : nat) (acc : phase1_acc) (s : S),
  (forall j, (i <= j)%nat -> (j < length (p1_stored acc))%nat ->
             p1_stored acc !! j = Some bulkItem_zero) ->
  (i + length items <= length (p1_stored acc))%nat ->
  totalStored_of (p1_typeCounts acc)
    = wrap_int (Z.of_nat (count_stored (p1_stored acc))) ->
  let acc' := (phase1_loop client i items acc s).1 in
  (length (p1_errors acc') + count_stored (p1_stored acc')
   = length (p1_errors acc) + count_stored (p1_stored acc) + length items)%nat
  /\ length (p1_stored acc') = length (p1_stored acc)
  /\ totalStored_of (p1_typeCounts acc')
     = wrap_int (Z.of_nat (count_stored (p1_stored acc'))).
Proof.
  induction items as [|raw rest IH]; intros i acc s Hzero Hlen Htot acc'.
  - subst acc'. simpl. split; [lia|]. split; [reflexivity|exact Htot].
  - simpl in Hlen.
    pose proof (phase1_step_acc client i raw acc s) as Hstep.
    destruct (phase1_step client i raw acc s) as [acc1 s1] eqn:E.
    simpl in Hstep.
    assert (Hrun : phase1_loop client i (raw :: rest) acc s
                   = phase1_loop client (Datatypes.S i) rest acc1 s1).
    { simpl. unfold bind. now rewrite E. }
    subst acc'. rewrite Hrun.
    assert (Hi : p1_stored acc !! i = Some bulkItem_zero)
      by (apply Hzero; lia).
    destruct (item_stored client raw s) as [b|].
    + destruct Hstep as (Hb & Hst & Her & Htc).
      destruct (IH (Datatypes.S i) acc1 s1) as (IH1 & IH2 & IH3).
      * intros j Hj Hj'. rewrite Hst in Hj' |- *.
        rewrite length_insert in Hj'.
        rewrite list_lookup_insert_ne by lia. apply Hzero; lia.
      * rewrite Hst, length_insert. lia.
      * rewrite Htc, totalStored_of_incr, Htot, Hst.
        rewrite (count_stored_insert _ _ _ Hi Hb).
        rewrite wrap_int_add_l. f_equal. lia.
      * rewrite Hst, Her in IH1.
        rewrite (count_stored_insert _ _ _ Hi Hb) in IH1.
        rewrite Hst, length_insert in IH2.
        split; [simpl; lia|]. split; [exact IH2|exact IH3].
    + destruct Hstep as (Hst & Her & Htc).
      destruct (IH (Datatypes.S i) acc1 s1) as (IH1 & IH2 & IH3).
      * intros j Hj Hj'. rewrite Hst in Hj' |- *. apply Hzero; lia.
      * rewrite Hst. lia.
      * now rewrite Htc, Hst.
      * rewrite Hst, Her in IH1. rewrite Hst in IH2.
        split; [simpl; lia|]. split; [exact IH2|exact IH3].
Qed.

Lemma count_stored_le (stored : list bulkItem) :
  (count_stored stored <= length stored)%nat.
Proof. unfold count_stored. apply length_filter. Qed.

Lemma count_stored_zeros (n : nat) :
  count_stored (replicate n bulkItem_zero) = 0%nat.
Proof.
  unfold count_stored. induction n as [|n IH]; [reflexivity|].
  simpl. rewrite filter_cons.
  destruct (decide (nodeID bulkItem_zero <> "")) as [Hz|_];
    [now destruct Hz|exact IH].
Qed.

Lemma phase1_accounting {S} (client : Querier S) (itemSlice : list any)
    (s : S) :
  let p1 := (phase1_loop client 0 itemSlice
               (phase1_init (length itemSlice)) s).1 in
  (length (p1_errors p1) + count_stored (p1_stored p1)
   = length itemSlice)%nat
  /\ length (p1_stored p1) = length itemSlice
  /\ totalStored_of (p1_typeCounts p1)
     = wrap_int (Z.of_nat (count_stored (p1_stored p1))).
Proof.
  destruct (phase1_loop_accounting client itemSlice 0
              (phase1_init (length itemSlice)) s) as (H1 & H2 & H3).
  - intros j _ Hj. simpl in *. rewrite length_replicate in Hj.
    now apply lookup_replicate_2.
  - simpl. rewrite length_replicate. lia.
  - simpl. rewrite count_stored_zeros. reflexivity.
  - simpl in H1, H2. rewrite count_stored_zeros in H1.
    rewrite length_replicate in H2. split; [lia|]. split; [exact H2|exact H3].
Qed.

(** X8. Phase 1 of a bulk store accounts for every item exactly once:
    an item either fills its slot of [stored] or adds one entry to
    [errors], so the number of errors plus the number of stored items
    is the size of the batch; [stored] keeps one slot per item, and the
    per-type counts add up to the number of stored items. *)
Theorem bulk_phase1_accounts_for_every_item
    {S} (client : Querier S) (itemSlice : list any) (s : S) :
  let p1 := (phase1_loop client 0 itemSlice
               (phase1_init (length itemSlice)) s).1 in
  (length itemSlice <= 50)%nat ->
  (length (p1_errors p1) + count_stored (p1_stored p1)
   = length itemSlice)%nat
  /\ length (p1_stored p1) = length itemSlice
  /\ totalStored_of (p1_typeCounts p1)
     = Z.of_nat (count_stored (p1_stored p1)).
Proof.
  intros p1 Hlen.
  destruct (phase1_accounting client itemSlice s) as (H1 & H2 & H3).
  fold p1 in H1, H2, H3. split; [exact H1|]. split; [exact H2|].
  rewrite H3. apply wrap_int_small.
  pose proof (count_stored_le (p1_stored p1)).
  unfold min_int, max_int.
  change (2 ^ 63)%Z with 9223372036854775808%Z. lia.
Qed.

Lemma makes_no_increment_ret {S A} (a : A) :
  @makes_no_increment S A (ret a).
Proof.
  intros s log. exists []. rewrite app_nil_r. split; [reflexivity|constructor].
Qed.

Lemma makes_no_increment_bind {S A B} (m : M (S * list Call) A)
    (k : A -> M (S * list Call) B) :
  makes_no_increment m -> (forall a, makes_no_increment (k a)) ->
  makes_no_increment (bind m k).
Proof.
  intros Hm Hk s log. unfold bind.
  destruct (Hm s log) as (c1 & E1 & F1).
  destruct (m (s, log)) as [a [s1 log1]]. simpl in E1. subst log1.
  destruct (Hk a s1 (log ++ c1)) as (c2 & E2 & F2).
  exists (c1 ++ c2). rewrite app_assoc. split; [exact E2|].
  now apply Forall_app.
Qed.

Lemma makes_no_increment_logged {S A} (call : Call) (m : M S A) :
  is_increment call = false -> makes_no_increment (logged call m).
Proof.
  intros Hc s log. exists [call]. unfold logged.
  destruct (m s) as [a s']. split; [reflexivity|]. now repeat constructor.
Qed.

Ltac no_increment :=
  repeat first
    [ apply makes_no_increment_ret
    | apply makes_no_increment_logged; reflexivity
    | apply makes_no_increment_bind; [|intros; cbv beta]
    | match goal with
      | |- makes_no_increment (if ?b then _ else _) => destruct b
      | |- makes_no_increment (match ?x with _ => _ end) => destruct x
      end ].

Lemma storeNode_no_increment {S} (client : Querier S)
    (args : gmap string any) (nodeType : string) :
  makes_no_increment (storeNode (recording client) args nodeType).
Proof.
  unfold Tools.storeNode, Tools.storeFact, Tools.storeDecision,
    Tools.storeEntity, Tools.storeEvent, Tools.storeTopic.
  cbv zeta. no_increment.
Qed.

Lemma handleInvalidation_no_increment {S} (client : Querier S)
    (args : gmap string any) (nodeID : string) :
  makes_no_increment (handleInvalidation (recording client) args nodeID).
Proof. unfold Tools.handleInvalidation. cbv zeta. no_increment. Qed.

Lemma storeRelationships_no_increment {S} (client : Querier S)
    (sourceNodeID : string) (rels : any) :
  makes_no_increment (storeRelationships (recording client) sourceNodeID rels).
Proof.
  unfold Tools.storeRelationships.
  destruct rels; try apply makes_no_increment_ret.
  intros s log.
  destruct (storeRelationships_loop_calls client sourceNodeID l "" s log)
    as (text & s' & Hrun).
  exists (concat (map (relationship_calls sourceNodeID) l)).
  rewrite Hrun. split; [reflexivity|].
  apply Forall_forall. intros call Hin.
  apply elem_of_concat_map in Hin as (rel & _ & Hin).
  unfold ToolsCalls.relationship_calls in Hin.
  destruct rel; try (now apply elem_of_nil in Hin).
  repeat match type of Hin with
         | _ ∈ (if ?b then _ else _) => destruct b
         end; try (now apply elem_of_nil in Hin).
  apply elem_of_cons in Hin as [->|Hin]; [reflexivity|].
  now apply elem_of_nil in Hin.
Qed.

Lemma phase1_loop_no_increment {S} (client : Querier S) (items : list any) :
  forall (i : nat) (acc : phase1_acc),
  makes_no_increment (phase1_loop (recording client) i items acc).
Proof.
  induction items as [|raw rest IH]; intros i acc; simpl.
  - apply makes_no_increment_ret.
  - apply makes_no_increment_bind; [|intros; apply IH].
    unfold Tools.phase1_step. cbv zeta.
    destruct raw; try apply makes_no_increment_ret.
    destruct (String.eqb (GetStringArg m "type" "") "");
      [apply makes_no_increment_ret|].
    apply makes_no_increment_bind; [apply storeNode_no_increment|].
    intros [[id sum] [e|]]; [apply makes_no_increment_ret|].
    destruct (String.eqb id ""); apply makes_no_increment_ret.
Qed.

Lemma phase2_loop_no_increment {S} (client : Querier S)
    (itemSlice : list any) (stored todo : list bulkItem) :
  forall (i : nat) (acc : list string * list string),
  makes_no_increment
    (phase2_loop (recording client) itemSlice stored i todo acc).
Proof.
  induction todo as [|item rest IH]; intros i acc; simpl.
  - apply makes_no_increment_ret.
  - apply makes_no_increment_bind; [|intros; apply IH].
    unfold Tools.phase2_step. destruct acc as [errors relMessages].
    destruct (String.eqb (nodeID item) ""); [apply makes_no_increment_ret|].
    cbv zeta.
    apply makes_no_increment_bind; [apply handleInvalidation_no_increment|].
    intros [toolErr msg].
    match goal with
    | |- makes_no_increment (let (_, _) := ?p in _) => destruct p
    end.
    match goal with
    | |- makes_no_increment (match ?x with _ => _ end) =>
        destruct x as [rels|]; [|apply makes_no_increment_ret]
    end.
    destruct rels; try apply makes_no_increment_ret;
      (apply makes_no_increment_bind;
       [apply storeRelationships_no_increment|]);
      intros msg'; destruct (negb (String.eqb msg' ""));
      apply makes_no_increment_ret.
Qed.

Lemma incrementCounters_calls {S} (client : Querier S) (n : nat) :
  forall (s : S) (log : list Call),
  exists s',
    incrementCounters (recording client) n (s, log)
    = (tt, (s', log ++ replicate n (CIncrementCounter "total_stores"))).
Proof.
  induction n as [|n IH]; intros s log; simpl.
  - exists s. now rewrite app_nil_r.
  - unfold bind, logged.
    destruct (IncrementCounter client "total_stores" s) as [e s1].
    destruct (IH s1 (log ++ [CIncrementCounter "total_stores"]))
      as (s' & Hrun).
    exists s'. rewrite Hrun. now rewrite <- app_assoc.
Qed.

(** X9. A bulk store of 1 to 50 items increments [total_stores] once
    per item that phase 1 stored, and not once per batch or per item
    submitted: the log of a recording client is extended by calls none
    of which is an increment, followed by exactly as many increments of
    [total_stores] as [stored] has filled slots.  The result is not an
    error even when some or all items failed. *)
Theorem BulkStore_increments_once_per_stored_item
    {S} (client : Querier S) (args : gmap string any)
    (itemSlice : list any) (s : S) (log : list Call) :
  let p1 := (phase1_loop (recording client) 0 itemSlice
               (phase1_init (length itemSlice)) (s, log)).1 in
  let n := count_stored (p1_stored p1) in
  args !! "items" = Some (AArr itemSlice) ->
  (0 < length itemSlice <= 50)%nat ->
  exists r s' calls,
    BulkStore (recording client) args (s, log)
    = (r, (s', log ++ calls
                 ++ replicate n (CIncrementCounter "total_stores")))
    /\ IsError r = false
    /\ Forall (fun call => is_increment call = false) calls
    /\ (n <= length itemSlice)%nat.
Proof.
  intros p1 n Hitems Hlen. unfold Tools.BulkStore. rewrite Hitems.
  destruct (Z.of_nat (length itemSlice) =? 0)%Z eqn:E0.
  { apply Z.eqb_eq in E0. lia. }
  destruct (maxBulkItems <? Z.of_nat (length itemSlice))%Z eqn:E1.
  { apply Z.ltb_lt in E1. unfold maxBulkItems in E1. lia. }
  destruct (phase1_accounting (recording client) itemSlice (s, log))
    as (Hacc & Hslots & Htot).
  fold p1 in Hacc, Hslots, Htot. fold n in Hacc, Htot.
  destruct (phase1_loop_no_increment client itemSlice 0
              (phase1_init (length itemSlice)) s log) as (c1 & Hlog1 & F1).
  unfold bind at 1. subst n p1.
  destruct (phase1_loop (recording client) 0 itemSlice
              (phase1_init (length itemSlice)) (s, log))
    as [p1 [s1 log1]] eqn:Ep1.
  simpl in *. subst log1.
  destruct (phase2_loop_no_increment client itemSlice (p1_stored p1)
              (p1_stored p1) 0 (p1_errors p1, []) s1 (log ++ c1))
    as (c2 & Hlog2 & F2).
  unfold bind at 1.
  destruct (phase2_loop (recording client) itemSlice (p1_stored p1) 0
              (p1_stored p1) (p1_errors p1, []) (s1, log ++ c1))
    as [[errors relMessages] [s2 log2]].
  simpl in Hlog2. subst log2.
  assert (Hn : Z.to_nat (totalStored_of (p1_typeCounts p1))
               = count_stored (p1_stored p1)).
  { rewrite Htot, wrap_int_small; [lia|].
    unfold min_int, max_int. change (2 ^ 63)%Z with 9223372036854775808%Z.
    lia. }
  rewrite Hn.
  destruct (incrementCounters_calls client (count_stored (p1_stored p1))
              s2 ((log ++ c1) ++ c2)) as (s3 & Hrun).
  unfold bind. rewrite Hrun.
  eexists _, s3, (c1 ++ c2). rewrite !app_assoc.
  split; [reflexivity|]. split; [reflexivity|].
  split; [now apply Forall_app|lia].
Qed.

End Props.

End ToolsExtras.

(** * Bulk store: references between the items of a batch *)

Module BulkProps.
Import Tools ToolsCalls.

Section Props.

Variable GetStringArg : gmap string any -> string -> string -> string.
Variable GetFloat64Arg : gmap string any -> string -> Q -> Q.
Variable Truncate : string -> Z -> string.
Variable ToLower : string -> string.
Variable fmt_q : string -> string.
Variable fmt_f1 : Q -> string.

Abbreviation storeNode :=
  (storeNode GetStringArg GetFloat64Arg Truncate ToLower fmt_q fmt_f1).
Abbreviation handleInvalidation := (handleInvalidation GetStringArg fmt_q).
Abbreviation storeRelationships := (storeRelationships GetStringArg).
Abbreviation buildEdgeFields := (buildEdgeFields GetStringArg).
Abbreviation relationship_calls := (relationship_calls GetStringArg).
Abbreviation invalidation_calls := (invalidation_calls GetStringArg).
Abbreviation item_relationship_calls :=
  (item_relationship_calls GetStringArg).
Abbreviation phase2_calls := (phase2_calls GetStringArg).
Abbreviation phase1_step :=
  (phase1_step GetStringArg GetFloat64Arg Truncate ToLower fmt_q fmt_f1).
Abbreviation phase1_loop :=
  (phase1_loop GetStringArg GetFloat64Arg Truncate ToLower fmt_q fmt_f1).
Abbreviation item_stored :=
  (item_stored GetStringArg GetFloat64Arg Truncate ToLower fmt_q fmt_f1).
Abbreviation state_before :=
  (state_before GetStringArg GetFloat64Arg Truncate ToLower fmt_q fmt_f1).
Abbreviation phase2_step := (phase2_step GetStringArg fmt_q).
Abbreviation phase2_loop := (phase2_loop GetStringArg fmt_q).
Abbreviation BulkStore :=
  (BulkStore GetStringArg GetFloat64Arg Truncate ToLower fmt_q fmt_f1).

(** *** Phase 1 makes store calls only *)

Lemma makes_store_calls_ret {S A} (a : A) : @makes_store_calls S A (ret a).
Proof.
  intros s log. exists []. rewrite app_nil_r. split; [reflexivity|constructor].
Qed.

Lemma makes_store_calls_bind {S A B} (m : M (S * list Call) A)
    (k : A -> M (S * list Call) B) :
  makes_store_calls m -> (forall a, makes_store_calls (k a)) ->
  makes_store_calls (bind m k).
Proof.
  intros Hm Hk s log. unfold bind.
  destruct (Hm s log) as (c1 & E1 & F1).
  destruct (m (s, log)) as [a [s1 log1]]. simpl in E1. subst log1.
  destruct (Hk a s1 (log ++ c1)) as (c2 & E2 & F2).
  exists (c1 ++ c2). rewrite app_assoc. split; [exact E2|].
  now apply Forall_app.
Qed.

Lemma makes_store_calls_logged {S A} (call : Call) (m : M S A) :
  is_store_call call = true -> makes_store_calls (logged call m).
Proof.
  intros Hc s log. exists [call]. unfold logged.
  destruct (m s) as [a s']. split; [reflexivity|]. now repeat constructor.
Qed.

Lemma storeNode_makes_store_calls {S} (client : Querier S)
    (args : gmap string any) (nodeType : string) :
  makes_store_calls (storeNode (recording client) args nodeType).
Proof.
  unfold Tools.storeNode, Tools.storeFact, Tools.storeDecision,
    Tools.storeEntity, Tools.storeEvent, Tools.storeTopic.
  cbv zeta.
  repeat first
    [ apply makes_store_calls_ret
    | apply makes_store_calls_logged; reflexivity
    | apply makes_store_calls_bind; [|intros; cbv beta]
    | match goal with
      | |- makes_store_calls (if ?b then _ else _) => destruct b
      | |- makes_store_calls (match ?x with _ => _ end) => destruct x
      end ].
Qed.

Lemma phase1_loop_makes_store_calls {S} (client : Querier S)
    (items : list any) :
  forall (i : nat) (acc : phase1_acc),
  makes_store_calls (phase1_loop (recording client) i items acc).
Proof.
  induction items as [|raw rest IH]; intros i acc; simpl.
  - apply makes_store_calls_ret.
  - apply makes_store_calls_bind; [|intros; apply IH].
    unfold Tools.phase1_step. cbv zeta.
    destruct raw; try apply makes_store_calls_ret.
    destruct (String.eqb (GetStringArg m "type" "") "");
      [apply makes_store_calls_ret|].
    apply makes_store_calls_bind; [apply storeNode_makes_store_calls|].
    intros [[id sum] [e|]]; [apply makes_store_calls_ret|].
    destruct (String.eqb id ""); apply makes_store_calls_ret.
Qed.

(** *** Phase 2 makes exactly the calls of [phase2_calls] *)

Lemma handleInvalidation_log {S} (client : Querier S)
    (args : gmap string any) (nodeID : string) (s : S) (log : list Call) :
  exists r s',
    handleInvalidation (recording client) args nodeID (s, log)
    = (r, (s', log ++ invalidation_calls args nodeID)).
Proof.
  unfold Tools.handleInvalidation, ToolsCalls.invalidation_calls.
  destruct (String.eqb (GetStringArg args "invalidates" "") "").
  { eexists _, _. rewrite app_nil_r. reflexivity. }
  destruct (negb (String.prefix "fact:" (GetStringArg args "invalidates" ""))).
  { eexists _, _. rewrite app_nil_r. reflexivity. }
  unfold bind, recording, logged; simpl.
  destruct (InvalidateFact client _ _ _ s) as [[e|] s'];
    eexists _, _; reflexivity.
Qed.

Lemma storeRelationships_log {S} (client : Querier S)
    (sourceNodeID : string) (rels : list any) (s : S) (log : list Call) :
  exists text s',
    storeRelationships (recording client) sourceNodeID (AArr rels) (s, log)
    = (text, (s', log ++ concat (map (relationship_calls sourceNodeID) rels))).
Proof.
  exact (ToolsExtras.storeRelationships_loop_calls GetStringArg client
           sourceNodeID rels "" s log).
Qed.

Lemma phase2_step_log {S} (client : Querier S) (itemSlice : list any)
    (stored : list bulkItem) (i : nat) (item : bulkItem)
    (acc : list string * list string) (s : S) (log : list Call) :
  exists acc' s',
    phase2_step (recording client) itemSlice stored i item acc (s, log)
    = (acc',
       (s', log ++ phase2_calls itemSlice stored i [item])).
Proof.
  unfold Tools.phase2_step. cbn [ToolsCalls.phase2_calls].
  rewrite app_nil_r. destruct acc as [errors relMessages].
  destruct (String.eqb (nodeID item) "").
  { eexists _, _. rewrite app_nil_r. reflexivity. }
  fold (item_args itemSlice i).
  destruct (handleInvalidation_log client (item_args itemSlice i)
              (nodeID item) s log) as ([toolErr msg] & s1 & Hinv).
  unfold bind at 1. rewrite Hinv. cbv beta iota.
  unfold ToolsCalls.item_relationship_calls.
  assert (Hnone : forall (a : list string * list string),
            exists acc' s',
              @ret (S * list Call) _ a
                (s1, log ++ invalidation_calls (item_args itemSlice i)
                               (nodeID item))
              = (acc', (s', log ++ invalidation_calls (item_args itemSlice i)
                                      (nodeID item) ++ []))).
  { intros a. eexists _, _. rewrite app_nil_r. reflexivity. }
  match goal with
  | |- context [let (_, _) := ?p in _] => destruct p as [errors' rels']
  end.
  destruct (item_args itemSlice i !! "relationships") as [rels|];
    [|apply Hnone].
  assert (Hsome : exists acc' s',
            (let* msg0 :=
               storeRelationships (recording client) (nodeID item)
                 (AArr (resolveBatchRefs rels stored)) in
             if negb (String.eqb msg0 "")
             then ret (errors',
                       rels' ++ ["item[" +:+ fmt_d (Z.of_nat i) +:+ "]:" +:+
                                 nl +:+ msg0])
             else ret (errors', rels'))
              (s1, log ++ invalidation_calls (item_args itemSlice i)
                             (nodeID item))
            = (acc',
               (s', log ++ invalidation_calls (item_args itemSlice i)
                              (nodeID item)
                        ++ concat (map (relationship_calls (nodeID item))
                                       (resolveBatchRefs rels stored))))).
  { destruct (storeRelationships_log client (nodeID item)
                (resolveBatchRefs rels stored) s1
                (log ++ invalidation_calls (item_args itemSlice i)
                          (nodeID item))) as (text & s2 & Hrel).
    unfold bind. rewrite Hrel. rewrite <- app_assoc.
    destruct (negb (String.eqb text "")); eexists _, _; reflexivity. }
  destruct rels; exact Hsome.
Qed.

Lemma phase2_loop_log {S} (client : Querier S) (itemSlice : list any)
    (stored todo : list bulkItem) :
  forall (i : nat) (acc : list string * list string) (s : S)
         (log : list Call),
  exists acc' s',
    phase2_loop (recording client) itemSlice stored i todo acc (s, log)
    = (acc', (s', log ++ phase2_calls itemSlice stored i todo)).
Proof.
  induction todo as [|item rest IH]; intros i acc s log.
  - eexists _, _. simpl. rewrite app_nil_r. reflexivity.
  - destruct (phase2_step_log client itemSlice stored i item acc s log)
      as (acc1 & s1 & Hstep).
    cbn [ToolsCalls.phase2_calls] in Hstep. rewrite app_nil_r in Hstep.
    cbn [Tools.phase2_loop ToolsCalls.phase2_calls]. unfold bind.
    rewrite Hstep.
    destruct (IH (Datatypes.S i) acc1 s1
                (log ++ (if String.eqb (nodeID item) "" then []
                         else invalidation_calls (item_args itemSlice i)
                                (nodeID item)
                              ++ item_relationship_calls stored
                                   (item_args itemSlice i) (nodeID item))))
      as (acc2 & s2 & Hrest).
    rewrite Hrest. eexists _, _. rewrite <- app_assoc. reflexivity.
Qed.

Lemma phase2_calls_app (itemSlice : list any) (stored l1 l2 : list bulkItem) :
  forall i,
  phase2_calls itemSlice stored i (l1 ++ l2)
  = phase2_calls itemSlice stored i l1
    ++ phase2_calls itemSlice stored (i + length l1) l2.
Proof.
  induction l1 as [|item l1 IH]; intros i; simpl.
  - now rewrite Nat.add_0_r.
  - rewrite IH, <- app_assoc. do 3 f_equal. lia.
Qed.

(** The calls of the whole batch, on a recording client. *)
Lemma BulkStore_log {S} (client : Querier S) (args : gmap string any)
    (itemSlice : list any) (s : S) (log : list Call) :
  let stored :=
    p1_stored (phase1_loop (recording client) 0 itemSlice
                 (phase1_init (length itemSlice)) (s, log)).1 in
  args !! "items" = Some (AArr itemSlice) ->
  (0 < length itemSlice <= 50)%nat ->
  exists r s' stores,
    BulkStore (recording client) args (s, log)
    = (r, (s', log ++ stores
                 ++ phase2_calls itemSlice stored 0 stored
                 ++ replicate (count_stored stored)
                      (CIncrementCounter "total_stores")))
    /\ IsError r = false
    /\ Forall (fun call => is_store_call call = true) stores.
Proof.
  intros stored Hitems Hlen. unfold Tools.BulkStore. rewrite Hitems.
  destruct (Z.of_nat (length itemSlice) =? 0)%Z eqn:E0.
  { apply Z.eqb_eq in E0. lia. }
  destruct (maxBulkItems <? Z.of_nat (length itemSlice))%Z eqn:E1.
  { apply Z.ltb_lt in E1. unfold maxBulkItems in E1. lia. }
  destruct (ToolsExtras.phase1_accounting GetStringArg GetFloat64Arg Truncate
              ToLower fmt_q fmt_f1 (recording client) itemSlice (s, log))
    as (_ & Hslots & Htot).
  destruct (phase1_loop_makes_store_calls client itemSlice 0
              (phase1_init (length itemSlice)) s log) as (c1 & Hlog1 & F1).
  unfold bind at 1. subst stored.
  destruct (phase1_loop (recording client) 0 itemSlice
              (phase1_init (length itemSlice)) (s, log))
    as [p1 [s1 log1]] eqn:Ep1.
  simpl in *. subst log1.
  destruct (phase2_loop_log client itemSlice (p1_stored p1) (p1_stored p1)
              0 (p1_errors p1, []) s1 (log ++ c1))
    as ([errors relMessages] & s2 & Hp2).
  unfold bind at 1. rewrite Hp2.
  assert (Hn : Z.to_nat (totalStored_of (p1_typeCounts p1))
               = count_stored (p1_stored p1)).
  { pose proof (ToolsExtras.count_stored_le (p1_stored p1)).
    rewrite Htot, wrap_int_small; [lia|].
    unfold min_int, max_int. change (2 ^ 63)%Z with 9223372036854775808%Z.
    lia. }
  rewrite Hn.
  destruct (ToolsExtras.incrementCounters_calls client
              (count_stored (p1_stored p1)) s2
              ((log ++ c1) ++ phase2_calls itemSlice (p1_stored p1) 0
                                (p1_stored p1))) as (s3 & Hrun).
  unfold bind. rewrite Hrun.
  eexists _, s3, c1. rewrite <- !app_assoc.
  split; [reflexivity|]. split; [reflexivity|exact F1].
Qed.


End Props.

End BulkProps.

(** * Further properties of the reader *)

Module ReaderExtras.
Import Tools Memory ReaderViews.

Section Props.

Variable Vec : Type.
Variable embedder : option (string -> result Vec).
Variable hnsw : string -> Vec -> Z -> Z -> option (list (string * Q)).
Variable exact_fails : string -> bool.
Variable fmt_v : any -> string.
Variable db : Database.

Abbreviation parseSearchResult := (parseSearchResult fmt_v).
Abbreviation semantic_rows := (semantic_rows Vec hnsw db).
Abbreviation semantic_collect := (semantic_collect Vec hnsw fmt_v db).
Abbreviation SemanticSearch := (SemanticSearch Vec embedder hnsw fmt_v db).
Abbreviation exact_rows := (exact_rows exact_fails db).
Abbreviation exact_collect := (exact_collect exact_fails fmt_v db).
Abbreviation ExactSearch := (ExactSearch exact_fails fmt_v db).

Lemma search_limit_pos (limit : Z) : (0 < search_limit limit)%Z.
Proof.
  unfold search_limit. destruct (limit <=? 0)%Z eqn:E; [lia|].
  now apply Z.leb_gt in E.
Qed.

Lemma length_cut {A} (limit : Z) (l : list A) :
  (0 < limit)%Z ->
  (Z.of_nat (length (if (limit <? Z.of_nat (length l))%Z
                     then take (Z.to_nat limit) l else l)) <= limit)%Z.
Proof.
  intros Hpos. destruct (limit <? Z.of_nat (length l))%Z eqn:E.
  - rewrite length_take. lia.
  - apply Z.ltb_ge in E. exact E.
Qed.

Lemma elem_of_cut {A} (limit : Z) (l : list A) (x : A) :
  x ∈ (if (limit <? Z.of_nat (length l))%Z
       then take (Z.to_nat limit) l else l) -> x ∈ l.
Proof.
  destruct (limit <? Z.of_nat (length l))%Z; [apply subseteq_take|auto].
Qed.

Lemma exact_collect_match (nodeTypes : list string) (query : string)
    (limit : Z) (sr : SearchResult) :
  sr ∈ exact_collect nodeTypes query limit ->
  sr_NodeType sr ∈ nodeTypes
  /\ exact_match db query (sr_NodeType sr) (sr_ID sr) = Some (sr_Content sr)
  /\ sr_Distance sr = 0%Q.
Proof.
  intros Hin. apply elem_of_concat_map in Hin as (nt & Hnt & Hin).
  destruct (exact_rows nt query limit) as [rows|] eqn:E;
    [|now apply elem_of_nil in Hin].
  apply list_elem_of_fmap in Hin as (row & -> & Hrow).
  unfold Memory.exact_rows in E.
  destruct (exact_fails nt); [discriminate|].
  destruct (String.eqb nt "fact") eqn:E1.
  { apply String.eqb_eq in E1. subst nt. inversion E; subst rows; clear E.
    apply ReaderProps.elem_of_scan_limit in Hrow as (id & r & Hr & Hk & ->).
    split; [exact Hnt|]. unfold exact_match. simpl. rewrite Hr. simpl.
    rewrite Hk. split; reflexivity. }
  destruct (String.eqb nt "decision") eqn:E2.
  { apply String.eqb_eq in E2. subst nt. inversion E; subst rows; clear E.
    apply ReaderProps.elem_of_scan_limit in Hrow as (id & r & Hr & Hk & ->).
    split; [exact Hnt|]. unfold exact_match. simpl. rewrite Hr. simpl.
    rewrite Hk. split; reflexivity. }
  destruct (String.eqb nt "entity") eqn:E3.
  { apply String.eqb_eq in E3. subst nt. inversion E; subst rows; clear E.
    apply ReaderProps.elem_of_scan_limit in Hrow as (id & r & Hr & Hk & ->).
    split; [exact Hnt|]. unfold exact_match. simpl. rewrite Hr. simpl.
    rewrite Hk. split; reflexivity. }
  destruct (String.eqb nt "event") eqn:E4.
  { apply String.eqb_eq in E4. subst nt. inversion E; subst rows; clear E.
    apply ReaderProps.elem_of_scan_limit in Hrow as (id & r & Hr & Hk & ->).
    split; [exact Hnt|]. unfold exact_match. simpl. rewrite Hr. simpl.
    rewrite Hk. split; reflexivity. }
  destruct (String.eqb nt "topic") eqn:E5; [|discriminate].
  apply String.eqb_eq in E5. subst nt. inversion E; subst rows; clear E.
  apply ReaderProps.elem_of_scan_limit in Hrow as (id & r & Hr & Hk & ->).
  split; [exact Hnt|]. unfold exact_match. simpl. rewrite Hr. simpl.
  rewrite Hk. split; reflexivity.
Qed.

(** X10. Exact search never fails, also when the backend rejects the
    query of some or of every variant.  It returns at most [limit]
    results (at most 10 when the given limit is not positive); every
    result is of a requested variant (of the five variants when none is
    requested), names a stored node whose searched text includes the
    query (for a fact, a valid one), displays that node's content,
    title or name, and has distance 0. *)
Theorem ExactSearch_total_bounded_and_sound
    (query : string) (nodeTypes : list string) (limit : Z) :
  exists results,
    ExactSearch query nodeTypes limit = Ok results
    /\ (Z.of_nat (length results) <= search_limit limit)%Z
    /\ forall sr, sr ∈ results ->
         sr_NodeType sr
           ∈ default_node_types nodeTypes
               ["fact"; "decision"; "entity"; "event"; "topic"]
         /\ exact_match db query (sr_NodeType sr) (sr_ID sr)
            = Some (sr_Content sr)
         /\ sr_Distance sr = 0%Q.
Proof.
  eexists. split; [reflexivity|]. fold (search_limit limit). split.
  - apply length_cut, search_limit_pos.
  - intros sr Hin. apply elem_of_cut in Hin.
    now apply exact_collect_match in Hin.
Qed.

Lemma semantic_collect_nothing (nodeTypes : list string) (queryEmb : Vec)
    (limit : Z) :
  (forall nt, nt ∈ nodeTypes ->
     nt ∉ embedded_variants
     \/ hnsw (embedding_index nt) queryEmb (wrap_int (limit * 5)) 200 = None) ->
  semantic_collect nodeTypes queryEmb limit = [].
Proof.
  induction nodeTypes as [|nt rest IH]; intros H; [reflexivity|].
  unfold Memory.semantic_collect. simpl.
  fold (semantic_collect rest queryEmb limit).
  rewrite IH by (intros nt' Hin; apply H, elem_of_cons; now right).
  assert (Hnt : semantic_rows nt queryEmb limit = None).
  { specialize (H nt (proj2 (elem_of_cons _ _ _) (or_introl eq_refl))).
    unfold Memory.semantic_rows.
    destruct (String.eqb nt "fact") eqn:E1.
    { apply String.eqb_eq in E1. subst nt. destruct H as [H|H].
      - destruct H. apply (bool_decide_unpack _). vm_compute. reflexivity.
      - change (embedding_index "fact")
          with "mie_fact_embedding:fact_embedding_idx" in H.
        now rewrite H. }
    destruct (String.eqb nt "decision") eqn:E2.
    { apply String.eqb_eq in E2. subst nt. destruct H as [H|H].
      - destruct H. apply (bool_decide_unpack _). vm_compute. reflexivity.
      - change (embedding_index "decision")
          with "mie_decision_embedding:decision_embedding_idx" in H.
        now rewrite H. }
    destruct (String.eqb nt "entity") eqn:E3.
    { apply String.eqb_eq in E3. subst nt. destruct H as [H|H].
      - destruct H. apply (bool_decide_unpack _). vm_compute. reflexivity.
      - change (embedding_index "entity")
          with "mie_entity_embedding:entity_embedding_idx" in H.
        now rewrite H. }
    destruct (String.eqb nt "event") eqn:E4; [|reflexivity].
    apply String.eqb_eq in E4. subst nt. destruct H as [H|H].
    - destruct H. apply (bool_decide_unpack _). vm_compute. reflexivity.
    - change (embedding_index "event")
        with "mie_event_embedding:event_embedding_idx" in H.
      now rewrite H. }
  now rewrite Hnt.
Qed.

(** X11. Semantic search fails in exactly two ways: without an
    embedder, and when the embedding of the query cannot be generated.
    Once the query is embedded it succeeds with at most [limit] results
    (10 for a non-positive limit), whatever the backend answers: a
    variant whose index query fails, and a requested variant that has
    no vector index (such as [topic]), contribute nothing, so a request
    for such variants alone yields the empty result, not the default
    variants. *)
Theorem SemanticSearch_failure_modes
    (query : string) (nodeTypes : list string) (limit : Z) :
  (embedder = None ->
   SemanticSearch query nodeTypes limit
   = Err "semantic search requires embeddings to be enabled")
  /\ (forall GenerateQuery e,
        embedder = Some GenerateQuery -> GenerateQuery query = Err e ->
        SemanticSearch query nodeTypes limit
        = Err ("generate query embedding: " +:+ e))
  /\ (forall GenerateQuery queryEmb,
        embedder = Some GenerateQuery -> GenerateQuery query = Ok queryEmb ->
        exists results,
          SemanticSearch query nodeTypes limit = Ok results
          /\ (Z.of_nat (length results) <= search_limit limit)%Z
          /\ (nodeTypes <> [] ->
              (forall nt, nt ∈ nodeTypes ->
                 nt ∉ embedded_variants
                 \/ hnsw (embedding_index nt) queryEmb
                      (wrap_int (search_limit limit * 5)) 200 = None) ->
              results = [])).
Proof.
  unfold Memory.SemanticSearch. split; [|split].
  - intros ->. reflexivity.
  - intros g e -> He. now rewrite He.
  - intros g queryEmb -> Hq. rewrite Hq. eexists. split; [reflexivity|].
    fold (search_limit limit). split.
    + apply length_cut, search_limit_pos.
    + intros Hne Hall.
      assert (Hd : default_node_types nodeTypes
                     ["fact"; "decision"; "entity"; "event"] = nodeTypes).
      { unfold default_node_types. destruct nodeTypes; [now destruct Hne|].
        reflexivity. }
      rewrite Hd. fold (semantic_collect nodeTypes queryEmb (search_limit limit)).
      rewrite (semantic_collect_nothing _ _ _ Hall).
      change (sort_by_distance []) with (@nil SearchResult).
      destruct (search_limit limit <? _)%Z; [apply take_nil|reflexivity].
Qed.

End Props.

Section ListProps.

Variable backend_Query : string -> result QueryResult.
Variable fmt_v : any -> string.
Variable nodeTypeToTable : string -> string.
Variable escapeDatalog : string -> string.
Variable strings_TrimSpace : string -> string.

Abbreviation buildListConditions := (buildListConditions escapeDatalog).
Abbreviation list_script := (list_script escapeDatalog).
Abbreviation countNodes := (countNodes backend_Query strings_TrimSpace).
Abbreviation ListNodes :=
  (ListNodes backend_Query fmt_v nodeTypeToTable escapeDatalog
             strings_TrimSpace).

Lemma buildListConditions_own_filters (opts : ListOptions) :
  buildListConditions (own_filters opts) = buildListConditions opts.
Proof.
  unfold Memory.buildListConditions, own_filters. simpl.
  destruct (String.eqb (lo_NodeType opts) "fact"); [reflexivity|].
  destruct (String.eqb (lo_NodeType opts) "decision"); [reflexivity|].
  destruct (String.eqb (lo_NodeType opts) "entity"); reflexivity.
Qed.

(** X12. [ListNodes] applies a filter only to the variant it belongs
    to: [category] and [valid_only] to facts, [status] to decisions,
    [kind] to entities; [topic_name] is never used.  Any other filter
    present in the options changes neither the script sent nor the
    result, and events and topics are listed unfiltered. *)
Theorem ListNodes_ignores_foreign_filters (opts : ListOptions) :
  ListNodes opts = ListNodes (own_filters opts)
  /\ (forall table, list_script opts table
                    = list_script (own_filters opts) table)
  /\ (lo_NodeType opts = "event" \/ lo_NodeType opts = "topic" ->
      buildListConditions opts = []).
Proof.
  assert (Hs : forall table, list_script opts table
                             = list_script (own_filters opts) table).
  { intros table. unfold Memory.list_script.
    rewrite buildListConditions_own_filters. reflexivity. }
  split; [|split; [exact Hs|]].
  - unfold Memory.ListNodes. rewrite buildListConditions_own_filters.
    fold (list_script opts (nodeTypeToTable (lo_NodeType opts))).
    fold (list_script (own_filters opts)
            (nodeTypeToTable (lo_NodeType (own_filters opts)))).
    change (lo_NodeType (own_filters opts)) with (lo_NodeType opts).
    rewrite <- Hs. reflexivity.
  - intros [H|H]; unfold Memory.buildListConditions; rewrite H; reflexivity.
Qed.

(** X13. The total that [ListNodes] returns beside the page counts the
    nodes that pass the filters, not the page: it does not depend on
    the limit, the offset or the order requested, so two listings that
    differ only in these return the same total. *)
Theorem ListNodes_total_independent_of_page
    (opts : ListOptions) (limit offset : Z) (sortBy sortOrder : string)
    (nodes nodes' : list Node) (total total' : Z) :
  ListNodes opts = Ok (nodes, total) ->
  ListNodes (with_page opts limit offset sortBy sortOrder)
    = Ok (nodes', total') ->
  total = total'
  /\ countNodes (nodeTypeToTable (lo_NodeType opts))
       (buildListConditions opts)
       (list_condStr (buildListConditions opts)) = Ok total.
Proof.
  unfold Memory.ListNodes.
  change (lo_NodeType (with_page opts limit offset sortBy sortOrder))
    with (lo_NodeType opts).
  change (buildListConditions
            (with_page opts limit offset sortBy sortOrder))
    with (buildListConditions opts).
  destruct (String.eqb (nodeTypeToTable (lo_NodeType opts)) "");
    [discriminate|].
  destruct (backend_Query _) as [qr|e]; [|discriminate].
  destruct (backend_Query _) as [qr'|e']; [|intros _; discriminate].
  destruct (countNodes _ _ _) as [n|e]; [|discriminate].
  intros H H'. inversion H; inversion H'; subst. split; reflexivity.
Qed.

End ListProps.

End ReaderExtras.

(** * Lookups by identifier, the invalidation chain and the exports *)

Module LookupExtras.
Import Tools Memory ReaderViews MemoryReader ToolsCalls.

Section LookupProps.

Variable backend_Query : string -> result QueryResult.
Variable fmt_v : any -> string.
Variable fmt_q : string -> string.
Variable nodeTypeToTable : string -> string.
Variable escapeDatalog : string -> string.

Abbreviation parseNode := (parseNode fmt_v).
Abbreviation getNodeByType :=
  (getNodeByType backend_Query fmt_v nodeTypeToTable escapeDatalog).
Abbreviation first_found :=
  (first_found backend_Query fmt_v nodeTypeToTable escapeDatalog).
Abbreviation GetNodeByID :=
  (GetNodeByID backend_Query fmt_v fmt_q nodeTypeToTable escapeDatalog).

Lemma parseNode_variant (nodeType : string) (row : list any) (node : Node) :
  parseNode nodeType row = Some node -> node_variant node = nodeType.
Proof.
  unfold Memory.parseNode.
  destruct (String.eqb nodeType "fact") eqn:E1.
  { apply String.eqb_eq in E1. subst nodeType.
    destruct (Z.of_nat (length row) <? 9)%Z; [discriminate|].
    intros H. inversion H. reflexivity. }
  destruct (String.eqb nodeType "decision") eqn:E2.
  { apply String.eqb_eq in E2. subst nodeType.
    destruct (Z.of_nat (length row) <? 10)%Z; [discriminate|].
    intros H. inversion H. reflexivity. }
  destruct (String.eqb nodeType "entity") eqn:E3.
  { apply String.eqb_eq in E3. subst nodeType.
    destruct (Z.of_nat (length row) <? 7)%Z; [discriminate|].
    intros H. inversion H. reflexivity. }
  destruct (String.eqb nodeType "event") eqn:E4.
  { apply String.eqb_eq in E4. subst nodeType.
    destruct (Z.of_nat (length row) <? 8)%Z; [discriminate|].
    intros H. inversion H. reflexivity. }
  destruct (String.eqb nodeType "topic") eqn:E5; [|discriminate].
  apply String.eqb_eq in E5. subst nodeType.
  destruct (Z.of_nat (length row) <? 5)%Z; [discriminate|].
  intros H. inversion H. reflexivity.
Qed.

Lemma getNodeByType_variant (nodeID nodeType : string) (node : Node) :
  getNodeByType nodeID nodeType = Ok (Some node) ->
  node_variant node = nodeType.
Proof.
  unfold MemoryReader.getNodeByType.
  destruct (String.eqb (nodeTypeToTable nodeType) ""); [discriminate|].
  destruct (backend_Query _) as [qr|e]; [|discriminate].
  destruct (Rows qr) as [|row rest]; [discriminate|].
  intros H. inversion H as [Hp]. now apply parseNode_variant in Hp.
Qed.

Lemma first_found_spec (nodeID : string) (types : list string) (node : Node) :
  first_found nodeID types = Some node <->
  exists pre nt post,
    types = pre ++ nt :: post
    /\ getNodeByType nodeID nt = Ok (Some node)
    /\ forall nt', nt' ∈ pre ->
         forall node', getNodeByType nodeID nt' <> Ok (Some node').
Proof.
  induction types as [|t rest IH]; simpl.
  - split; [discriminate|]. intros (pre & nt & post & H & _).
    now destruct pre.
  - destruct (getNodeByType nodeID t) as [[n|]|e] eqn:E.
    + split.
      * intros H. inversion H; subst n. exists [], t, rest.
        split; [reflexivity|]. split; [exact E|].
        intros nt' Hin. now apply elem_of_nil in Hin.
      * intros (pre & nt & post & H & Hnt & Hpre).
        destruct pre as [|p pre]; simpl in H; inversion H; subst.
        -- rewrite E in Hnt. now inversion Hnt.
        -- exfalso. apply (Hpre p (proj2 (elem_of_cons _ _ _)
                                     (or_introl eq_refl)) n). exact E.
    + rewrite IH. split.
      * intros (pre & nt & post & -> & Hnt & Hpre).
        exists (t :: pre), nt, post. split; [reflexivity|].
        split; [exact Hnt|]. intros nt' Hin.
        apply elem_of_cons in Hin as [->|Hin]; [|now apply Hpre].
        intros node'. rewrite E. discriminate.
      * intros (pre & nt & post & H & Hnt & Hpre).
        destruct pre as [|p pre]; simpl in H; inversion H; subst.
        -- rewrite E in Hnt. discriminate.
        -- exists pre, nt, post. split; [reflexivity|].
           split; [exact Hnt|]. intros nt' Hin. apply Hpre.
           apply elem_of_cons. now right.
    + rewrite IH. split.
      * intros (pre & nt & post & -> & Hnt & Hpre).
        exists (t :: pre), nt, post. split; [reflexivity|].
        split; [exact Hnt|]. intros nt' Hin.
        apply elem_of_cons in Hin as [->|Hin]; [|now apply Hpre].
        intros node'. rewrite E. discriminate.
      * intros (pre & nt & post & H & Hnt & Hpre).
        destruct pre as [|p pre]; simpl in H; inversion H; subst.
        -- rewrite E in Hnt. discriminate.
        -- exists pre, nt, post. split; [reflexivity|].
           split; [exact Hnt|]. intros nt' Hin. apply Hpre.
           apply elem_of_cons. now right.
Qed.

(** X14. An identifier that carries one of the prefixes [ent:], [evt:],
    [dec:], [top:], [fact:] is looked up in the relation of that
    variant only: a node returned has that variant, no row (or a row
    too short to parse) is the error "node ... not found" whatever the
    other relations hold, and an error of the backend is returned
    unchanged. *)
Theorem GetNodeByID_prefixed_looks_up_one_variant (nodeID : string) :
  let nodeType := id_node_type nodeID in
  nodeType <> "" ->
  (forall node, GetNodeByID nodeID = Ok node ->
     node_variant node = nodeType
     /\ getNodeByType nodeID nodeType = Ok (Some node))
  /\ (getNodeByType nodeID nodeType = Ok None ->
      GetNodeByID nodeID = Err ("node " +:+ fmt_q nodeID +:+ " not found"))
  /\ (forall e, getNodeByType nodeID nodeType = Err e ->
      GetNodeByID nodeID = Err e).
Proof.
  intros nodeType Hne. apply String.eqb_neq in Hne.
  unfold MemoryReader.GetNodeByID. fold nodeType. rewrite Hne. simpl.
  split; [|split].
  - intros node.
    destruct (getNodeByType nodeID nodeType) as [[n|]|e] eqn:E;
      try discriminate.
    intros H. inversion H; subst n. split; [|reflexivity].
    now apply getNodeByType_variant in E.
  - intros H. now rewrite H.
  - intros e H. now rewrite H.
Qed.

(** X15. An identifier without a known prefix (or shorter than four
    characters) is tried as a fact, a decision, an entity, an event and
    a topic, in this order: the node returned is the one of the first
    variant whose lookup gives a node, lookups that fail or find
    nothing being skipped.  The only error is "node ... not found": an
    error of the backend is never reported. *)
Theorem GetNodeByID_unprefixed_tries_variants_in_order (nodeID : string) :
  id_node_type nodeID = "" ->
  (forall node, GetNodeByID nodeID = Ok node <->
     exists pre nt post,
       node_types = pre ++ nt :: post
       /\ getNodeByType nodeID nt = Ok (Some node)
       /\ forall nt', nt' ∈ pre ->
            forall node', getNodeByType nodeID nt' <> Ok (Some node'))
  /\ (forall node, GetNodeByID nodeID = Ok node ->
        node_variant node ∈ node_types)
  /\ (forall e, GetNodeByID nodeID = Err e ->
        e = "node " +:+ fmt_q nodeID +:+ " not found").
Proof.
  intros Hnone. unfold MemoryReader.GetNodeByID. rewrite Hnone. simpl.
  fold (first_found nodeID
          ["fact"; "decision"; "entity"; "event"; "topic"]).
  assert (Hiff : forall node,
            match first_found nodeID
                    ["fact"; "decision"; "entity"; "event"; "topic"] with
            | Some node0 => Ok node0
            | None => Err ("node " +:+ fmt_q nodeID +:+ " not found")
            end = Ok node
            <-> first_found nodeID
                  ["fact"; "decision"; "entity"; "event"; "topic"]
                = Some node).
  { intros node. destruct (first_found nodeID _) as [n|].
    - split; intros H; inversion H; reflexivity.
    - split; discriminate. }
  split; [|split].
  - intros node. rewrite Hiff. apply first_found_spec.
  - intros node H. apply Hiff, first_found_spec in H
      as (pre & nt & post & Hty & Hnt & _).
    apply getNodeByType_variant in Hnt. rewrite Hnt.
    unfold node_types. rewrite Hty. apply elem_of_app. right.
    apply elem_of_cons. now left.
  - intros e. destruct (first_found nodeID _) as [n|]; [discriminate|].
    intros H. now inversion H.
Qed.

End LookupProps.

Section RelationalProps.

Variable fmt_v : any -> string.
Variable backend_err : string -> option string.
Variable db : Database.
Variable mie_invalidates : gset (string * string * string).

Abbreviation FindFactByContent := (FindFactByContent fmt_v backend_err db).
Abbreviation invalidation_rows := (invalidation_rows db mie_invalidates).
Abbreviation GetInvalidationChain :=
  (GetInvalidationChain fmt_v backend_err db mie_invalidates).
Abbreviation exportFacts := (exportFacts fmt_v backend_err db).
Abbreviation exportEntities := (exportEntities fmt_v backend_err db).

Lemma scan_limit_nil {Row} (rel : gmap string Row) (keep : Row -> bool)
    (cols : string -> Row -> list any) (limit : Z) (id : string) (r : Row) :
  (0 < limit)%Z -> scan_limit rel keep cols limit = [] ->
  rel !! id = Some r -> keep r = false.
Proof.
  intros Hpos Hnil Hr. unfold scan_limit in Hnil.
  destruct (keep r) eqn:K; [exfalso|reflexivity].
  assert (Hin : cols id r
                ∈ omap (fun '(id, r) =>
                          if keep r then Some (cols id r) else None)
                       (map_to_list rel)).
  { apply list_elem_of_omap. exists (id, r).
    split; [now apply elem_of_map_to_list|]. now rewrite K. }
  destruct (omap _ (map_to_list rel)) as [|x l].
  - now apply elem_of_nil in Hin.
  - destruct (Z.to_nat limit) as [|n] eqn:E; [lia|discriminate].
Qed.

(** X16. [FindFactByContent] looks among all stored facts, the
    invalidated ones included: it finds a fact whenever some stored
    fact's content includes the text, and the fact it returns is a
    stored one, with all its fields, whose content includes the text. *)
Theorem FindFactByContent_includes_invalidated (content : string) :
  backend_err "FindFactByContent" = None ->
  (forall fact, FindFactByContent content = Ok (Some fact) ->
     exists r, mie_fact db !! f_ID fact = Some r
               /\ fact = fact_of (f_ID fact) r
               /\ str_includes (fr_content r) content = true)
  /\ (forall id r,
        mie_fact db !! id = Some r ->
        str_includes (fr_content r) content = true ->
        exists fact, FindFactByContent content = Ok (Some fact)).
Proof.
  intros Hok. unfold MemoryReader.FindFactByContent. rewrite Hok.
  destruct (scan_limit (mie_fact db) _ fact_node_cols 1)
    as [|row rest] eqn:E.
  - split; [discriminate|]. intros id r Hr Hinc.
    pose proof (scan_limit_nil _ _ _ 1 id r ltac:(lia) E Hr) as Hk.
    simpl in Hk. congruence.
  - assert (Hrow : row ∈ scan_limit (mie_fact db)
                     (fun r => str_includes (fr_content r) content)
                     fact_node_cols 1).
    { rewrite E. apply elem_of_cons. now left. }
    apply ReaderProps.elem_of_scan_limit in Hrow as (id & r & Hr & Hk & ->).
    rewrite ReaderProps.parseNode_fact_cols. split.
    + intros fact H. inversion H; subst fact. exists r. simpl.
      split; [exact Hr|]. split; [reflexivity|exact Hk].
    + intros _ _ _ _. eexists. reflexivity.
Qed.

Lemma elem_of_invalidation_rows (factID : string) (row : list any) :
  row ∈ invalidation_rows factID <->
  exists new_id old_id reason old new,
    (new_id, old_id, reason) ∈ mie_invalidates
    /\ (new_id = factID \/ old_id = factID)
    /\ mie_fact db !! old_id = Some old
    /\ mie_fact db !! new_id = Some new
    /\ row = [AStr new_id; AStr old_id; AStr reason;
              AStr (fr_content old); AStr (fr_content new)].
Proof.
  unfold MemoryReader.invalidation_rows. rewrite list_elem_of_omap. split.
  - intros ([[n o] reason] & Hin & Hf). apply elem_of_elements in Hin.
    destruct (String.eqb n factID || String.eqb o factID) eqn:E;
      [|discriminate].
    destruct (mie_fact db !! o) as [old|] eqn:Eo; [|discriminate].
    destruct (mie_fact db !! n) as [new|] eqn:En; [|discriminate].
    simpl in Hf. inversion Hf; subst row.
    exists n, o, reason, old, new. split; [exact Hin|].
    split; [|auto].
    apply orb_true_iff in E as [E|E]; apply String.eqb_eq in E; auto.
  - intros (n & o & reason & old & new & Hin & Hsel & Ho & Hn & ->).
    exists (n, o, reason). split; [now apply elem_of_elements|].
    assert (E : String.eqb n factID || String.eqb o factID = true).
    { apply orb_true_iff.
      destruct Hsel as [->| ->]; [left|right]; apply String.eqb_refl. }
    rewrite E, Ho, Hn. reflexivity.
Qed.

Lemma elem_of_GetInvalidationChain (factID : string)
    (chain : list Invalidation) (inv : Invalidation) :
  GetInvalidationChain factID = Ok chain ->
  (inv ∈ chain <->
   exists old new,
     (inv_NewFactID inv, inv_OldFactID inv, inv_Reason inv) ∈ mie_invalidates
     /\ (inv_NewFactID inv = factID \/ inv_OldFactID inv = factID)
     /\ mie_fact db !! inv_OldFactID inv = Some old
     /\ mie_fact db !! inv_NewFactID inv = Some new
     /\ inv_OldContent inv = fr_content old
     /\ inv_NewContent inv = fr_content new).
Proof.
  unfold MemoryReader.GetInvalidationChain.
  destruct (backend_err "GetInvalidationChain"); [discriminate|].
  intros H. inversion H; subst chain; clear H.
  rewrite list_elem_of_fmap. split.
  - intros (row & -> & Hrow).
    apply elem_of_invalidation_rows in Hrow
      as (n & o & reason & old & new & Hin & Hsel & Ho & Hn & ->).
    exists old, new. simpl. auto 10.
  - intros (old & new & Hin & Hsel & Ho & Hn & Hoc & Hnc).
    exists [AStr (inv_NewFactID inv); AStr (inv_OldFactID inv);
            AStr (inv_Reason inv); AStr (fr_content old);
            AStr (fr_content new)].
    split.
    + destruct inv; simpl in *. now subst.
    + apply elem_of_invalidation_rows. eauto 12.
Qed.

(** X17. The invalidation chain of a fact is one step deep and
    two-sided: every record returned names the fact as its old or as
    its new fact, is a stored invalidation whose two facts both exist
    (their contents are the ones reported), and is returned as well by
    the chain of the fact at its other end. *)
Theorem GetInvalidationChain_direct_and_two_sided
    (factID : string) (chain : list Invalidation) (inv : Invalidation) :
  GetInvalidationChain factID = Ok chain ->
  inv ∈ chain ->
  (inv_NewFactID inv = factID \/ inv_OldFactID inv = factID)
  /\ (inv_NewFactID inv, inv_OldFactID inv, inv_Reason inv) ∈ mie_invalidates
  /\ (exists old new,
        mie_fact db !! inv_OldFactID inv = Some old
        /\ mie_fact db !! inv_NewFactID inv = Some new
        /\ inv_OldContent inv = fr_content old
        /\ inv_NewContent inv = fr_content new)
  /\ (exists chain_new chain_old,
        GetInvalidationChain (inv_NewFactID inv) = Ok chain_new
        /\ inv ∈ chain_new
        /\ GetInvalidationChain (inv_OldFactID inv) = Ok chain_old
        /\ inv ∈ chain_old).
Proof.
  intros Hrun Hin.
  pose proof (proj1 (elem_of_GetInvalidationChain _ _ inv Hrun) Hin)
    as (old & new & Hrel & Hsel & Ho & Hn & Hoc & Hnc).
  split; [exact Hsel|]. split; [exact Hrel|]. split; [eauto 10|].
  assert (Hany : forall f, exists c, GetInvalidationChain f = Ok c).
  { intros f. unfold MemoryReader.GetInvalidationChain in *.
    destruct (backend_err "GetInvalidationChain"); [discriminate|].
    eexists. reflexivity. }
  destruct (Hany (inv_NewFactID inv)) as (c1 & H1).
  destruct (Hany (inv_OldFactID inv)) as (c2 & H2).
  exists c1, c2. split; [exact H1|]. split.
  - apply (elem_of_GetInvalidationChain _ _ inv H1). eauto 12.
  - split; [exact H2|].
    apply (elem_of_GetInvalidationChain _ _ inv H2). eauto 12.
Qed.

Lemma parse_fact_rows (l : list (string * FactRow)) :
  omap (fun row =>
          match Memory.parseNode fmt_v "fact" row with
          | Some (NFact f) => Some f
          | _ => None
          end)
       (map (fun '(id, r) => fact_node_cols id r) l)
  = map (fun '(id, r) => fact_of id r) l.
Proof.
  induction l as [|[id r] l IH]; [reflexivity|].
  unfold omap in *. cbn [map list_omap].
  rewrite ReaderProps.parseNode_fact_cols, IH. reflexivity.
Qed.

Lemma parse_entity_rows (l : list (string * EntityRow)) :
  omap (fun row =>
          match Memory.parseNode fmt_v "entity" row with
          | Some (NEntity e) => Some e
          | _ => None
          end)
       (map (fun '(id, r) => entity_node_cols id r) l)
  = map (fun '(id, r) => entity_of id r) l.
Proof.
  induction l as [|[id r] l IH]; [reflexivity|].
  unfold omap in *. cbn [map list_omap].
  rewrite ReaderProps.parseNode_entity_cols, IH. reflexivity.
Qed.

(** X18. The export of the facts and of the entities is complete and
    exact: it returns every stored fact, invalidated or not, and every
    stored entity, each once and with all its fields, and nothing
    else. *)
Theorem exports_return_every_stored_node :
  (backend_err "exportFacts" = None ->
   exists facts,
     exportFacts = Ok facts
     /\ (forall id r, mie_fact db !! id = Some r <-> fact_of id r ∈ facts)
     /\ NoDup (map f_ID facts)
     /\ length facts = size (mie_fact db))
  /\ (backend_err "exportEntities" = None ->
      exists entities,
        exportEntities = Ok entities
        /\ (forall id r,
              mie_entity db !! id = Some r <-> entity_of id r ∈ entities)
        /\ NoDup (map e_ID entities)
        /\ length entities = size (mie_entity db)).
Proof.
  split.
  - intros Hok. unfold MemoryReader.exportFacts. rewrite Hok.
    eexists. split; [reflexivity|]. rewrite parse_fact_rows.
    split; [|split].
    + intros id r. rewrite list_elem_of_fmap. split.
      * intros H. exists (id, r). split; [reflexivity|].
        now apply elem_of_map_to_list.
      * intros ([id' r'] & Heq & Hin). apply elem_of_map_to_list in Hin.
        assert (id = id') by (now inversion Heq). subst id'.
        assert (r = r') by (destruct r, r'; now inversion Heq).
        now subst r'.
    + rewrite map_map.
      rewrite (map_ext _ fst) by (now intros [id r]).
      apply NoDup_fst_map_to_list.
    + rewrite length_map. apply length_map_to_list.
  - intros Hok. unfold MemoryReader.exportEntities. rewrite Hok.
    eexists. split; [reflexivity|]. rewrite parse_entity_rows.
    split; [|split].
    + intros id r. rewrite list_elem_of_fmap. split.
      * intros H. exists (id, r). split; [reflexivity|].
        now apply elem_of_map_to_list.
      * intros ([id' r'] & Heq & Hin). apply elem_of_map_to_list in Hin.
        assert (id = id') by (now inversion Heq). subst id'.
        assert (r = r') by (destruct r, r'; now inversion Heq).
        now subst r'.
    + rewrite map_map.
      rewrite (map_ext _ fst) by (now intros [id r]).
      apply NoDup_fst_map_to_list.
    + rewrite length_map. apply length_map_to_list.
Qed.

End RelationalProps.

End LookupExtras.

(** * The usage counters *)

Module ClientExtras.
Import Tools Memory MemoryClient.

Lemma string_of_uint_head (d : Decimal.uint) :
  d <> Decimal.Nil ->
  exists c rest,
    NilZero.string_of_uint d = String c rest
    /\ Ascii.eqb c "-" = false /\ Ascii.eqb c "+" = false.
Proof.
  intros Hd. destruct d; [contradiction|..]; simpl;
    eexists _, _; (split; [reflexivity|split; reflexivity]).
Qed.

Lemma Atoi_string_of_uint (d : Decimal.uint) :
  d <> Decimal.Nil -> (Z.of_uint d <= max_int)%Z ->
  Atoi (NilZero.string_of_uint d) = Some (Z.of_uint d).
Proof.
  intros Hd Hmax. pose proof (NilZero.usu d Hd) as Hu.
  destruct (string_of_uint_head d Hd) as (c & rest & Hs & Hm & Hp).
  rewrite Hs in Hu |- *. unfold Atoi. rewrite Hm, Hp, Hu.
  assert (Hpos : (0 <= Z.of_uint d)%Z).
  { unfold Z.of_uint. lia. }
  assert (Hr : (min_int <=? Z.of_uint d)%Z && (Z.of_uint d <=? max_int)%Z
               = true).
  { apply andb_true_iff. split; [apply Z.leb_le|now apply Z.leb_le].
    unfold min_int. lia. }
  now rewrite Hr.
Qed.

Lemma Atoi_neg_string_of_uint (d : Decimal.uint) :
  d <> Decimal.Nil -> (min_int <= - Z.of_uint d)%Z ->
  Atoi (String "-" (NilZero.string_of_uint d)) = Some (- Z.of_uint d).
Proof.
  intros Hd Hmin. pose proof (NilZero.usu d Hd) as Hu.
  unfold Atoi. change (Ascii.eqb "-" "-") with true. cbv iota. rewrite Hu.
  assert (Hpos : (0 <= Z.of_uint d)%Z).
  { unfold Z.of_uint. lia. }
  assert (Hr : (min_int <=? - Z.of_uint d)%Z
               && (- Z.of_uint d <=? max_int)%Z = true).
  { apply andb_true_iff. split; [now apply Z.leb_le|apply Z.leb_le].
    unfold max_int. lia. }
  now rewrite Hr.
Qed.

(** [Atoi] reads back what [%d] (and [strconv.Itoa]) writes. *)
Lemma Atoi_fmt_d (z : Z) :
  (min_int <= z <= max_int)%Z -> Atoi (fmt_d z) = Some z.
Proof.
  intros [Hmin Hmax]. unfold fmt_d. destruct z as [|p|p].
  - vm_compute. reflexivity.
  - assert (Hof : Z.of_uint (Pos.to_uint p) = Z.pos p).
    { unfold Z.of_uint. now rewrite Unsigned.of_to. }
    simpl. rewrite Atoi_string_of_uint.
    + now rewrite Hof.
    + apply Unsigned.to_uint_nonnil.
    + now rewrite Hof.
  - assert (Hof : Z.of_uint (Pos.to_uint p) = Z.pos p).
    { unfold Z.of_uint. now rewrite Unsigned.of_to. }
    simpl. rewrite Atoi_neg_string_of_uint.
    + now rewrite Hof.
    + apply Unsigned.to_uint_nonnil.
    + now rewrite Hof.
Qed.

Section Props.

Variable fmt_v : any -> string.
Variable now : Z.

Abbreviation IncrementCounter := (IncrementCounter fmt_v).

Lemma tsKey_of_neq (key : string) : tsKey_of key <> key \/ tsKey_of key = "".
Proof.
  unfold tsKey_of.
  destruct (String.eqb key "total_queries") eqn:E1.
  { apply String.eqb_eq in E1. subst key. left. discriminate. }
  destruct (String.eqb key "total_stores") eqn:E2.
  { apply String.eqb_eq in E2. subst key. left. discriminate. }
  now right.
Qed.

(** The counter after a call whose write succeeds. *)
Lemma IncrementCounter_written (read_err ts_err : option string)
    (key : string) (meta : gmap string string) :
  let current :=
    match read_err, meta !! key with
    | None, Some value => default 0 (Atoi value)
    | _, _ => 0
    end in
  (IncrementCounter read_err None ts_err now key meta).2 !! key
  = Some (fmt_d (wrap_int (current + 1))).
Proof.
  intros current. unfold MemoryClient.IncrementCounter.
  assert (Hcur : match read_err, meta !! key with
                 | None, Some value =>
                     match Atoi (toString fmt_v (AStr value)) with
                     | Some v => v
                     | None => 0
                     end
                 | _, _ => 0
                 end = current).
  { subst current. destruct read_err; [reflexivity|].
    destruct (meta !! key) as [value|]; [|reflexivity].
    simpl. now destruct (Atoi value). }
  rewrite Hcur.
  destruct (tsKey_of_neq key) as [Hne|He].
  - destruct (negb (String.eqb (tsKey_of key) ""));
      [destruct ts_err|]; simpl;
      rewrite ?lookup_insert_ne by exact Hne; apply lookup_insert_eq.
  - rewrite He. simpl. apply lookup_insert_eq.
Qed.

(** The counter after [n] further calls, from a counter that holds the
    text of [k]. *)
Lemma iter_IncrementCounter_from
    (ts_err : option string) (key : string) (meta : gmap string string)
    (k : Z) (n : nat) :
  default 0 (value ← meta !! key; Atoi value) = k ->
  (0 < n)%nat ->
  (min_int <= k)%Z -> (k + Z.of_nat n <= max_int)%Z ->
  Nat.iter n (fun m => (IncrementCounter None None ts_err now key m).2) meta
    !! key
  = Some (fmt_d (k + Z.of_nat n)).
Proof.
  intros Hk Hpos Hmin Hmax. destruct n as [|n]; [lia|]. clear Hpos.
  induction n as [|n IH].
  - change (Nat.iter 1 ?f meta) with (f meta). cbv beta.
    rewrite IncrementCounter_written.
    assert (Hcur : match meta !! key with
                   | Some value => default 0 (Atoi value)
                   | None => 0
                   end = k).
    { rewrite <- Hk. now destruct (meta !! key). }
    rewrite Hcur, wrap_int_small by lia. reflexivity.
  - change (Nat.iter (Datatypes.S (Datatypes.S n)) ?f meta)
      with (f (Nat.iter (Datatypes.S n) f meta)). cbv beta.
    rewrite IncrementCounter_written, IH by lia.
    rewrite Atoi_fmt_d by lia. simpl default.
    rewrite wrap_int_small by lia.
    f_equal. f_equal. lia.
Qed.

(** The timestamp after a call whose writes succeed. *)
Lemma IncrementCounter_timestamp (read_err : option string) (key : string)
    (meta : gmap string string) :
  tsKey_of key <> "" ->
  (IncrementCounter read_err None None now key meta).2 !! tsKey_of key
  = Some (fmt_d now).
Proof.
  intros Hts. apply String.eqb_neq in Hts.
  unfold MemoryClient.IncrementCounter. rewrite Hts. simpl.
  apply lookup_insert_eq.
Qed.

(** X19. Successive increments count: after [n] calls that reach the
    backend, a counter that was absent holds the decimal text of [n]
    (up to the largest [int]), whether or not the timestamp writes
    succeed. *)
Theorem IncrementCounter_counts_calls
    (ts_err : option string) (key : string) (meta : gmap string string)
    (n : nat) :
  meta !! key = None ->
  (0 < n)%nat ->
  (Z.of_nat n <= max_int)%Z ->
  Nat.iter n (fun m => (IncrementCounter None None ts_err now key m).2) meta
    !! key
  = Some (fmt_d (Z.of_nat n)).
Proof.
  intros Habs Hpos Hmax. destruct n as [|n]; [lia|]. clear Hpos.
  induction n as [|n IH].
  - change (Nat.iter 1 ?f meta) with (f meta). cbv beta.
    rewrite IncrementCounter_written, Habs. reflexivity.
  - change (Nat.iter (Datatypes.S (Datatypes.S n)) ?f meta)
      with (f (Nat.iter (Datatypes.S n) f meta)). cbv beta.
    rewrite IncrementCounter_written, IH by lia.
    rewrite Atoi_fmt_d by (unfold min_int; lia). simpl default.
    rewrite wrap_int_small by (unfold min_int; lia).
    f_equal. f_equal. lia.
Qed.

(** X20. What [IncrementCounter] does at the edges.  When the write
    fails it reports the error and changes nothing.  When the write
    succeeds it reports no error, also when the read or the timestamp
    write failed; a counter whose read failed, that is absent, or whose
    text is not a number restarts at 1; every key other than the
    counter and its timestamp keeps its value, and only
    [total_queries] and [total_stores] have a timestamp. *)
Theorem IncrementCounter_edge_cases
    (read_err write_err ts_err : option string) (key : string)
    (meta : gmap string string) :
  let out := IncrementCounter read_err write_err ts_err now key meta in
  (forall e, write_err = Some e ->
     out = (Some ("increment counter " +:+ key +:+ ": " +:+ e), meta))
  /\ (write_err = None ->
      out.1 = None
      /\ ((read_err <> None \/ meta !! key = None
           \/ (exists value, meta !! key = Some value /\ Atoi value = None)) ->
          out.2 !! key = Some "1")
      /\ (forall other, other <> key -> other <> tsKey_of key ->
            out.2 !! other = meta !! other)
      /\ (key <> "total_queries" -> key <> "total_stores" ->
          out.2 = <[key := default "" (out.2 !! key)]> meta)
      /\ (ts_err = None -> tsKey_of key <> "" ->
          out.2 !! tsKey_of key = Some (fmt_d now))).
Proof.
  intros out. split.
  - intros e ->. reflexivity.
  - intros ->. subst out. split; [|split; [|split; [|split]]].
    + unfold MemoryClient.IncrementCounter.
      destruct (negb _); [destruct ts_err|]; reflexivity.
    + intros Hrestart. rewrite IncrementCounter_written.
      assert (Hcur : match read_err, meta !! key with
                     | None, Some value => default 0 (Atoi value)
                     | _, _ => 0
                     end = 0).
      { destruct read_err as [e|]; [reflexivity|].
        destruct Hrestart as [H|[H|(value & H & Ha)]].
        - now destruct H.
        - now rewrite H.
        - rewrite H, Ha. reflexivity. }
      rewrite Hcur. vm_compute. reflexivity.
    + intros other Hk Hts. unfold MemoryClient.IncrementCounter.
      destruct (negb _); [destruct ts_err|]; simpl;
        rewrite ?lookup_insert_ne by congruence; reflexivity.
    + intros H1 H2. apply String.eqb_neq in H1, H2.
      unfold MemoryClient.IncrementCounter, tsKey_of. rewrite H1, H2. simpl.
      rewrite lookup_insert_eq. reflexivity.
    + intros -> Hts. apply String.eqb_neq in Hts.
      unfold MemoryClient.IncrementCounter. rewrite Hts. simpl.
      apply lookup_insert_eq.
Qed.

End Props.

End ClientExtras.

(** * The statistics *)

Module StatsExtras.
Import Tools Memory MemoryClient MemoryStats.

Lemma length_filter_partition {A} (p : A -> bool) (l : list A) :
  (length (List.filter p l) + length (List.filter (fun x => negb (p x)) l)
   = length l)%nat.
Proof.
  induction l as [|x l IH]; [reflexivity|].
  simpl. destruct (p x); simpl; lia.
Qed.

Lemma length_filter_le {A} (p : A -> bool) (l : list A) :
  (length (List.filter p l) <= length l)%nat.
Proof.
  induction l as [|x l IH]; [reflexivity|].
  simpl. destruct (p x); simpl; lia.
Qed.

Section Props.

Variable fmt_v : any -> string.
Variable backend_fails : string -> bool.
Variable ValidEdgeTables : string -> list string.
Variable edge_rows : string -> nat.
Variable db : Database.

Abbreviation GetStats :=
  (GetStats fmt_v backend_fails ValidEdgeTables edge_rows db).

Lemma count_into_ok (script : string) (count : nat) (dest : Z) :
  backend_fails script = false ->
  count_into backend_fails script count dest = Z.of_nat count.
Proof.
  intros H. unfold count_into. rewrite H. simpl.
  apply ReaderProps.f64_to_int_inject_Z.
Qed.

Lemma count_into_range (script : string) (count : nat) :
  (0 <= count_into backend_fails script count 0 <= Z.of_nat count)%Z.
Proof.
  unfold count_into. destruct (backend_fails script); [lia|].
  simpl. rewrite ReaderProps.f64_to_int_inject_Z. lia.
Qed.

Lemma count_into_reports (script : string) (count bound : nat) :
  (count <= bound)%nat ->
  let field := count_into backend_fails script count 0 in
  (backend_fails script = true -> field = 0%Z)
  /\ (backend_fails script = false -> field = Z.of_nat count)
  /\ (0 <= field <= Z.of_nat bound)%Z.
Proof.
  intros Hle field.
  pose proof (count_into_range script count) as Hrange. fold field in Hrange.
  split; [|split; [|lia]].
  - intros Hf. subst field. unfold count_into. now rewrite Hf.
  - intros Hf. subst field. now apply count_into_ok.
Qed.

Lemma count_rows_all {Row} (rel : gmap string Row) :
  count_rows rel (fun _ => true) = size rel.
Proof.
  unfold count_rows. rewrite <- length_map_to_list.
  induction (map_to_list rel) as [|[k r] l IH]; [reflexivity|].
  simpl. now rewrite IH.
Qed.

Lemma count_rows_le {Row} (rel : gmap string Row) (keep : Row -> bool) :
  (count_rows rel keep <= size rel)%nat.
Proof.
  unfold count_rows. rewrite <- length_map_to_list. apply length_filter_le.
Qed.

(** X26. The counts that [GetStats] reports are coherent when their
    queries succeed: the valid and the invalidated facts add up to the
    total of the facts, and the active decisions are at most the
    decisions.  Each of the eight node counts (all facts, valid facts,
    invalidated facts, all decisions, active decisions, entities,
    events, topics) is 0 when its query fails and the number of rows
    its script selects when the query succeeds, so it lies between 0
    and the size of its relation. *)
Theorem GetStats_counts_are_coherent (meta : gmap string string) :
  let stats := GetStats meta in
  (backend_fails "?[count(id)] := *mie_fact { id }" = false ->
   backend_fails "?[count(id)] := *mie_fact { id, valid }, valid = true"
   = false ->
   backend_fails "?[count(id)] := *mie_fact { id, valid }, valid = false"
   = false ->
   TotalFacts stats = (ValidFacts stats + InvalidatedFacts stats)%Z
   /\ TotalFacts stats = Z.of_nat (size (mie_fact db)))
  /\ (backend_fails "?[count(id)] := *mie_decision { id }" = false ->
      (ActiveDecisions stats <= TotalDecisions stats)%Z)
  /\ Forall
       (fun '(script, field, count, bound) =>
          (backend_fails script = true -> field = 0%Z)
          /\ (backend_fails script = false -> field = Z.of_nat count)
          /\ (0 <= field <= Z.of_nat bound)%Z)
       [("?[count(id)] := *mie_fact { id }",
         TotalFacts stats, size (mie_fact db), size (mie_fact db));
        ("?[count(id)] := *mie_fact { id, valid }, valid = true",
         ValidFacts stats, count_rows (mie_fact db) fr_valid,
         size (mie_fact db));
        ("?[count(id)] := *mie_fact { id, valid }, valid = false",
         InvalidatedFacts stats,
         count_rows (mie_fact db) (fun r => negb (fr_valid r)),
         size (mie_fact db));
        ("?[count(id)] := *mie_decision { id }",
         TotalDecisions stats, size (mie_decision db),
         size (mie_decision db));
        ("?[count(id)] := *mie_decision { id, status }, status = 'active'",
         ActiveDecisions stats,
         count_rows (mie_decision db)
           (fun r => String.eqb (dr_status r) "active"),
         size (mie_decision db));
        ("?[count(id)] := *mie_entity { id }",
         TotalEntities stats, size (mie_entity db), size (mie_entity db));
        ("?[count(id)] := *mie_event { id }",
         TotalEvents stats, size (mie_event db), size (mie_event db));
        ("?[count(id)] := *mie_topic { id }",
         TotalTopics stats, size (mie_topic db), size (mie_topic db))].
Proof.
  intros stats. subst stats. unfold MemoryStats.GetStats. simpl.
  split; [|split].
  - intros H1 H2 H3. rewrite !count_into_ok by assumption.
    rewrite count_rows_all. split; [|reflexivity].
    unfold count_rows. rewrite <- length_map_to_list.
    rewrite <- (length_filter_partition
                  (fun '(_, r) => fr_valid r) (map_to_list (mie_fact db))).
    rewrite Nat2Z.inj_add. f_equal. f_equal. f_equal.
    apply filter_ext. now intros [k r].
  - intros H1. rewrite (count_into_ok _ _ _ H1), count_rows_all.
    pose proof (count_into_range
                  "?[count(id)] := *mie_decision { id, status }, status = 'active'"
                  (count_rows (mie_decision db)
                     (fun r => String.eqb (dr_status r) "active"))).
    pose proof (count_rows_le (mie_decision db)
                  (fun r => String.eqb (dr_status r) "active")).
    lia.
  - repeat apply List.Forall_cons; try apply List.Forall_nil;
      try (rewrite <- count_rows_all at 1 2;
           apply count_into_reports; rewrite count_rows_all; lia);
      apply count_into_reports; apply count_rows_le.
Qed.

(** X27. The statistics read back what the counters wrote: after [n]
    successful increments of [total_stores], a counter that was absent
    is reported as [TotalStores = n], and the time of the last
    increment as [LastStoreAt], provided the reads of the two keys
    succeed. *)
Theorem GetStats_reads_back_the_counters
    (now : Z) (meta : gmap string string) (n : nat) :
  let meta' :=
    Nat.iter n
      (fun m => (IncrementCounter fmt_v None None None now
                   "total_stores" m).2) meta in
  meta !! "total_stores" = None ->
  (0 < n)%nat ->
  (Z.of_nat n <= max_int)%Z ->
  (min_int <= now <= max_int)%Z ->
  backend_fails
    "?[value] := *mie_meta { key, value }, key = 'total_stores'" = false ->
  backend_fails
    "?[value] := *mie_meta { key, value }, key = 'last_store_at'" = false ->
  TotalStores (GetStats meta') = Z.of_nat n
  /\ LastStoreAt (GetStats meta') = now.
Proof.
  intros meta' Habs Hpos Hmax Hnow Hr1 Hr2.
  unfold MemoryStats.GetStats, meta_value. simpl.
  change ("?[value] := *mie_meta { key, value }, key = '" +:+ "total_stores"
          +:+ "'")
    with "?[value] := *mie_meta { key, value }, key = 'total_stores'".
  change ("?[value] := *mie_meta { key, value }, key = '" +:+ "last_store_at"
          +:+ "'")
    with "?[value] := *mie_meta { key, value }, key = 'last_store_at'".
  rewrite Hr1, Hr2. split.
  - subst meta'.
    rewrite (ClientExtras.iter_IncrementCounter_from fmt_v now None
               "total_stores" meta 0 n)
      by (rewrite ?Habs; try reflexivity; unfold min_int; lia).
    rewrite ClientExtras.Atoi_fmt_d by (unfold min_int; lia). reflexivity.
  - subst meta'. destruct n as [|n]; [lia|].
    change (Nat.iter (Datatypes.S n) ?f meta) with (f (Nat.iter n f meta)).
    cbv beta.
    pose proof (ClientExtras.IncrementCounter_timestamp fmt_v now None
                  "total_stores"
                  (Nat.iter n
                     (fun m => (IncrementCounter fmt_v None None None now
                                  "total_stores" m).2) meta)) as Hts.
    change (tsKey_of "total_stores") with "last_store_at" in Hts.
    rewrite Hts by discriminate.
    unfold ParseInt64. rewrite ClientExtras.Atoi_fmt_d by exact Hnow.
    reflexivity.
Qed.

End Props.

End StatsExtras.

(** * Decisions and entities *)

Module TraversalExtras.
Import Tools Memory MemoryTraversals.

Section Props.

Variable fmt_v : any -> string.
Variable backend_err : string -> option string.
Variable db : Database.
Variable decisions : gmap string DecisionNodeRow.
Variable mie_decision_entity : gset (string * string * string).

Abbreviation GetDecisionEntities :=
  (GetDecisionEntities fmt_v backend_err db mie_decision_entity).
Abbreviation GetEntityDecisions :=
  (GetEntityDecisions fmt_v backend_err decisions mie_decision_entity).

Lemma parseNode_decision_cols (id : string) (r : DecisionNodeRow) :
  parseNode fmt_v "decision" (decision_node_cols id r)
  = Some (NDecision (decision_of id r)).
Proof.
  unfold parseNode, decision_node_cols, decision_of. simpl.
  unfold ANum. now rewrite !ReaderProps.f64_to_int_inject_Z.
Qed.

Lemma elem_of_GetDecisionEntities (decisionID : string)
    (entities : list QueryTool.EntityWithRole)
    (ent : QueryTool.EntityWithRole) :
  GetDecisionEntities decisionID = Ok entities ->
  (ent ∈ entities <->
   exists r,
     (decisionID, e_ID (QueryTool.ewr_Entity ent), QueryTool.ewr_Role ent)
       ∈ mie_decision_entity
     /\ mie_entity db !! e_ID (QueryTool.ewr_Entity ent) = Some r
     /\ QueryTool.ewr_Entity ent
        = entity_of (e_ID (QueryTool.ewr_Entity ent)) r).
Proof.
  unfold MemoryTraversals.GetDecisionEntities.
  destruct (backend_err "GetDecisionEntities"); [discriminate|].
  intros H. inversion H; subst entities; clear H.
  rewrite list_elem_of_fmap. split.
  - intros (row & -> & Hrow).
    apply list_elem_of_omap in Hrow as ([[d e] role] & Hin & Hf).
    apply elem_of_elements in Hin.
    destruct (String.eqb d decisionID) eqn:E; [|discriminate].
    apply String.eqb_eq in E. subst d.
    destruct (mie_entity db !! e) as [r|] eqn:Er; [|discriminate].
    simpl in Hf. inversion Hf; subst row; clear Hf.
    exists r. simpl. unfold ANum.
    rewrite !ReaderProps.f64_to_int_inject_Z.
    split; [exact Hin|]. split; [exact Er|reflexivity].
  - intros (r & Hin & Hr & Hent).
    exists (entity_node_cols (e_ID (QueryTool.ewr_Entity ent)) r
            ++ [AStr (QueryTool.ewr_Role ent)]).
    split.
    + destruct ent as [e role]. simpl in *. rewrite Hent. simpl.
      unfold ANum. now rewrite !ReaderProps.f64_to_int_inject_Z.
    + apply list_elem_of_omap.
      exists (decisionID, e_ID (QueryTool.ewr_Entity ent),
              QueryTool.ewr_Role ent).
      split; [now apply elem_of_elements|].
      rewrite String.eqb_refl, Hr. reflexivity.
Qed.

Lemma elem_of_GetEntityDecisions (entityID : string)
    (found : list Decision) (id : string) (r : DecisionNodeRow) :
  GetEntityDecisions entityID = Ok found ->
  decisions !! id = Some r ->
  (decision_of id r ∈ found <->
   exists role, (id, entityID, role) ∈ mie_decision_entity).
Proof.
  unfold MemoryTraversals.GetEntityDecisions.
  destruct (backend_err "GetEntityDecisions"); [discriminate|].
  intros H Hr. inversion H; subst found; clear H.
  rewrite list_elem_of_omap. split.
  - intros (row & Hrow & Hp).
    apply list_elem_of_omap in Hrow as ([id' r'] & Hin & Hf).
    destruct (existsb _ (elements mie_decision_entity)) eqn:Ex;
      [|discriminate].
    inversion Hf; subst row; clear Hf.
    rewrite parseNode_decision_cols in Hp. inversion Hp as [Heq].
    assert (id' = id) by (now inversion Heq). subst id'.
    apply existsb_exists in Ex as ([[d e] role] & Hel & Hb).
    apply andb_true_iff in Hb as [Hd He].
    apply String.eqb_eq in Hd, He. subst d e.
    exists role. apply elem_of_elements. now apply list_elem_of_In.
  - intros (role & Hin).
    exists (decision_node_cols id r). split.
    + apply list_elem_of_omap. exists (id, r).
      split; [now apply elem_of_map_to_list|].
      assert (Ex : existsb (fun '(decision_id, entity_id, _) =>
                              String.eqb decision_id id
                              && String.eqb entity_id entityID)
                           (elements mie_decision_entity) = true).
      { apply existsb_exists. exists (id, entityID, role). split.
        - apply list_elem_of_In. now apply elem_of_elements.
        - now rewrite !String.eqb_refl. }
      now rewrite Ex.
    + now rewrite parseNode_decision_cols.
Qed.

(** X28. The two traversals between decisions and entities agree: for
    a stored decision and a stored entity, the decision is among the
    decisions of the entity exactly when the entity is among the
    entities of the decision, under some role.  Every entity returned
    for a decision is a stored entity, complete, with the role of its
    edge; a decision tied to an entity under several roles is returned
    for each role by the first traversal and once by the second. *)
Theorem decision_entity_traversals_agree
    (decisionID entityID : string) (dr : DecisionNodeRow) (er : EntityRow)
    (entities : list QueryTool.EntityWithRole) (found : list Decision) :
  decisions !! decisionID = Some dr ->
  mie_entity db !! entityID = Some er ->
  GetDecisionEntities decisionID = Ok entities ->
  GetEntityDecisions entityID = Ok found ->
  (decision_of decisionID dr ∈ found <->
   exists role,
     {| QueryTool.ewr_Entity := entity_of entityID er;
        QueryTool.ewr_Role := role |} ∈ entities)
  /\ (forall ent, ent ∈ entities ->
        (decisionID, e_ID (QueryTool.ewr_Entity ent), QueryTool.ewr_Role ent)
          ∈ mie_decision_entity
        /\ exists r,
             mie_entity db !! e_ID (QueryTool.ewr_Entity ent) = Some r
             /\ QueryTool.ewr_Entity ent
                = entity_of (e_ID (QueryTool.ewr_Entity ent)) r)
  /\ NoDup (map d_ID found).
Proof.
  intros Hd He Hents Hfound. split; [|split].
  - rewrite (elem_of_GetEntityDecisions _ _ _ _ Hfound Hd). split.
    + intros (role & Hin). exists role.
      apply (elem_of_GetDecisionEntities _ _ _ Hents). simpl.
      exists er. auto.
    + intros (role & Hin). exists role.
      apply (elem_of_GetDecisionEntities _ _ _ Hents) in Hin
        as (r & Hin & _). exact Hin.
  - intros ent Hin.
    apply (elem_of_GetDecisionEntities _ _ _ Hents) in Hin
      as (r & Hin & Hr & Hent).
    split; [exact Hin|]. eauto.
  - unfold MemoryTraversals.GetEntityDecisions in Hfound.
    destruct (backend_err "GetEntityDecisions"); [discriminate|].
    inversion Hfound; subst found; clear Hfound.
    unfold entity_decisions_rows.
    pose proof (NoDup_fst_map_to_list decisions) as Hnd.
    induction (map_to_list decisions) as [|[id r] l IH];
      [constructor|].
    simpl in Hnd. apply NoDup_cons in Hnd as [Hnot Hnd].
    unfold omap in *. cbn [list_omap].
    destruct (existsb _ (elements mie_decision_entity)).
    + cbn [list_omap]. rewrite parseNode_decision_cols.
      cbn [map]. apply NoDup_cons. split; [|now apply IH].
      intros Hin. apply Hnot. simpl in Hin.
      apply list_elem_of_fmap in Hin as (dec & Hid & Hin).
      apply list_elem_of_omap in Hin as (row & Hrow & Hp).
      apply list_elem_of_omap in Hrow as ([id' r'] & Hin' & Hf).
      destruct (existsb _ (elements mie_decision_entity)); [|discriminate].
      inversion Hf; subst row. rewrite parseNode_decision_cols in Hp.
      inversion Hp; subst dec. simpl in Hid. subst id'.
      apply list_elem_of_fmap. exists (id, r'). split; [reflexivity|exact Hin'].
    + now apply IH.
Qed.

End Props.

End TraversalExtras.

(** * The query tool *)

Module QueryExtras.
Import Tools MemoryReader QueryTool.

Lemma appends_ret {S A} (P : Call -> Prop) (a : A) :
  @appends S A P (ret a).
Proof.
  intros s log. exists []. rewrite app_nil_r. split; [reflexivity|constructor].
Qed.

Lemma appends_bind {S A B} (P : Call -> Prop) (m : M (S * list Call) A)
    (k : A -> M (S * list Call) B) :
  appends P m -> (forall a, appends P (k a)) -> appends P (bind m k).
Proof.
  intros Hm Hk s log. unfold bind.
  destruct (Hm s log) as (c1 & E1 & F1).
  destruct (m (s, log)) as [a [s1 log1]]. simpl in E1. subst log1.
  destruct (Hk a s1 (log ++ c1)) as (c2 & E2 & F2).
  exists (c1 ++ c2). rewrite app_assoc. split; [exact E2|].
  now apply Forall_app.
Qed.

Lemma appends_logged {S A} (P : Call -> Prop) (call : Call) (m : M S A) :
  P call -> appends P (logged call m).
Proof.
  intros Hc s log. exists [call]. unfold logged.
  destruct (m s) as [a s']. split; [reflexivity|]. now repeat constructor.
Qed.

Section Props.

Variable GetStringArg : gmap string any -> string -> string -> string.
Variable GetStringSliceArg :
  gmap string any -> string -> list string -> list string.
Variable GetIntArg : gmap string any -> string -> Z -> Z.
Variable Truncate : string -> Z -> string.
Variable SimilarityPercent : Q -> Z.
Variable SimilarityIndicator : Q -> string.
Variable fmt_q : string -> string.
Variable fmt_f1 : Q -> string.

Abbreviation querySemanticMode :=
  (querySemanticMode Truncate SimilarityPercent SimilarityIndicator fmt_q).
Abbreviation queryExactMode := (queryExactMode Truncate fmt_q).
Abbreviation traverseRelatedEntities :=
  (traverseRelatedEntities Truncate fmt_q).
Abbreviation traverseRelatedFacts :=
  (traverseRelatedFacts Truncate fmt_q fmt_f1).
Abbreviation traverseInvalidationChain :=
  (traverseInvalidationChain Truncate fmt_q).
Abbreviation traverseDecisionEntities := (traverseDecisionEntities fmt_q).
Abbreviation traverseEntityDecisions :=
  (traverseEntityDecisions Truncate fmt_q).
Abbreviation queryGraphMode :=
  (queryGraphMode GetStringArg Truncate fmt_q fmt_f1).
Abbreviation Query :=
  (Query GetStringArg GetStringSliceArg GetIntArg Truncate SimilarityPercent
         SimilarityIndicator fmt_q fmt_f1).

(** The arguments [Query] reads. *)
Abbreviation arg_query args := (GetStringArg args "query" "").
Abbreviation arg_mode args := (GetStringArg args "mode" "semantic").
Abbreviation arg_nodeTypes args :=
  (GetStringSliceArg args "node_types"
     ["fact"; "decision"; "entity"; "event"]).
Abbreviation arg_limit args := (GetIntArg args "limit" 10).
Abbreviation arg_node_id args := (GetStringArg args "node_id" "").
Abbreviation arg_traversal args := (GetStringArg args "traversal" "").

Ltac appends_step :=
  first
    [ apply appends_ret
    | apply appends_logged; simpl; auto
    | apply appends_bind; [|intros; cbv beta]
    | match goal with
      | |- appends _ (if ?b then _ else _) => destruct b
      | |- appends _ (match ?x with _ => _ end) => destruct x
      end ].

Ltac pick_mode :=
  change (String.eqb "semantic" "semantic") with true;
  change (String.eqb "graph" "semantic") with false;
  change (String.eqb "graph" "exact") with false;
  change (String.eqb "graph" "graph") with true;
  cbv iota.

Lemma querySemanticMode_appends {S} (client : Querier S) (query : string)
    (nodeTypes : list string) (limit : Z) :
  appends (handler_call query nodeTypes limit)
    (querySemanticMode (recording client) query nodeTypes limit).
Proof. unfold QueryTool.querySemanticMode. repeat appends_step. Qed.

Lemma queryExactMode_appends {S} (client : Querier S) (query : string)
    (nodeTypes : list string) (limit : Z) :
  appends (handler_call query nodeTypes limit)
    (queryExactMode (recording client) query nodeTypes limit).
Proof. unfold QueryTool.queryExactMode. repeat appends_step. Qed.

(** In graph mode with both arguments present, the log grows by the
    call of the traversal, if the traversal is known. *)
Lemma queryGraphMode_calls {S} (client : Querier S) (args : gmap string any)
    (s : S) (log : list Call) :
  arg_node_id args <> "" -> arg_traversal args <> "" ->
  exists r s',
    queryGraphMode (recording client) args (s, log)
    = (r, (s', log ++ match traversal_call (arg_traversal args)
                              (arg_node_id args) with
                      | Some call => [call]
                      | None => []
                      end))
    /\ (traversal_call (arg_traversal args) (arg_node_id args) = None ->
        IsError r = true /\ s' = s).
Proof.
  intros Hid Htr. apply String.eqb_neq in Hid, Htr.
  unfold QueryTool.queryGraphMode, traversal_call. rewrite Hid, Htr.
  destruct (String.eqb (arg_traversal args) "related_entities").
  { unfold QueryTool.traverseRelatedEntities, bind, recording, logged; simpl.
    destruct (GetRelatedEntities client _ s) as [[l|e] s'];
      [destruct (Z.of_nat (length l) =? 0)%Z|];
      eexists _, _; (split; [reflexivity|discriminate]). }
  destruct (String.eqb (arg_traversal args) "related_facts"
            || String.eqb (arg_traversal args) "facts_about_entity").
  { unfold QueryTool.traverseRelatedFacts, bind, recording, logged; simpl.
    destruct (GetFactsAboutEntity client _ s) as [[l|e] s'];
      [destruct (Z.of_nat (length l) =? 0)%Z|];
      eexists _, _; (split; [reflexivity|discriminate]). }
  destruct (String.eqb (arg_traversal args) "invalidation_chain").
  { unfold QueryTool.traverseInvalidationChain, bind, recording, logged; simpl.
    destruct (GetInvalidationChain client _ s) as [[l|e] s'];
      [destruct (Z.of_nat (length l) =? 0)%Z|];
      eexists _, _; (split; [reflexivity|discriminate]). }
  destruct (String.eqb (arg_traversal args) "decision_entities").
  { unfold QueryTool.traverseDecisionEntities, bind, recording, logged; simpl.
    destruct (GetDecisionEntities client _ s) as [[l|e] s'];
      [destruct (Z.of_nat (length l) =? 0)%Z|];
      eexists _, _; (split; [reflexivity|discriminate]). }
  destruct (String.eqb (arg_traversal args) "entity_decisions").
  { unfold QueryTool.traverseEntityDecisions, bind, recording, logged; simpl.
    destruct (GetEntityDecisions client _ s) as [[l|e] s'];
      [destruct (Z.of_nat (length l) =? 0)%Z|];
      eexists _, _; (split; [reflexivity|discriminate]). }
  eexists _, _. rewrite app_nil_r. split; [reflexivity|].
  intros _. split; reflexivity.
Qed.

Lemma queryGraphMode_appends {S} (client : Querier S)
    (args : gmap string any) (query : string) (nodeTypes : list string)
    (limit : Z) :
  appends (handler_call query nodeTypes limit)
    (queryGraphMode (recording client) args).
Proof.
  unfold QueryTool.queryGraphMode.
  destruct (String.eqb (arg_node_id args) ""); [apply appends_ret|].
  destruct (String.eqb (arg_traversal args) ""); [apply appends_ret|].
  cbv zeta.
  unfold QueryTool.traverseRelatedEntities, QueryTool.traverseRelatedFacts,
    QueryTool.traverseInvalidationChain, QueryTool.traverseDecisionEntities,
    QueryTool.traverseEntityDecisions.
  repeat appends_step.
Qed.

(** The counting wrapper of [Query]: one increment of [total_queries]
    after the handler, exactly when its result is not an error. *)
Lemma counted_calls {S} (client : Querier S) (P : Call -> Prop)
    (handler : M (S * list Call) ToolResult) (s : S) (log : list Call) :
  appends P handler ->
  exists s' calls,
    bind handler
      (fun result =>
         if negb (IsError result) then
           bind (IncrementCounter (recording client) "total_queries")
                (fun _ => ret result)
         else ret result) (s, log)
    = ((handler (s, log)).1,
       (s', log ++ calls
              ++ (if IsError (handler (s, log)).1 then []
                  else [CIncrementCounter "total_queries"])))
    /\ Forall P calls.
Proof.
  intros Hh. destruct (Hh s log) as (calls & Hlog & HP).
  unfold bind. destruct (handler (s, log)) as [r [s1 log1]].
  simpl in *. subst log1. destruct (IsError r); simpl.
  - exists s1, calls. rewrite app_nil_r. split; [reflexivity|exact HP].
  - unfold logged. destruct (IncrementCounter client "total_queries" s1)
      as [e s2].
    exists s2, calls. rewrite app_assoc. split; [reflexivity|exact HP].
Qed.

Lemma clamp_limit_range (limit : Z) : (1 <= clamp_limit limit <= 50)%Z.
Proof.
  unfold clamp_limit. destruct (limit <? 1)%Z eqn:E1.
  - simpl. lia.
  - apply Z.ltb_ge in E1. destruct (50 <? limit)%Z eqn:E2; [lia|].
    apply Z.ltb_ge in E2. lia.
Qed.

(** The shape of every run of [Query] on a recording client. *)
Lemma Query_run {S} (client : Querier S) (args : gmap string any)
    (s : S) (log : list Call) :
  exists r s' calls,
    Query (recording client) args (s, log)
    = (r, (s', log ++ calls
                 ++ (if IsError r then []
                     else [CIncrementCounter "total_queries"])))
    /\ Forall (handler_call (arg_query args) (arg_nodeTypes args)
                 (clamp_limit (arg_limit args))) calls.
Proof.
  unfold QueryTool.Query. fold (clamp_limit (arg_limit args)).
  assert (Hret : forall text,
            exists r s' calls,
              @ret (S * list Call) _ (NewError text) (s, log)
              = (r, (s', log ++ calls
                           ++ (if IsError r then []
                               else [CIncrementCounter "total_queries"])))
              /\ Forall (handler_call (arg_query args) (arg_nodeTypes args)
                           (clamp_limit (arg_limit args))) calls).
  { intros text. exists (NewError text), s, []. simpl.
    rewrite app_nil_r. split; [reflexivity|constructor]. }
  destruct (String.eqb (arg_query args) ""); [apply Hret|].
  destruct (String.eqb (arg_mode args) "semantic").
  { destruct (counted_calls client _ _ s log
                (querySemanticMode_appends client (arg_query args)
                   (arg_nodeTypes args) (clamp_limit (arg_limit args))))
      as (s' & calls & Hrun & HP).
    eexists _, s', calls. split; [exact Hrun|exact HP]. }
  destruct (String.eqb (arg_mode args) "exact").
  { destruct (counted_calls client _ _ s log
                (queryExactMode_appends client (arg_query args)
                   (arg_nodeTypes args) (clamp_limit (arg_limit args))))
      as (s' & calls & Hrun & HP).
    eexists _, s', calls. split; [exact Hrun|exact HP]. }
  destruct (String.eqb (arg_mode args) "graph"); [|apply Hret].
  destruct (counted_calls client _ _ s log
              (queryGraphMode_appends client args (arg_query args)
                 (arg_nodeTypes args) (clamp_limit (arg_limit args))))
    as (s' & calls & Hrun & HP).
  eexists _, s', calls. split; [exact Hrun|exact HP].
Qed.

Lemma handler_call_no_increment (query : string) (nodeTypes : list string)
    (limit : Z) (call : Call) :
  handler_call query nodeTypes limit call -> is_increment call = false.
Proof. destruct call; simpl; auto. contradiction. Qed.

(** X21. The query tool counts successful queries only: it increments
    [total_queries] once, as its last call, when its result is not an
    error, and never when the result is an error; whether the increment
    itself succeeds does not matter. *)
Theorem Query_counts_successful_queries
    {S} (client : Querier S) (args : gmap string any) (s : S)
    (log : list Call) :
  exists r s' calls,
    Query (recording client) args (s, log)
    = (r, (s', log ++ calls
                 ++ (if IsError r then []
                     else [CIncrementCounter "total_queries"])))
    /\ Forall (fun call => is_increment call = false) calls.
Proof.
  destruct (Query_run client args s log) as (r & s' & calls & Hrun & HP).
  exists r, s', calls. split; [exact Hrun|].
  eapply Forall_impl; [exact HP|].
  intros call. apply handler_call_no_increment.
Qed.

(** X22. Whatever limit is requested, a search that the query tool
    sends to the client carries a limit between 1 and 50: the requested
    limit (10 by default) raised to 1 and lowered to 50; it carries the
    query and the requested variants unchanged. *)
Theorem Query_search_limit_clamped
    {S} (client : Querier S) (args : gmap string any) (s : S)
    (log : list Call) :
  exists calls,
    (Query (recording client) args (s, log)).2.2 = log ++ calls
    /\ forall q nts l,
         CSemanticSearch q nts l ∈ calls \/ CExactSearch q nts l ∈ calls ->
         (1 <= l <= 50)%Z
         /\ l = Z.min 50 (Z.max 1 (arg_limit args))
         /\ q = arg_query args /\ nts = arg_nodeTypes args.
Proof.
  destruct (Query_run client args s log) as (r & s' & calls & Hrun & HP).
  eexists. rewrite Hrun. split; [reflexivity|].
  assert (Hclamp : clamp_limit (arg_limit args)
                   = Z.min 50 (Z.max 1 (arg_limit args))).
  { unfold clamp_limit. destruct (arg_limit args <? 1)%Z eqn:E1.
    - apply Z.ltb_lt in E1. simpl. lia.
    - apply Z.ltb_ge in E1. destruct (50 <? arg_limit args)%Z eqn:E2.
      + apply Z.ltb_lt in E2. lia.
      + apply Z.ltb_ge in E2. lia. }
  intros q nts l Hin.
  assert (Hcall : handler_call (arg_query args) (arg_nodeTypes args)
                    (clamp_limit (arg_limit args)) (CSemanticSearch q nts l)).
  { rewrite Forall_forall in HP.
    destruct Hin as [Hin|Hin]; apply elem_of_app in Hin as [Hin|Hin].
    - exact (HP _ Hin).
    - destruct (IsError r); [now apply elem_of_nil in Hin|].
      apply elem_of_cons in Hin as [Hin|Hin]; [discriminate|].
      now apply elem_of_nil in Hin.
    - exact (HP _ Hin).
    - destruct (IsError r); [now apply elem_of_nil in Hin|].
      apply elem_of_cons in Hin as [Hin|Hin]; [discriminate|].
      now apply elem_of_nil in Hin. }
  destruct Hcall as (-> & -> & ->).
  split; [apply clamp_limit_range|]. split; [exact Hclamp|]. split; reflexivity.
Qed.

(** X23. A request is rejected before any client call, and is
    not counted, when the [query] argument is empty (also in graph
    mode, which does not use it), when the mode is not one of
    semantic, exact and graph, and in graph mode when [node_id] or
    [traversal] is empty or the traversal is unknown. *)
Theorem Query_rejects_before_any_call
    {S} (client : Querier S) (args : gmap string any) (s : S)
    (log : list Call) :
  arg_query args = ""
  \/ arg_mode args ∉ modes
  \/ (arg_mode args = "graph"
      /\ (arg_node_id args = "" \/ arg_traversal args = ""
          \/ traversal_call (arg_traversal args) (arg_node_id args) = None)) ->
  exists r,
    Query (recording client) args (s, log) = (r, (s, log))
    /\ IsError r = true.
Proof.
  intros H. unfold QueryTool.Query.
  destruct (String.eqb (arg_query args) "") eqn:Eq.
  { eexists. split; reflexivity. }
  destruct H as [H|[H|(Hm & H)]].
  - apply String.eqb_neq in Eq. contradiction.
  - destruct (String.eqb (arg_mode args) "semantic") eqn:E1.
    { apply String.eqb_eq in E1. destruct H. rewrite E1.
      apply (bool_decide_unpack _). vm_compute. reflexivity. }
    destruct (String.eqb (arg_mode args) "exact") eqn:E2.
    { apply String.eqb_eq in E2. destruct H. rewrite E2.
      apply (bool_decide_unpack _). vm_compute. reflexivity. }
    destruct (String.eqb (arg_mode args) "graph") eqn:E3.
    { apply String.eqb_eq in E3. destruct H. rewrite E3.
      apply (bool_decide_unpack _). vm_compute. reflexivity. }
    eexists. split; reflexivity.
  - rewrite Hm. pick_mode.
    destruct (String.eqb (arg_node_id args) "") eqn:Eid.
    { unfold QueryTool.queryGraphMode. rewrite Eid.
      eexists. split; reflexivity. }
    destruct (String.eqb (arg_traversal args) "") eqn:Etr.
    { unfold QueryTool.queryGraphMode. rewrite Eid, Etr.
      eexists. split; reflexivity. }
    apply String.eqb_neq in Eid, Etr.
    destruct H as [H|[H|H]]; [contradiction|contradiction|].
    destruct (queryGraphMode_calls client args s log Eid Etr)
      as (r & s' & Hrun & Hnone).
    rewrite H in Hrun. destruct (Hnone H) as [Herr ->].
    rewrite app_nil_r in Hrun. unfold bind. rewrite Hrun, Herr. simpl.
    eexists. split; [reflexivity|exact Herr].
Qed.

(** X24. In semantic mode the tool asks the client whether embeddings
    are enabled before anything else; when they are not it returns an
    error that points to exact mode, without calling the search and
    without counting the query. *)
Theorem Query_semantic_requires_embeddings
    {S} (client : Querier S) (args : gmap string any) (s : S)
    (log : list Call) :
  arg_query args <> "" ->
  arg_mode args = "semantic" ->
  (EmbeddingsEnabled client s).1 = false ->
  Query (recording client) args (s, log)
  = (NewError "Semantic search requires embeddings to be enabled. Enable in config or use mode=exact.",
     ((EmbeddingsEnabled client s).2, log ++ [CEmbeddingsEnabled])).
Proof.
  intros Hq Hm Hoff. apply String.eqb_neq in Hq.
  unfold QueryTool.Query. rewrite Hq, Hm. pick_mode.
  unfold QueryTool.querySemanticMode, bind, recording, logged; simpl.
  destruct (EmbeddingsEnabled client s) as [b s1]. simpl in Hoff. subst b.
  reflexivity.
Qed.

(** X25. In graph mode a known traversal is served by exactly one
    client call on the given node, followed by the counter increment
    when the call did not fail; a failing call gives an error result.
    The traversals [related_facts] and [facts_about_entity] are the
    same: both call [GetFactsAboutEntity]. *)
Theorem Query_graph_traversal_is_one_call
    {S} (client : Querier S) (args : gmap string any) (s : S)
    (log : list Call) (call : Call) :
  arg_query args <> "" ->
  arg_mode args = "graph" ->
  arg_node_id args <> "" ->
  traversal_call (arg_traversal args) (arg_node_id args) = Some call ->
  (exists r s',
     Query (recording client) args (s, log)
     = (r, (s', log ++ [call]
                  ++ (if IsError r then []
                      else [CIncrementCounter "total_queries"]))))
  /\ (arg_traversal args = "related_facts"
      \/ arg_traversal args = "facts_about_entity" ->
      call = CGetFactsAboutEntity (arg_node_id args)).
Proof.
  intros Hq Hm Hid Hcall. split.
  - assert (Htr : arg_traversal args <> "").
    { intros H. rewrite H in Hcall. discriminate. }
    destruct (queryGraphMode_calls client args s log Hid Htr)
      as (r & s1 & Hrun & _).
    rewrite Hcall in Hrun. apply String.eqb_neq in Hq.
    unfold QueryTool.Query. rewrite Hq, Hm. pick_mode.
    unfold bind at 1. rewrite Hrun. destruct (IsError r) eqn:Er; simpl.
    + exists r, s1. rewrite Er. reflexivity.
    + unfold bind, logged.
      destruct (IncrementCounter client "total_queries" s1) as [e s2].
      exists r, s2. rewrite Er, <- app_assoc. reflexivity.
  - intros [H|H]; rewrite H in Hcall; simpl in Hcall;
      now inversion Hcall.
Qed.

End Props.

End QueryExtras.

(** * The repository's tests, replayed on the embedding *)

Module GoTests.
Import Tools Fixtures.

(** [TestStore_FactDefaultCategory]: the captured request has category
    [general], confidence 0.8 and source agent [unknown]; the counter is
    incremented once. *)
Example TestStore_FactDefaultCategory :
  (run_Store (recording MockQuerier) args_default_fact (tt, [])).2.2
  = [CStoreFact {| sfr_Content := "Some fact"; sfr_Category := "general";
                   sfr_Confidence := 0.8%Q; sfr_SourceAgent := "unknown";
                   sfr_SourceConversation := "" |};
     CIncrementCounter "total_stores"].
Proof. vm_compute. reflexivity. Qed.

(** [TestBulkStore_CrossBatchReferences]: one relationship call, whose
    [entity_id] is the identifier assigned to item 0. *)
Example TestBulkStore_CrossBatchReferences :
  (run_BulkStore (recording MockQuerier) batch_S4 (tt, [])).2.2
  = [CStoreEntity {| ser_Name := "Kraklabs"; ser_Kind := "company";
                     ser_Description := ""; ser_SourceAgent := "unknown" |};
     CStoreFact {| sfr_Content := "User works at Kraklabs";
                   sfr_Category := "general"; sfr_Confidence := 0.8%Q;
                   sfr_SourceAgent := "unknown";
                   sfr_SourceConversation := "" |};
     CAddRelationship "mie_fact_entity"
       (list_to_map [("fact_id", "fact:mock0001");
                     ("entity_id", "ent:mock0001")]);
     CIncrementCounter "total_stores";
     CIncrementCounter "total_stores"].
Proof. vm_compute. reflexivity. Qed.

(** [TestBulkStore_PartialFailure]: no error result, two items stored,
    one error reported. *)
Example TestBulkStore_PartialFailure :
  run_BulkStore (MockQuerier_StoreFactFails "storage error") batch_partial tt
  = (NewResult
       ("Stored 2 items: 1 entitys, 1 topics" +:+ nl +:+
        nl +:+ "IDs:" +:+ nl +:+
        "  [0] entity [ent:mock0001]" +:+ nl +:+
        "  [2] topic [top:mock0001]" +:+ nl +:+
        nl +:+ "Errors (1):" +:+ nl +:+
        "  - item[1] (fact): storage error" +:+ nl),
     tt).
Proof. vm_compute. reflexivity. Qed.

End GoTests.

(** * The properties on the test inputs *)

Module Witnesses.
Import Tools Memory Fixtures.

Abbreviation with_test_readers f :=
  (f test_GetStringArg test_GetFloat64Arg test_Truncate test_ToLower
     test_fmt_q test_fmt_f1).


(** An unknown category and a confidence of 1.5 reach the client as
    [general] and 0.8. *)
Lemma storeFact_coerces_category_and_confidence_witness :
  exists req,
    storeFact test_GetStringArg test_GetFloat64Arg MockQuerier args_coerced
      "unknown" "" tt = StoreFact MockQuerier req tt
    /\ sfr_Category req = "general"
    /\ sfr_Confidence req = 0.8%Q.
Proof.
  destruct (with_test_readers
              ToolsProps.storeFact_coerces_category_and_confidence
              MockQuerier args_coerced "unknown" "" tt)
    as (req & H1 & _ & _ & Hcat & _ & Hconf & _).
  - vm_compute. discriminate.
  - exists req. split; [exact H1|]. split.
    + apply Hcat. apply (bool_decide_unpack _). vm_compute. reflexivity.
    + apply Hconf. intros [_ H]. vm_compute in H. now apply H.
Defined.

(** [TestStore_EntityInvalidKind]: an error, and no call is logged. *)
Lemma store_entity_rejects_unknown_kind_witness :
  exists r,
    run_Store (recording MockQuerier) args_bad_kind (tt, []) = (r, (tt, []))
    /\ IsError r = true.
Proof.
  destruct (with_test_readers ToolsProps.store_entity_rejects_unknown_kind
              MockQuerier args_bad_kind "unknown" tt [])
    as (_ & _ & H).
  - apply (bool_decide_unpack _). vm_compute. reflexivity.
  - apply H. reflexivity.
Defined.

(** [TestBulkStore_EmptyItems]: an error, and no call is logged. *)
Lemma BulkStore_rejects_empty_or_oversized_witness :
  exists r,
    run_BulkStore (recording MockQuerier) batch_empty (tt, [])
      = (r, (tt, []))
    /\ IsError r = true.
Proof.
  destruct (with_test_readers ToolsProps.BulkStore_rejects_empty_or_oversized
              MockQuerier batch_empty [] tt [])
    as (_ & H).
  - reflexivity.
  - left. reflexivity.
  - exact H.
Defined.

(** A store whose [InvalidateFact] fails: the fact has been stored, the
    result is an error, and the log holds the store and the failed
    invalidation only. *)
Lemma Store_invalidation_failure_keeps_node_witness :
  exists r,
    run_Store (recording (MockQuerier_InvalidateFails "boom"))
      args_invalidates (tt, [])
    = (r, (tt, [CStoreFact
                  {| sfr_Content := "User moved to NYC";
                     sfr_Category := "personal";
                     sfr_Confidence := 0.8%Q;
                     sfr_SourceAgent := "unknown";
                     sfr_SourceConversation := "" |};
                CInvalidateFact "fact:old123" "fact:mock0001"
                  "Replaced by fact:mock0001"]))
    /\ IsError r = true.
Proof.
  edestruct (with_test_readers ToolsProps.Store_invalidation_failure_keeps_node
               (MockQuerier_InvalidateFails "boom") args_invalidates
               tt tt [])
    as (r & s2 & call & tail & Hrun & Herr & _ & Hlog & _ & Htail & _).
  - vm_compute. discriminate.
  - vm_compute. reflexivity.
  - vm_compute. discriminate.
  - vm_compute. discriminate.
  - right. eexists. vm_compute. reflexivity.
  - destruct (Htail eq_refl) as [-> _].
    assert (call = CStoreFact
                     {| sfr_Content := "User moved to NYC";
                        sfr_Category := "personal";
                        sfr_Confidence := 0.8%Q;
                        sfr_SourceAgent := "unknown";
                        sfr_SourceConversation := "" |}) as ->
      by (now inversion Hlog).
    destruct s2. exists r. split; [exact Hrun|exact Herr].
Defined.

(** A semantic and an exact search over the small graph: the
    invalidated fact A is indexed and matches, and yet every fact
    returned is valid. *)
Lemma search_returns_only_valid_facts_witness :
  exists results,
    run_ExactSearch "Water" [] 5 = Ok results
    /\ (forall sr, sr ∈ results -> sr_NodeType sr = "fact" ->
          exists r, mie_fact test_db !! sr_ID sr = Some r
                    /\ fr_valid r = true)
    /\ (forall sr, sr ∈ results -> sr_NodeType sr = "fact" ->
                   sr_ID sr <> "fact:A").
Proof.
  eexists. split; [vm_compute; reflexivity|].
  edestruct (ReaderProps.search_returns_only_valid_facts unit test_embedder
               test_hnsw (fun _ => false) test_fmt_v test_db "Water" [] 5)
    as (H1 & H2).
  - right. vm_compute. reflexivity.
  - split; [exact H1|]. apply (H2 "fact:A" fact_A); reflexivity.
Defined.


Lemma fact_entity_traversal_symmetry_witness :
  exists entities facts,
    GetRelatedEntities (fun _ => None) test_fmt_v test_db "fact:B"
    = Ok entities
    /\ GetFactsAboutEntity (fun _ => None) test_fmt_v test_db "ent:W"
       = Ok facts
    /\ (entity_of "ent:W" entity_W ∈ entities
        <-> fact_of "fact:B" fact_B ∈ facts)
    /\ entity_of "ent:W" entity_W ∈ entities.
Proof.
  destruct (ReaderProps.fact_entity_traversal_symmetry (fun _ => None)
              test_fmt_v test_db "fact:B" "ent:W" fact_B entity_W)
    as (Hsym & Hents & Hfacts & _).
  - vm_compute. reflexivity.
  - vm_compute. reflexivity.
  - destruct (Hents eq_refl) as (entities & He).
    destruct (Hfacts eq_refl) as (facts & Hf).
    destruct (Hsym entities facts He Hf) as (Hiff & Hedge).
    exists entities, facts. split; [exact He|]. split; [exact Hf|].
    split; [exact Hiff|].
    apply Hedge. apply (bool_decide_unpack _). vm_compute. reflexivity.
Defined.

(** The invalidated fact A is returned by the traversal from the
    entity. *)
Lemma related_facts_include_invalidated_witness :
  exists facts,
    GetRelatedFacts (fun _ => None) test_fmt_v test_db "ent:W" = Ok facts
    /\ fact_of "fact:A" fact_A ∈ facts
    /\ f_Valid (fact_of "fact:A" fact_A) = false.
Proof.
  destruct (ReaderProps.related_facts_include_invalidated unit test_embedder
              test_hnsw (fun _ => false) (fun _ => None) test_fmt_v test_db
              "ent:W")
    as (_ & _ & H).
  destruct (H eq_refl) as (facts & Hrun & _ & _ & Hinv).
  destruct (Hinv "fact:A" fact_A) as (H1 & H2 & _).
  - apply (bool_decide_unpack _). vm_compute. reflexivity.
  - vm_compute. reflexivity.
  - reflexivity.
  - exists facts. split; [exact Hrun|]. split; [exact H1|exact H2].
Defined.

(** A list call that leaves sort field and limit unspecified. *)
Lemma ListNodes_order_and_limit_witness :
  list_sortBy opts_default = "created_at"
  /\ list_limit opts_default = 20%Z
  /\ exists head dir,
       (dir = "" \/ dir = "-")
       /\ list_script test_escapeDatalog opts_default "mie_fact"
          = head +:+ " :order " +:+ dir +:+ "created_at"
            +:+ " :limit " +:+ "20" +:+ " :offset " +:+ "0".
Proof.
  destruct (ReaderProps.ListNodes_order_and_limit test_backend_Query
              test_fmt_v test_nodeTypeToTable test_escapeDatalog
              (fun s => s) opts_default)
    as (H1 & _ & H3 & _ & H5).
  split; [apply H1; reflexivity|].
  split; [apply H3; vm_compute; discriminate|].
  destruct (H5 "mie_fact") as (Hscript & _ & _).
  - reflexivity.
  - discriminate.
  - exact Hscript.
Defined.

(** A list call whose sort field is no column of the fact relation and
    whose limit is 500: [ListNodes] orders by that field and asks for 500
    rows; it neither falls back to [created_at] nor caps the limit at
    100. *)
Lemma ListNodes_unknown_sort_by_and_large_limit_kept :
  ("bogus" ∉ ["id"; "content"; "category"; "confidence"; "source_agent";
              "source_conversation"; "valid"; "created_at"; "updated_at"])
  /\ list_script test_escapeDatalog opts_bogus "mie_fact"
     = "?[id, content, category, confidence, source_agent, source_conversation, valid, created_at, updated_at] := *mie_fact { id, content, category, confidence, source_agent, source_conversation, valid, created_at, updated_at } :order -bogus :limit 500 :offset 0"
  /\ list_sortBy opts_bogus = "bogus"
  /\ list_sortBy opts_bogus <> "created_at"
  /\ list_limit opts_bogus = 500%Z
  /\ ~ (list_limit opts_bogus <= 100)%Z.
Proof.
  split; [apply (bool_decide_unpack _); vm_compute; reflexivity|].
  split; [vm_compute; reflexivity|].
  split; [reflexivity|].
  split; [discriminate|].
  split; [reflexivity|].
  vm_compute. intros H. now apply H.
Qed.

(** With an edge whose fact identifier names no stored fact, the
    traversal from that identifier reaches the entity while the
    traversal from the entity returns nothing: the symmetry of the two
    traversals is a property of stored facts and entities. *)
Lemma dangling_edge_is_one_way :
  GetRelatedEntities (fun _ => None) test_fmt_v test_db_dangling "fact:ghost"
    = Ok [entity_of "ent:W" entity_W]
  /\ GetFactsAboutEntity (fun _ => None) test_fmt_v test_db_dangling "ent:W"
     = Ok [].
Proof. split; vm_compute; reflexivity. Qed.

End Witnesses.

(** * Instances of the further properties *)

Module MoreWitnesses.
Import Tools Memory Fixtures MoreFixtures ToolsCalls.

Abbreviation with_test_readers f :=
  (f test_GetStringArg test_GetFloat64Arg test_Truncate test_ToLower
     test_fmt_q test_fmt_f1).

(** [TestStore_MissingType]: an error, and no call is logged. *)
Lemma Store_rejects_missing_or_unknown_type_witness :
  exists r,
    run_Store (recording MockQuerier) args_no_type (tt, []) = (r, (tt, []))
    /\ IsError r = true.
Proof.
  destruct (with_test_readers ToolsExtras.Store_rejects_missing_or_unknown_type
              MockQuerier args_no_type tt []) as (_ & H).
  - apply (bool_decide_unpack _). vm_compute. reflexivity.
  - exact H.
Defined.

(** [TestStore_FactMissingContent]. *)
Lemma Store_requires_fields_witness :
  run_Store (recording MockQuerier) args_fact_no_content (tt, [])
  = (NewError "Failed to store fact: content is required for fact type",
     (tt, [])).
Proof.
  destruct (with_test_readers ToolsExtras.Store_requires_fields
              MockQuerier args_fact_no_content "content" tt []) as (_ & H).
  - vm_compute. reflexivity.
  - exact H.
Defined.

(** Of three elements, one gives a call; a value that is no array
    gives none. *)
Lemma storeRelationships_calls_witness :
  (exists text s' call,
     storeRelationships test_GetStringArg (recording MockQuerier) "fact:1"
       (AArr rels_mixed) (tt, []) = (text, (s', [call]))
     /\ is_add_relationship call = true)
  /\ storeRelationships test_GetStringArg (recording MockQuerier) "fact:1"
       (AStr "nope") (tt, []) = ("", (tt, [])).
Proof.
  destruct (ToolsExtras.storeRelationships_calls test_GetStringArg
              MockQuerier "fact:1" rels_mixed (AStr "nope") tt [])
    as ((text & s' & Hrun) & _ & _ & Hother).
  split.
  - exists text, s'. eexists. split; [exact Hrun|reflexivity].
  - apply Hother. intros l. discriminate.
Defined.

(** [TestStore_WithInvalidation]: one call, old fact first. *)
Lemma handleInvalidation_calls_witness :
  (exists toolErr msg,
     handleInvalidation test_GetStringArg test_fmt_q (recording MockQuerier)
       args_invalidates "fact:mock0001" (tt, [])
     = ((toolErr, msg),
        (tt, [CInvalidateFact "fact:old123" "fact:mock0001"
                "Replaced by fact:mock0001"])))
  /\ (exists te,
        handleInvalidation test_GetStringArg test_fmt_q
          (recording MockQuerier) args_invalidates_entity "fact:mock0001"
          (tt, [])
        = ((Some te, ""), (tt, []))
        /\ IsError te = true)
  /\ handleInvalidation test_GetStringArg test_fmt_q (recording MockQuerier)
       args_default_fact "fact:mock0001" (tt, [])
     = ((None, ""), (tt, [])).
Proof.
  split; [|split].
  - destruct (ToolsExtras.handleInvalidation_calls test_GetStringArg
                test_GetFloat64Arg test_Truncate test_ToLower test_fmt_q
                MockQuerier args_invalidates "fact:mock0001" tt [])
      as (_ & _ & H).
    destruct H as (toolErr & msg & Hrun & _).
    + vm_compute. discriminate.
    + vm_compute. reflexivity.
    + exists toolErr, msg. exact Hrun.
  - destruct (ToolsExtras.handleInvalidation_calls test_GetStringArg
                test_GetFloat64Arg test_Truncate test_ToLower test_fmt_q
                MockQuerier args_invalidates_entity "fact:mock0001" tt [])
      as (_ & H & _).
    apply H.
    + vm_compute. discriminate.
    + vm_compute. reflexivity.
  - destruct (ToolsExtras.handleInvalidation_calls test_GetStringArg
                test_GetFloat64Arg test_Truncate test_ToLower test_fmt_q
                MockQuerier args_default_fact "fact:mock0001" tt [])
      as (H & _).
    apply H. vm_compute. reflexivity.
Defined.

(** [TestStore_IncrementsCounter], on the request with an invalidation:
    the store, the invalidation, then the increment. *)
Lemma Store_success_increments_once_witness :
  exists r s3 log2 rel_calls,
    run_Store (recording MockQuerier) args_invalidates (tt, [])
    = (r, (s3, log2 ++ rel_calls ++ [CIncrementCounter "total_stores"]))
    /\ IsError r = false
    /\ length log2 = 2%nat.
Proof.
  edestruct (with_test_readers ToolsExtras.Store_success_increments_once
               MockQuerier args_invalidates tt)
    as (r & s3 & rel_calls & Hrun & Herr & _).
  - vm_compute. discriminate.
  - vm_compute. reflexivity.
  - discriminate.
  - vm_compute. reflexivity.
  - exists r, s3. eexists _, rel_calls.
    split; [exact Hrun|]. split; [exact Herr|reflexivity].
Defined.

(** Explicit targets pass through, also around a textual reference,
    which is dropped. *)
Lemma resolveBatchRefs_output_witness :
  resolveBatchRefs (AArr rels_some_refs) []
  = [obj [("edge", AStr "fact_entity"); ("target_id", AStr "ent:1")];
     obj [("edge", AStr "fact_topic"); ("target_id", AStr "top:1")]]
  /\ resolveBatchRefs (AArr rels_some_refs) []
     = resolveBatchRefs
         (AArr [obj [("edge", AStr "fact_entity");
                     ("target_id", AStr "ent:1")];
                AStr "x";
                obj [("edge", AStr "fact_topic");
                     ("target_id", AStr "top:1")]]) [].
Proof.
  destruct (ToolsExtras.resolveBatchRefs_output rels_some_refs [])
    as (_ & _ & _ & Hkeep & _ & _ & Hdrop & _).
  split.
  - rewrite (Hkeep
               [obj [("edge", AStr "fact_entity"); ("target_id", AStr "ent:1")];
                obj [("edge", AStr "fact_entity"); ("target_ref", AStr "0");
                     ("target_id", AStr "ent:1")];
                AStr "x"]
               (list_to_map [("edge", AStr "fact_topic");
                             ("target_id", AStr "top:1")]) []).
    + vm_compute. reflexivity.
    + reflexivity.
    + vm_compute. reflexivity.
  - rewrite (Hdrop
               [obj [("edge", AStr "fact_entity"); ("target_id", AStr "ent:1")]]
               rel_text_ref (AStr "0")
               [AStr "x";
                obj [("edge", AStr "fact_topic"); ("target_id", AStr "top:1")]]).
    + vm_compute. reflexivity.
    + reflexivity.
    + vm_compute. reflexivity.
    + intros q. discriminate.
    + intros z. split; discriminate.
Defined.

(** A bulk store without [items]. *)
Lemma BulkStore_rejects_missing_items_witness :
  exists r,
    run_BulkStore (recording MockQuerier) args_default_fact (tt, [])
    = (r, (tt, []))
    /\ IsError r = true.
Proof.
  apply (with_test_readers ToolsExtras.BulkStore_rejects_missing_items
           MockQuerier args_default_fact tt []).
  intros itemSlice. vm_compute. discriminate.
Defined.

(** [TestBulkStore_PartialFailure]: of three items, two are stored and
    one is reported. *)
Lemma bulk_phase1_accounts_for_every_item_witness :
  let p1 := (with_test_readers phase1_loop
               (MockQuerier_StoreFactFails "storage error") 0%nat
               items_partial (phase1_init (length items_partial)) tt).1 in
  (length (p1_errors p1) + count_stored (p1_stored p1) = 3)%nat
  /\ length (p1_errors p1) = 1%nat
  /\ totalStored_of (p1_typeCounts p1) = 2%Z.
Proof.
  intros p1.
  destruct (with_test_readers ToolsExtras.bulk_phase1_accounts_for_every_item
              (MockQuerier_StoreFactFails "storage error") items_partial tt)
    as (H1 & _ & H3).
  - change (length items_partial) with 3%nat. lia.
  - fold p1 in H1, H3. split; [exact H1|]. split.
    + vm_compute. reflexivity.
    + rewrite H3. vm_compute. reflexivity.
Defined.

(** [TestBulkStore_PartialFailure]: two items stored, two increments. *)
Lemma BulkStore_increments_once_per_stored_item_witness :
  exists r s' calls,
    run_BulkStore (recording (MockQuerier_StoreFactFails "storage error"))
      batch_partial (tt, [])
    = (r, (s', calls ++ [CIncrementCounter "total_stores";
                         CIncrementCounter "total_stores"]))
    /\ IsError r = false
    /\ Forall (fun call => is_increment call = false) calls.
Proof.
  destruct (with_test_readers
              ToolsExtras.BulkStore_increments_once_per_stored_item
              (MockQuerier_StoreFactFails "storage error") batch_partial
              items_partial tt [])
    as (r & s' & calls & Hrun & Herr & Hcalls & _).
  - vm_compute. reflexivity.
  - change (length items_partial) with 3%nat. lia.
  - exists r, s', calls. split; [exact Hrun|].
    split; [exact Herr|exact Hcalls].
Defined.

(** *** The reader *)

(** An exact search for [Water] over the small graph: the valid fact B
    is the first result. *)
Lemma ExactSearch_total_bounded_and_sound_witness :
  exists results sr,
    run_ExactSearch "Water" [] 5 = Ok results
    /\ (Z.of_nat (length results) <= 5)%Z
    /\ sr ∈ results
    /\ sr_ID sr = "fact:B"
    /\ ReaderViews.exact_match test_db "Water" (sr_NodeType sr) (sr_ID sr)
       = Some (sr_Content sr)
    /\ sr_Distance sr = 0%Q.
Proof.
  destruct (ReaderExtras.ExactSearch_total_bounded_and_sound
              (fun _ => false) test_fmt_v test_db "Water" [] 5)
    as (results & Hrun & Hlen & Hall).
  assert (Hhead : exists sr rest, results = sr :: rest /\ sr_ID sr = "fact:B").
  { vm_compute in Hrun. inversion Hrun. eexists _, _.
    split; reflexivity. }
  destruct Hhead as (sr & rest & Hres & Hid).
  assert (Hin : sr ∈ results).
  { rewrite Hres. apply elem_of_cons. now left. }
  destruct (Hall sr Hin) as (_ & Hmatch & Hdist).
  exists results, sr. split; [exact Hrun|]. split; [exact Hlen|].
  split; [exact Hin|]. split; [exact Hid|]. split; [exact Hmatch|exact Hdist].
Defined.

(** No embedder; an embedder that fails; a request for topics and
    decisions, neither of which has an index. *)
Lemma SemanticSearch_failure_modes_witness :
  SemanticSearch unit None test_hnsw test_fmt_v test_db "water" [] 5
  = Err "semantic search requires embeddings to be enabled"
  /\ SemanticSearch unit test_embedder_fails test_hnsw test_fmt_v test_db
       "water" [] 5
     = Err "generate query embedding: no model"
  /\ run_SemanticSearch "water" ["topic"; "decision"] 5 = Ok [].
Proof.
  split; [|split].
  - destruct (ReaderExtras.SemanticSearch_failure_modes unit None test_hnsw
                test_fmt_v test_db "water" [] 5) as (H & _).
    apply H. reflexivity.
  - destruct (ReaderExtras.SemanticSearch_failure_modes unit
                test_embedder_fails test_hnsw test_fmt_v test_db "water" [] 5)
      as (_ & H & _).
    apply (H (fun _ => Err "no model") "no model"); reflexivity.
  - destruct (ReaderExtras.SemanticSearch_failure_modes unit test_embedder
                test_hnsw test_fmt_v test_db "water" ["topic"; "decision"] 5)
      as (_ & _ & H).
    destruct (H (fun _ => Ok tt) tt eq_refl eq_refl)
      as (results & Hrun & _ & Hnil).
    unfold run_SemanticSearch. rewrite Hrun. f_equal. apply Hnil.
    + discriminate.
    + intros nt Hin. apply elem_of_cons in Hin as [->|Hin].
      * left. apply (bool_decide_unpack _). vm_compute. reflexivity.
      * apply elem_of_cons in Hin as [->|Hin];
          [|now apply elem_of_nil in Hin].
        right. vm_compute. reflexivity.
Defined.

(** An entity listing ignores [category], [status], [valid_only] and
    [topic_name]; an event listing has no condition at all. *)
Lemma ListNodes_ignores_foreign_filters_witness :
  ListNodes count_backend test_fmt_v test_nodeTypeToTable test_escapeDatalog
    (fun s => s) opts_entity_foreign
  = ListNodes count_backend test_fmt_v test_nodeTypeToTable test_escapeDatalog
      (fun s => s) opts_entity_own
  /\ buildListConditions test_escapeDatalog opts_event_filtered = [].
Proof.
  split.
  - destruct (ReaderExtras.ListNodes_ignores_foreign_filters count_backend
                test_fmt_v test_nodeTypeToTable test_escapeDatalog
                (fun s => s) opts_entity_foreign) as (H & _).
    exact H.
  - destruct (ReaderExtras.ListNodes_ignores_foreign_filters count_backend
                test_fmt_v test_nodeTypeToTable test_escapeDatalog
                (fun s => s) opts_event_filtered) as (_ & _ & H).
    apply H. left. reflexivity.
Defined.

(** Two pages of the same listing report the same total. *)
Lemma ListNodes_total_independent_of_page_witness :
  ListNodes count_backend test_fmt_v test_nodeTypeToTable test_escapeDatalog
    (fun s => s) opts_default = Ok ([], 7%Z)
  /\ ListNodes count_backend test_fmt_v test_nodeTypeToTable
       test_escapeDatalog (fun s => s)
       (ReaderViews.with_page opts_default 5 10 "updated_at" "asc")
     = Ok ([], 7%Z)
  /\ countNodes count_backend (fun s => s) "mie_fact"
       (buildListConditions test_escapeDatalog opts_default)
       (list_condStr (buildListConditions test_escapeDatalog opts_default))
     = Ok 7%Z.
Proof.
  assert (H1 : ListNodes count_backend test_fmt_v test_nodeTypeToTable
                 test_escapeDatalog (fun s => s) opts_default
               = Ok ([], 7%Z)) by (vm_compute; reflexivity).
  assert (H2 : ListNodes count_backend test_fmt_v test_nodeTypeToTable
                 test_escapeDatalog (fun s => s)
                 (ReaderViews.with_page opts_default 5 10 "updated_at" "asc")
               = Ok ([], 7%Z)) by (vm_compute; reflexivity).
  destruct (ReaderExtras.ListNodes_total_independent_of_page count_backend
              test_fmt_v test_nodeTypeToTable test_escapeDatalog
              (fun s => s) opts_default 5 10 "updated_at" "asc"
              [] [] 7 7 H1 H2) as (_ & Hcount).
  split; [exact H1|]. split; [exact H2|exact Hcount].
Defined.

(** *** Lookups, chain and exports *)

Lemma GetNodeByID_prefixed_looks_up_one_variant_witness :
  (exists node,
     run_GetNodeByID "ent:W" = Ok node
     /\ ReaderViews.node_variant node = "entity")
  /\ run_GetNodeByID "ent:none"
     = Err ("node " +:+ test_fmt_q "ent:none" +:+ " not found").
Proof.
  split.
  - destruct (LookupExtras.GetNodeByID_prefixed_looks_up_one_variant
                lookup_backend test_fmt_v test_fmt_q test_nodeTypeToTable
                test_escapeDatalog "ent:W") as (H & _ & _).
    + vm_compute. discriminate.
    + eexists. split; [vm_compute; reflexivity|].
      refine (proj1 (H _ _)). vm_compute. reflexivity.
  - destruct (LookupExtras.GetNodeByID_prefixed_looks_up_one_variant
                lookup_backend test_fmt_v test_fmt_q test_nodeTypeToTable
                test_escapeDatalog "ent:none") as (_ & H & _).
    + vm_compute. discriminate.
    + apply H. vm_compute. reflexivity.
Defined.

(** The identifier [misc] has no prefix: the fact lookup fails, which
    is passed over, and the topic is found; [zz] is found nowhere. *)
Lemma GetNodeByID_unprefixed_tries_variants_in_order_witness :
  (exists node,
     run_GetNodeByID "misc" = Ok node
     /\ ReaderViews.node_variant node ∈ node_types
     /\ MemoryReader.getNodeByType lookup_backend test_fmt_v
          test_nodeTypeToTable test_escapeDatalog "misc" "fact"
        = Err "backend down")
  /\ forall e, run_GetNodeByID "zz" = Err e ->
               e = "node " +:+ test_fmt_q "zz" +:+ " not found".
Proof.
  split.
  - destruct (LookupExtras.GetNodeByID_unprefixed_tries_variants_in_order
                lookup_backend test_fmt_v test_fmt_q test_nodeTypeToTable
                test_escapeDatalog "misc") as (_ & H & _).
    + vm_compute. reflexivity.
    + eexists. split; [vm_compute; reflexivity|].
      split; [|vm_compute; reflexivity].
      apply H. vm_compute. reflexivity.
  - destruct (LookupExtras.GetNodeByID_unprefixed_tries_variants_in_order
                lookup_backend test_fmt_v test_fmt_q test_nodeTypeToTable
                test_escapeDatalog "zz") as (_ & _ & H).
    + vm_compute. reflexivity.
    + exact H.
Defined.

(** Only the invalidated fact A mentions 10 degrees, and it is found. *)
Lemma FindFactByContent_includes_invalidated_witness :
  exists fact,
    MemoryReader.FindFactByContent test_fmt_v no_backend_err test_db
      "10 degrees" = Ok (Some fact)
    /\ f_ID fact = "fact:A"
    /\ f_Valid fact = false.
Proof.
  destruct (LookupExtras.FindFactByContent_includes_invalidated test_fmt_v
              no_backend_err test_db "10 degrees") as (_ & Hfind).
  - reflexivity.
  - destruct (Hfind "fact:A" fact_A) as (fact & Hrun).
    + vm_compute. reflexivity.
    + vm_compute. reflexivity.
    + exists fact. split; [exact Hrun|].
      vm_compute in Hrun. inversion Hrun. split; reflexivity.
Defined.

(** The record of B replacing A is in the chain of A and in that of B. *)
Lemma GetInvalidationChain_direct_and_two_sided_witness :
  exists chain_new,
    run_GetInvalidationChain "fact:A" = Ok [inv_BA]
    /\ run_GetInvalidationChain "fact:B" = Ok chain_new
    /\ inv_BA ∈ chain_new.
Proof.
  assert (Hrun : run_GetInvalidationChain "fact:A" = Ok [inv_BA])
    by (vm_compute; reflexivity).
  assert (Hin : inv_BA ∈ [inv_BA]) by (apply elem_of_cons; now left).
  destruct (LookupExtras.GetInvalidationChain_direct_and_two_sided test_fmt_v
              no_backend_err test_db test_invalidates "fact:A" [inv_BA]
              inv_BA Hrun Hin)
    as (_ & _ & _ & (c1 & c2 & H1 & Hin1 & _ & _)).
  exists c1. split; [exact Hrun|]. split; [exact H1|exact Hin1].
Defined.

(** Both facts of the small graph are exported, the invalidated one
    included. *)
Lemma exports_return_every_stored_node_witness :
  exists facts,
    MemoryReader.exportFacts test_fmt_v no_backend_err test_db = Ok facts
    /\ length facts = 2%nat
    /\ fact_of "fact:A" fact_A ∈ facts.
Proof.
  destruct (LookupExtras.exports_return_every_stored_node test_fmt_v
              no_backend_err test_db) as (Hf & _).
  destruct (Hf eq_refl) as (facts & Hrun & Hall & _ & Hlen).
  exists facts. split; [exact Hrun|]. split.
  - rewrite Hlen. vm_compute. reflexivity.
  - apply Hall. vm_compute. reflexivity.
Defined.

(** *** The counters *)

(** Three increments of an absent counter. *)
Lemma IncrementCounter_counts_calls_witness :
  Nat.iter 3
    (fun m => (MemoryClient.IncrementCounter test_fmt_v None None None
                 1700000000 "total_stores" m).2) ∅
    !! "total_stores" = Some "3".
Proof.
  apply (ClientExtras.IncrementCounter_counts_calls test_fmt_v 1700000000
           None "total_stores" ∅ 3).
  - reflexivity.
  - lia.
  - vm_compute. discriminate.
Defined.

(** A failed write changes nothing; a counter that reads [abc] restarts
    at 1 and the other keys stay. *)
Lemma IncrementCounter_edge_cases_witness :
  MemoryClient.IncrementCounter test_fmt_v None (Some "disk full") None
    1700000000 "total_queries" meta_garbled
  = (Some "increment counter total_queries: disk full", meta_garbled)
  /\ (MemoryClient.IncrementCounter test_fmt_v None None None 1700000000
        "total_stores" meta_garbled).2 !! "total_stores" = Some "1"
  /\ (MemoryClient.IncrementCounter test_fmt_v None None None 1700000000
        "total_stores" meta_garbled).2 !! "schema_version" = Some "1".
Proof.
  split; [|split].
  - destruct (ClientExtras.IncrementCounter_edge_cases test_fmt_v 1700000000
                None (Some "disk full") None "total_queries" meta_garbled)
      as (H & _).
    apply H. reflexivity.
  - destruct (ClientExtras.IncrementCounter_edge_cases test_fmt_v 1700000000
                None None None "total_stores" meta_garbled) as (_ & H).
    destruct (H eq_refl) as (_ & Hrestart & _).
    apply Hrestart. right. right. exists "abc".
    split; vm_compute; reflexivity.
  - destruct (ClientExtras.IncrementCounter_edge_cases test_fmt_v 1700000000
                None None None "total_stores" meta_garbled) as (_ & H).
    destruct (H eq_refl) as (_ & _ & Hother & _).
    rewrite Hother; [vm_compute; reflexivity|discriminate|].
    vm_compute. discriminate.
Defined.

(** *** The statistics *)

(** The small graph: two facts, one valid and one invalidated. *)
Lemma GetStats_counts_are_coherent_witness :
  MemoryStats.TotalFacts (run_GetStats ∅) = 2%Z
  /\ MemoryStats.TotalFacts (run_GetStats ∅)
     = (MemoryStats.ValidFacts (run_GetStats ∅)
        + MemoryStats.InvalidatedFacts (run_GetStats ∅))%Z
  /\ MemoryStats.ValidFacts (run_GetStats ∅) = 1%Z
  /\ (0 <= MemoryStats.TotalFacts (run_GetStats ∅) <= 2)%Z.
Proof.
  destruct (StatsExtras.GetStats_counts_are_coherent test_fmt_v
              (fun _ => false) test_ValidEdgeTables test_edge_rows test_db ∅)
    as (H & _ & Hall).
  destruct (H eq_refl eq_refl eq_refl) as (Hsum & Htot).
  destruct (Forall_inv Hall) as (_ & Hok & Hrange).
  split; [|split; [|split]].
  - unfold run_GetStats. rewrite (Hok eq_refl). vm_compute. reflexivity.
  - exact Hsum.
  - vm_compute. reflexivity.
  - exact Hrange.
Defined.

(** Two stores are counted, and reported. *)
Lemma GetStats_reads_back_the_counters_witness :
  let meta :=
    Nat.iter 2
      (fun m => (MemoryClient.IncrementCounter test_fmt_v None None None
                   1700000000 "total_stores" m).2) ∅ in
  MemoryStats.TotalStores (run_GetStats meta) = 2%Z
  /\ MemoryStats.LastStoreAt (run_GetStats meta) = 1700000000%Z.
Proof.
  apply (StatsExtras.GetStats_reads_back_the_counters test_fmt_v
           (fun _ => false) test_ValidEdgeTables test_edge_rows test_db
           1700000000 ∅ 2).
  - reflexivity.
  - lia.
  - vm_compute. discriminate.
  - split; vm_compute; discriminate.
  - reflexivity.
  - reflexivity.
Defined.

(** *** Decisions and entities *)

(** The entity is returned twice for the decision, once per role; the
    decision is returned once for the entity. *)
Lemma decision_entity_traversals_agree_witness :
  exists entities found,
    MemoryTraversals.GetDecisionEntities test_fmt_v no_backend_err test_db
      test_decision_entity "dec:1" = Ok entities
    /\ MemoryTraversals.GetEntityDecisions test_fmt_v no_backend_err
         test_decisions test_decision_entity "ent:W" = Ok found
    /\ length entities = 2%nat
    /\ length found = 1%nat
    /\ MemoryTraversals.decision_of "dec:1" decision_1 ∈ found.
Proof.
  destruct (MemoryTraversals.GetDecisionEntities test_fmt_v no_backend_err
              test_db test_decision_entity "dec:1")
    as [entities|e] eqn:Hents; [|vm_compute in Hents; discriminate].
  destruct (MemoryTraversals.GetEntityDecisions test_fmt_v no_backend_err
              test_decisions test_decision_entity "ent:W")
    as [found|e] eqn:Hfound; [|vm_compute in Hfound; discriminate].
  destruct (TraversalExtras.decision_entity_traversals_agree test_fmt_v
              no_backend_err test_db test_decisions test_decision_entity
              "dec:1" "ent:W" decision_1 entity_W entities found)
    as (Hiff & _ & _).
  - vm_compute. reflexivity.
  - vm_compute. reflexivity.
  - exact Hents.
  - exact Hfound.
  - exists entities, found. split; [reflexivity|]. split; [reflexivity|].
    split; [|split].
    + vm_compute in Hents. inversion Hents. reflexivity.
    + vm_compute in Hfound. inversion Hfound. reflexivity.
    + apply Hiff. exists "owner". vm_compute in Hents.
      inversion Hents as [Heq].
      first [ apply elem_of_cons; left; vm_compute; reflexivity
            | apply elem_of_cons; right; apply elem_of_cons; left;
              vm_compute; reflexivity ].
Defined.

(** *** The query tool *)

Abbreviation with_query_readers f :=
  (f test_GetStringArg test_GetStringSliceArg test_GetIntArg test_Truncate
     test_SimilarityPercent test_SimilarityIndicator test_fmt_q test_fmt_f1).

(** A request for 500 results reaches the client with the limit 50. *)
Lemma Query_search_limit_clamped_witness :
  exists calls,
    (run_Query (QueryTool.recording MockReader) args_query_500 (tt, [])).2.2
    = calls
    /\ QueryTool.CSemanticSearch "test"
         ["fact"; "decision"; "entity"; "event"] 50 ∈ calls
    /\ forall q nts l,
         QueryTool.CSemanticSearch q nts l ∈ calls -> (1 <= l <= 50)%Z.
Proof.
  destruct (with_query_readers QueryExtras.Query_search_limit_clamped
              MockReader args_query_500 tt []) as (calls & Hlog & Hall).
  exists calls. split; [exact Hlog|]. split.
  - vm_compute in Hlog. rewrite <- Hlog.
    apply elem_of_cons. right. apply elem_of_cons. now left.
  - intros q nts l Hin. apply (Hall q nts l). now left.
Defined.

(** A graph traversal without a [query] argument is rejected. *)
Lemma Query_rejects_before_any_call_witness :
  exists r,
    run_Query (QueryTool.recording MockReader) args_graph_no_query (tt, [])
    = (r, (tt, []))
    /\ IsError r = true.
Proof.
  apply (with_query_readers QueryExtras.Query_rejects_before_any_call
           MockReader args_graph_no_query tt []).
  left. vm_compute. reflexivity.
Defined.

(** [TestQuery_SemanticEmbeddingsDisabled]. *)
Lemma Query_semantic_requires_embeddings_witness :
  run_Query (QueryTool.recording MockReader_NoEmbeddings) args_query_500
    (tt, [])
  = (NewError "Semantic search requires embeddings to be enabled. Enable in config or use mode=exact.",
     (tt, [QueryTool.CEmbeddingsEnabled])).
Proof.
  apply (with_query_readers QueryExtras.Query_semantic_requires_embeddings
           MockReader_NoEmbeddings args_query_500 tt []).
  - vm_compute. discriminate.
  - vm_compute. reflexivity.
  - reflexivity.
Defined.

(** The traversal [related_facts] calls [GetFactsAboutEntity]. *)
Lemma Query_graph_traversal_is_one_call_witness :
  exists r s',
    run_Query (QueryTool.recording MockReader) args_graph_related_facts
      (tt, [])
    = (r, (s', [QueryTool.CGetFactsAboutEntity "ent:W"]
               ++ (if IsError r then []
                   else [QueryTool.CIncrementCounter "total_queries"]))).
Proof.
  destruct (with_query_readers QueryExtras.Query_graph_traversal_is_one_call
              MockReader args_graph_related_facts tt []
              (QueryTool.CGetFactsAboutEntity "ent:W"))
    as ((r & s' & Hrun) & _).
  - vm_compute. discriminate.
  - vm_compute. reflexivity.
  - vm_compute. discriminate.
  - vm_compute. reflexivity.
  - exists r, s'. exact Hrun.
Defined.

End MoreWitnesses.
